(** * Truth Has a Half Life: evidence model, ledger and ending selector

    A shallow embedding of the game logic of [truth_has_a_half_life.py]
    (class [VanishingMemoriesGame] and the module-level helpers it uses),
    followed by the properties established about it.

    Conventions of the embedding.
    - A Python [str] is a Rocq [string]; each [ascii] stands for the code
      point of the same number (0..255).  [str.lower], [str.isdigit] and
      [int] are modelled exactly on that range.
    - An uncaught Python exception is the [Raise] result of the [pyres]
      monad.
    - Time is kept in integer milliseconds, the unit [Clock.tick] returns;
      the source divides by [1000.0] and compares float seconds.  A sum
      of float seconds that lands on a threshold of the source (a fade
      time, the end of the countdown) can fall on the other side of it by
      rounding, so that the source crosses it one tick apart from the
      model; the properties below are step properties and invariants
      that hold either way, and their examples sit on no threshold.
    - Surfaces, fonts and sounds are presentation only; where the logic
      reads them (does an image load, which artifact is under the cursor)
      the value is an input of the model.  No sound is played: the game
      is the one whose mixer is not available ([self.sounds = {}]), in
      which every sound call of the source is skipped. *)

From Stdlib Require Import ZArith NArith String Ascii List Bool Lia.
From stdpp Require Import base option list gmap strings.
Import ListNotations.

Local Open Scope string_scope.
Local Open Scope Z_scope.

(** ** Python results *)

Inductive exn : Type := ValueError | KeyError | IndexError.

Inductive pyres (A : Type) : Type :=
| Ok (a : A)
| Raise (e : exn).
Arguments Ok {A} a.
Arguments Raise {A} e.

#[global] Instance pyres_ret : MRet pyres := fun A a => Ok a.
#[global] Instance pyres_bind : MBind pyres := fun A B f m =>
  match m with
  | Ok a => f a
  | Raise e => Raise e
  end.

Definition is_Ok {A} (r : pyres A) : bool :=
  match r with Ok _ => true | Raise _ => false end.

(** ** Python string primitives *)

Module Py.

Definition ord (c : ascii) : N := N_of_ascii c.

(** [str.isdigit] on one character: the decimal digits and the
    superscripts U+00B2, U+00B3, U+00B9. *)
Definition chr_isdigit (c : ascii) : bool :=
  let n := ord c in
  (((48 <=? n) && (n <=? 57)) || (n =? 178) || (n =? 179) || (n =? 185))%N.

(** The characters [int] accepts as digits. *)
Definition chr_isdecimal (c : ascii) : bool :=
  let n := ord c in ((48 <=? n) && (n <=? 57))%N.

Definition chr_isascii (c : ascii) : bool := (ord c <? 128)%N.

(** [str.lower] on one character: A-Z and the upper-case letters of
    U+00C0..U+00DE (U+00D7 is the multiplication sign). *)
Definition chr_lower (c : ascii) : ascii :=
  let n := ord c in
  if (((65 <=? n) && (n <=? 90))
      || ((192 <=? n) && (n <=? 222) && negb (n =? 215)))%N
  then ascii_of_N (n + 32) else c.

Fixpoint lower (s : string) : string :=
  match s with
  | EmptyString => EmptyString
  | String c r => String (chr_lower c) (lower r)
  end.

Fixpoint forallb_str (p : ascii -> bool) (s : string) : bool :=
  match s with
  | EmptyString => true
  | String c r => p c && forallb_str p r
  end.

(** [s.isdigit()]: at least one character and all of them digits. *)
Definition isdigit (s : string) : bool :=
  match s with
  | EmptyString => false
  | _ => forallb_str chr_isdigit s
  end.

Definition isascii (s : string) : bool := forallb_str chr_isascii s.

Definition startswith (s p : string) : bool := String.prefix p s.

Definition endswith (s p : string) : bool :=
  (String.length p <=? String.length s)%nat
  && String.eqb (String.substring (String.length s - String.length p) (String.length p) s) p.

(** [s[n:]] for [n >= 0]. *)
Fixpoint slice_from (n : nat) (s : string) : string :=
  match n, s with
  | O, _ => s
  | S k, EmptyString => EmptyString
  | S k, String _ r => slice_from k r
  end.

(** [str.isspace] on one character. *)
Definition chr_isspace (c : ascii) : bool :=
  let n := ord c in
  (((9 <=? n) && (n <=? 13)) || ((28 <=? n) && (n <=? 32))
   || (n =? 133) || (n =? 160))%N.

Fixpoint lstrip (s : string) : string :=
  match s with
  | EmptyString => EmptyString
  | String c r => if chr_isspace c then lstrip r else s
  end.

Fixpoint rstrip (s : string) : string :=
  match s with
  | EmptyString => EmptyString
  | String c r =>
      match rstrip r with
      | EmptyString => if chr_isspace c then EmptyString else String c EmptyString
      | r' => String c r'
      end
  end.

Definition strip (s : string) : string := rstrip (lstrip s).

(** [s.replace(old, new)] for a non-empty [old]: one pass from the left,
    occurrences do not overlap.  [skip] counts the characters of a match
    still to be dropped. *)
Fixpoint replace_from (old new s : string) (skip : nat) : string :=
  match s with
  | EmptyString => EmptyString
  | String c r =>
      match skip with
      | S k => replace_from old new r k
      | O =>
          if String.prefix old s
          then new ++ replace_from old new r (String.length old - 1)
          else String c (replace_from old new r O)
      end
  end.

Definition replace (s old new : string) : string := replace_from old new s O.

(** The longest prefix of digits, as the loop
    [for c in s: if c.isdigit(): num_str += c else: break] collects it. *)
Fixpoint digit_run (s : string) : string :=
  match s with
  | EmptyString => EmptyString
  | String c r => if chr_isdigit c then String c (digit_run r) else EmptyString
  end.

Fixpoint decimal_value (acc : Z) (s : string) : Z :=
  match s with
  | EmptyString => acc
  | String c r => decimal_value (10 * acc + (Z.of_N (ord c) - 48)) r
  end.

(** CPython's default bound on the number of digits [int] converts
    ([sys.get_int_max_str_digits()]). *)
Definition int_max_str_digits : nat := 4300.

(** [int(s)] for a string without sign, blanks or underscores. *)
Definition int (s : string) : pyres Z :=
  match s with
  | EmptyString => Raise ValueError
  | _ =>
      if forallb_str chr_isdecimal s
         && (String.length s <=? int_max_str_digits)%nat
      then Ok (decimal_value 0 s)
      else Raise ValueError
  end.

End Py.

(** ** Artifact keys *)

(** The dictionary [{"q": "queen", "c": "chef", "g": "goblin"}], looked up
    after the membership test [base[0] in ("q", "c", "g")]. *)
Definition suspect_of_letter (c : ascii) : option string :=
  if Ascii.eqb c "q" then Some "queen"
  else if Ascii.eqb c "c" then Some "chef"
  else if Ascii.eqb c "g" then Some "goblin"
  else None.

Definition _parse_artifact_suspect_and_points (filename : string)
  : pyres (string * Z) :=
  let base := Py.replace (Py.lower filename) ".png" "" in
  if Py.startswith base "r" && Py.isdigit (Py.slice_from 1 base)
  then Ok ("", 0)
  else
    match base with
    | EmptyString => Ok ("", 0)
    | String c rest =>
        match suspect_of_letter c with
        | None => Ok ("", 0)
        | Some suspect =>
            let num_str := Py.digit_run rest in
            points ← (match num_str with
                      | EmptyString => Ok 0
                      | _ => Py.int num_str
                      end);
            Ok (suspect, points)
        end
    end.

(** ** Scene and evidence model *)

Inductive Culprit : Type := Queen | Goblin | Chef.

#[global] Instance Culprit_eq_dec : EqDecision Culprit.
Proof. solve_decision. Defined.

(** [Suspect.id] of the three suspects [_build_suspects] returns; the
    culprit is [random.choice] among them. *)
Definition culprit_id (k : Culprit) : string :=
  match k with
  | Queen => "queen"
  | Goblin => "goblin"
  | Chef => "chef"
  end.

Definition suspects : list Culprit := [Queen; Goblin; Chef].

(** The fields of [SceneArtifact] the game logic reads; position,
    rotation, darkening and the surface only matter to drawing. *)
Record SceneArtifact : Type := mkArtifact {
  tags : list string;
  spec_filename : string;
  suspect_id : string;
  points : Z
}.

Record MemoryScene : Type := mkScene {
  label : string;
  artifacts : list SceneArtifact
}.

(** (scene index, original filename) -> replacement filename *)
Definition REPLACEMENT_MAP : gmap (nat * string) string :=
  list_to_map [
    ((1%nat, "c10-1.png"), "r3.png");
    ((1%nat, "q5-2.png"), "r1.png");
    ((2%nat, "g5-1.png"), "r6.png");
    ((2%nat, "q5-1.png"), "r2.png");
    ((3%nat, "c5-1.png"), "r4.png");
    ((3%nat, "g5-2.png"), "r5.png");
    ((3%nat, "q10-2.png"), "r7.png");
    ((4%nat, "g10-1.png"), "r8.png");
    ((4%nat, "c5-2.png"), "r9.png");
    ((4%nat, "q10-1.png"), "r10.png");
    ((5%nat, "c10-2.png"), "r11.png");
    ((5%nat, "g10-2.png"), "r12.png")
  ].

Definition EVIDENCE_POINTS_REQUIRED : Z := 12.

Definition labels : list string :=
  ["09:12"; "11:17"; "12:03"; "14:40"; "18:22"; "21:10"].

(** First component of every entry of [artifact_specs]; the others place
    and scale the image. *)
Definition artifact_specs : list (list string) := [
  ["q1-1.png"; "c1-1.png"; "g1-1.png"];
  ["q5-2.png"; "c10-1.png"; "g1-2.png"];
  ["q5-1.png"; "c1-2.png"; "g5-1.png"];
  ["q10-2.png"; "c5-1.png"; "g5-2.png"];
  ["q10-1.png"; "c5-2.png"; "g10-1.png"];
  ["q1-2.png"; "c10-2.png"; "g10-2.png"]
].

Definition tag_options : list (list string) := [
  ["dna"; "time"; "access"];
  ["jealousy"; "relationship"; "motive"];
  ["workshop"; "insider"; "struggle"];
  ["digital"; "lure"; "premeditation"];
  ["poison"; "escape"; "alibi_break"];
  ["entry"; "forensics"; "tools"]
].

(** Where an artifact image is read from: [scenes/s{i+1}/<file>] or
    [replacements/<file>]. *)
Inductive AssetPath : Type :=
| SceneAsset (i : nat) (filename : string)
| ReplacementAsset (filename : string).

(** [l[i]] for a natural index. *)
Definition list_get {A} (l : list A) (i : nat) : pyres A :=
  match l !! i with
  | Some x => Ok x
  | None => Raise IndexError
  end.

Fixpoint mapM_res {A B} (f : A -> pyres B) (l : list A) : pyres (list B) :=
  match l with
  | [] => Ok []
  | x :: r => y ← f x; ys ← mapM_res f r; Ok (y :: ys)
  end.

(** The test deciding whether the decoy is shown. *)
Definition use_replacement (killer_id : string) (i : nat)
    (orig_filename suspect : string) (pts : Z) : bool :=
  negb (String.eqb killer_id suspect)
  && ((pts =? 5) || (pts =? 10))
  && bool_decide (is_Some (REPLACEMENT_MAP !! (i, orig_filename))).

(** One round of the loop over [artifact_specs[i]], up to the image load:
    the path the image is read from and the artifact appended when the
    load succeeds. *)
Definition build_artifact (killer_id : string) (i : nat) (scene_tags : list string)
    (orig_filename : string) : pyres (AssetPath * SceneArtifact) :=
  '(suspect, pts) ← _parse_artifact_suspect_and_points orig_filename;
  if use_replacement killer_id i orig_filename suspect pts then
    match REPLACEMENT_MAP !! (i, orig_filename) with
    | Some load_filename =>
        Ok (ReplacementAsset load_filename, mkArtifact scene_tags load_filename "" 0)
    | None => Raise KeyError
    end
  else
    Ok (SceneAsset i orig_filename, mkArtifact scene_tags orig_filename suspect pts).

(** ** Geometry and the asset provider *)

Record Rect : Type := mkRect { left : Z; top : Z; width : Z; height : Z }.

(** [pygame.Rect.collidepoint]: the right and bottom edges are outside. *)
Definition collidepoint (r : Rect) (p : Z * Z) : bool :=
  (left r <=? p.1) && (p.1 <? left r + width r)
  && (top r <=? p.2) && (p.2 <? top r + height r).

(** What the logic reads from the asset and font providers. *)
Class AssetProvider : Type := {
  (** outcome of the [try] block that loads and scales an artifact image:
      [true] when no [pygame.error] or [FileNotFoundError] is raised *)
  loads : AssetPath -> bool;
  (** [self.clock_rects], the click areas [_load_menu_assets] builds *)
  clock_rects : list Rect;
  (** size of the rendered hint [Close (X)] in [popup_small_font] *)
  close_hint_size : Z * Z
}.

Section Scenes.
Context `{AssetProvider}.

Definition loaded_artifacts (built : list (AssetPath * SceneArtifact))
  : list SceneArtifact :=
  map snd (List.filter (fun pa => loads pa.1) built).

Definition build_scene (killer_id : string) (i : nat) (lbl : string)
  : pyres MemoryScene :=
  specs ← list_get artifact_specs i;
  scene_tags ← list_get tag_options i;
  built ← mapM_res (build_artifact killer_id i scene_tags) specs;
  Ok (mkScene lbl (loaded_artifacts built)).

(** The loop [for i, label in enumerate(labels)], from index [i] on. *)
Fixpoint build_scenes_from (killer_id : string) (i : nat) (lbls : list string)
  : pyres (list MemoryScene) :=
  match lbls with
  | [] => Ok []
  | lbl :: r =>
      sc ← build_scene killer_id i lbl;
      scs ← build_scenes_from killer_id (S i) r;
      Ok (sc :: scs)
  end.

Definition _build_scenes (killer_id : string) : pyres (list MemoryScene) :=
  build_scenes_from killer_id 0 labels.

End Scenes.

(** ** Scripts

    A text box is [SPEAKER\nDialogue].  The lines are written in UTF-8;
    [text_len] counts code points, which is what [len] returns. *)

Definition nl : string := String (ascii_of_nat 10) EmptyString.
Definition dq : string := String (ascii_of_nat 34) EmptyString.
Definition blank : string := EmptyString.
Definition quoted (s : string) : string := dq ++ s ++ dq.
Definition box (speaker : string) (body : list string) : string :=
  speaker ++ nl ++ String.concat nl body.

Definition is_continuation_byte (c : ascii) : bool :=
  ((128 <=? Py.ord c) && (Py.ord c <? 192))%N.

Fixpoint text_len (s : string) : nat :=
  match s with
  | EmptyString => O
  | String c r => if is_continuation_byte c then text_len r else S (text_len r)
  end.

Definition OPENING_SCRIPT : list (list string) := [
  [
    box "Narration" ["For three centuries, the Kingdom of Vaelor has known only one ruler."];
    box "Narration" ["King Aldric the Everlasting."; "The Immortal King."];
    box "Narration" ["It is said no blade could wound him."; "No poison could claim him."; "No illness could weaken him."];
    box "Narration" ["Tonight… that legend trembles."]
  ];
  [
    box "Narration" ["The King was found before dusk…"];
    box "Narration" ["Unresponsive."];
    box "Queen Elira" [(quoted "He was well this morning…")];
    box "Princess Lyra" [(quoted "Father… please wake…")];
    box "Archmage Seredin" [(quoted "Something binds him. Not death… not yet.")]
  ];
  [
    box "Narration" ["You are the High Inquisitor of Vaelor."];
    box "Narration" ["When treason threatens the crown, you uncover the truth."];
    box "Knight-Captain Rowan" [(quoted "The chamber was sealed. Only those within the castle walls had access.")];
    box "Narration" ["Three stand within suspicion."]
  ];
  [
    box "Archmage Seredin" [(quoted "His life lingers… caught between breath and silence.")];
    box "Archmage Seredin" [(quoted "If poison was used… its source may still echo within memory.")];
    box "Archmage Seredin" [(quoted "Bring me proof of the guilty.")];
    box "Archmage Seredin" [(quoted "Three fragments of truth.")];
    box "Archmage Seredin" [(quoted "If the correct blood is taken… I may yet anchor him to this world.")]
  ];
  [
    box "Narration" ["You have limited time."];
    box "Narration" ["The King's memory fades."];
    box "Narration" ["Each chamber you enter holds fragments of truth… and falsehood."];
    box "Narration" ["Choose wisely."]
  ];
  [
    box "Archmage Seredin" [(quoted "Select three pieces of evidence.")];
    box "Archmage Seredin" [(quoted "Accuse the traitor.")];
    box "Archmage Seredin" [(quoted "Justice will be swift.")];
    box "Archmage Seredin" [(quoted "The King must endure.")]
  ];
  [
    box "Narration" ["Legends speak of immortality."];
    box "Narration" ["But even legends rest upon fragile things."];
    box "Narration" ["And fragile things… crack."];
    box "Narration" ["The investigation begins."]
  ]
].

Definition BAD_ENDING_RED_CRYSTAL : list string := [
  box "Narration" ["The ritual begins."];
  box "Archmage Selwyn" [(quoted "The fragments… they are incomplete.")];
  box "Narration" ["The Mnemosyne Prism trembles."; blank; "Its light shifts — not green… but red."];
  box "Archmage Selwyn" [(quoted "There is not enough truth to bind him.")];
  box "Narration" ["The crystal screams."];
  box "Narration" ["And then it fractures."]
].

Definition BAD_ENDING_DEAD_KING : list string := [
  box "Narration" ["King Aldric exhales."; blank; "And does not breathe again."];
  box "Queen Elira" [(quoted "No…")];
  box "Prince" [(quoted "Father…")];
  box "Archmage Selwyn" [(quoted "The thread has severed.")];
  box "Narration" ["The Immortal King lies still."];
  box "Narration" ["Legends do not resist silence."]
].

Definition BAD_ENDING_QUEEN_FREE : list string := [
  box "Narration" ["In mourning black, Queen Elira stood before the court."];
  box "Narration" ["No accusation touched her."; "No proof condemned her."];
  box "Narration" ["The crown passed quietly."];
  box "Narration" ["Behind every grieving smile…"; "ambition endured."];
  box "Narration" ["Vaelor did not fall that night."; blank; "But something within it did."];
  box "Narration" ["You failed to gather sufficient evidence."; "The ritual collapsed."; "The traitor remains upon the throne."];
  box "Narration" ["BAD ENDING I — Truth Unclaimed"]
].

Definition BAD_ENDING_GOBLIN_FREE : list string := [
  box "Narration" ["Brannic Ashhand kept his post."; blank; "Sweeping ash."; "Stoking flame."];
  box "Narration" ["No one questioned the hands that moved unseen through corridors."];
  box "Narration" ["No one noticed the embers burning after midnight."];
  box "Narration" ["In furnace light…"; "he smiled."];
  box "Narration" ["A kingdom may survive a dead king."; blank; "It may not survive a hidden spark."];
  box "Narration" ["You failed to gather sufficient evidence."; "The ritual collapsed."; "The true traitor walks freely within Vaelor."];
  box "Narration" ["BAD ENDING I — Truth Unclaimed"]
].

Definition BAD_ENDING_CHEF_FREE : list string := [
  box "Narration" ["Master Edrin Vale continued to prepare the royal meals."];
  box "Narration" ["He bowed when addressed."; "He smiled when thanked."];
  box "Narration" ["In the kitchens of Vaelor, flavors masked many things."];
  box "Narration" ["Trust… among them."];
  box "Narration" ["The blade that cuts bread may cut deeper still."];
  box "Narration" ["You failed to gather sufficient evidence."; "The ritual collapsed."; "The poisoner remains among the living."];
  box "Narration" ["BAD ENDING I — Truth Unclaimed"]
].

Definition BAD_ENDING_II_RED_CRYSTAL : list string := [
  box "Narration" ["The blood touches light."];
  box "Narration" ["For a moment… it glows green."];
  box "Narration" ["Then the color fractures."];
  box "Mage" [(quoted "No…")];
  box "Narration" ["The crystal burns red."]
].

Definition BAD_ENDING_II_DEAD_KING : list string := [
  box "Narration" ["The light falters."];
  box "Mage" [(quoted "It does not bind.")];
  box "Narration" ["The King exhales."];
  box "Narration" ["And does not breathe again."];
  box "Narration" ["The Immortal King… lies still."]
].

Definition BAD_ENDING_II_QUEEN_FREE : list string := [
  box "Narration" ["The Queen wept the loudest."];
  box "Narration" ["Grief can resemble innocence."];
  box "Narration" ["But power wears many masks."];
  box "Narration" ["With the throne unguarded… she claims what was always within reach."];
  box "Narration" ["Vaelor bends to a quieter tyranny."];
  box "Narration" ["BAD ENDING II — The False Judgement"]
].

Definition BAD_ENDING_II_CHEF_FREE : list string := [
  box "Narration" ["The kitchens never close."];
  box "Narration" ["And poison needs no throne."];
  box "Narration" ["While another suffered chains… the cook walked free."];
  box "Narration" ["The city dines."];
  box "Narration" ["Not knowing what simmers beneath the lid."];
  box "Narration" ["BAD ENDING II — The False Judgement"]
].

Definition BAD_ENDING_II_GOBLIN_FREE : list string := [
  box "Narration" ["Small hands leave quiet traces."];
  box "Narration" ["You never saw them."];
  box "Narration" ["While another bled in chains… the alchemist slipped into the dark."];
  box "Narration" ["The walls of Vaelor crumble from within."];
  box "Narration" ["And something watches from the hills."];
  box "Narration" ["BAD ENDING II — The False Judgement"]
].

Definition WIN_PATH_G1_GREEN_CRYSTAL : list string := [
  box "Narration" ["The fragments align."; blank; "Truth, gathered."; blank; "Blood, named."; blank; "The crystal answers."]
].

Definition WIN_PATH_G2_OPTIONS : list string := [
  box "Inquisitor" [(quoted "These are the truths drawn from memory.")];
  box "Mage" [(quoted "They resonate… strongly.")];
  box "Narration" ["The spell is ready."; blank; "Only the guilty blood remains."]
].

Definition WIN_PATH_G3_ESCORT : list string := [
  box "Knight" [(quoted "She is the third.")];
  box "Narration" ["Three stand beneath suspicion."; blank; "One truth binds them all."]
].

Definition WIN_PATH_G4_CULPRITS : list string := [
  box "Inquisitor" [(quoted "I name the traitor.")]
].

Definition WIN_PATH_G5_QUEEN_PLEADS : list string := [
  box "Queen Elira" [(quoted "I did what was necessary… for the crown.")];
  box "Narration" ["Knight restrains her."; blank; "Even royalty bleeds."]
].

Definition WIN_PATH_G5_CHEF_PLEADS : list string := [
  box "Chef" [(quoted "I served him my whole life…")];
  box "Narration" ["Knight binds his wrists."; blank; "Loyal hands can still falter."]
].

Definition WIN_PATH_G5_GOBLIN_PLEADS : list string := [
  box "Goblin" [(quoted "No—no! I only tended fires!")];
  box "Narration" ["Knight grips him firmly."; blank; "Ash clings to more than stone."]
].

Definition WIN_PATH_G6_BLOOD_TAKEN : list string := [
  box "Narration" ["Proof must answer magic."; blank; "The cost is drawn."]
].

Definition WIN_PATH_G7_HANDS_TO_MAGE : list string := [
  box "Inquisitor" [(quoted "Let truth decide.")];
  box "Mage" [(quoted "So it shall.")]
].

Definition GOOD_ENDING_GREEN_CRYSTAL : list string := [
  box "Narration" ["The fragments align."; blank; "Truth, gathered."; blank; "Blood, named."; blank; "The crystal answers."];
  box "Narration" ["The chamber floods with light."; blank; "Hope returns in a single breath."]
].

Definition GOOD_ENDING_DEAD_KING : list string := [
  box "Narration" ["The glow fades."; blank; "The crystal hum weakens."; blank; "The King exhales."; blank; "And does not inhale again."];
  box "Mage" [(quoted "The spell… held him only a moment.")];
  box "Narration" ["Even light must dim."];
  box "Narration" ["The Immortal King is laid to rest."; blank; "The crystal that once promised eternity"; "now bears a fracture of its own."; blank; "Not shattered."; blank; "But changed."]
].

Definition GOOD_ENDING_GE1_REJOICING : list string := [
  box "Daughter" [(quoted "He will live…")];
  box "Son" [(quoted "Father…")];
  box "Narration" ["Knight lowers his blade."; blank; "Queen and family weep in relief."];
  box "Narration" ["For a moment… the kingdom believes."]
].

Definition GOOD_ENDING_GE2_CORONATION : list string := [
  box "Narration" ["The Queen places the crown upon him."; blank; "But this time, no one speaks of forever."];
  box "Inquisitor" [(quoted "Our new king does not claim eternity.")];
  box "Mage" [(quoted "He claims tomorrow.")];
  box "Narration" ["He will not be called The Everlasting."; blank; "He will not be called The Immortal King."; blank; "He will be known as—"; blank; "The Mortal King."];
  box "Narration" ["GOOD ENDING:"; (quoted "The Crown of the Mortal King")];
  box "Narration" ["Justice was served."; blank; "The guilty were bound."; blank; "The kingdom did not fall."; blank; "And though legends fade…"; blank; "People endure."]
].

(** ** Game state *)

Inductive State : Type :=
| opening | menu | scene | artifact_popup | snapshot_effect | ending.

Inductive Phase : Type := fade_in | holding | fade_out.

#[global] Instance State_eq_dec : EqDecision State.
Proof. solve_decision. Defined.
#[global] Instance Phase_eq_dec : EqDecision Phase.
Proof. solve_decision. Defined.

(** [trigger_artifact_filename] is [None] for a capture made with the
    keyboard.  The copied frame is left out. *)
Record Snapshot : Type := mkSnapshot {
  snap_tags : list string;
  scene_label : string;
  points_queen : Z;
  points_chef : Z;
  points_goblin : Z;
  trigger_artifact_filename : option string
}.

(** One dictionary of [ending_slides]; an absent flag reads as [false]. *)
Record Slide : Type := mkSlide {
  image : string;
  show_memories : bool;
  accept_123 : bool;
  exit_prompt : bool;
  script : list string
}.

Record GameState : Type := mkGame {
  culprit : Culprit;
  scenes : list MemoryScene;
  state : State;
  global_time : Z;
  current_scene_index : Z;
  snapshots : list Snapshot;
  opening_slide_index : nat;
  opening_timer : Z;
  opening_phase : Phase;
  opening_text_index : nat;
  opening_char_index : nat;
  opening_typing_accumulator : Z;
  snapshot_effect_time : Z;
  popup_artifact_filename : string;
  popup_scene_index : Z;
  popup_artifact_surface : option AssetPath;
  ending_slides : list Slide;
  ending_index : nat;
  ending_phase : Phase;
  ending_timer : Z;
  ending_player_choice : Z;
  ending_show_memories : bool;
  ending_memory_popup_index : Z;
  ending_text_index : nat;
  ending_char_index : nat;
  ending_typing_accumulator : Z
}.

(** Attribute assignment [self.f = v], one function per attribute; the
    fields are matched in the order of the record. *)
Definition set_state (v : State) (s : GameState) : GameState :=
  let 'mkGame a1 a2 _ a4 a5 a6 a7 a8 a9 a10 a11 a12 a13 a14 a15 a16 a17 a18
    a19 a20 a21 a22 a23 a24 a25 a26 := s in
  mkGame a1 a2 v a4 a5 a6 a7 a8 a9 a10 a11 a12 a13 a14 a15 a16 a17 a18 a19
    a20 a21 a22 a23 a24 a25 a26.
Definition set_global_time (v : Z) (s : GameState) : GameState :=
  let 'mkGame a1 a2 a3 _ a5 a6 a7 a8 a9 a10 a11 a12 a13 a14 a15 a16 a17 a18
    a19 a20 a21 a22 a23 a24 a25 a26 := s in
  mkGame a1 a2 a3 v a5 a6 a7 a8 a9 a10 a11 a12 a13 a14 a15 a16 a17 a18 a19
    a20 a21 a22 a23 a24 a25 a26.
Definition set_current_scene_index (v : Z) (s : GameState) : GameState :=
  let 'mkGame a1 a2 a3 a4 _ a6 a7 a8 a9 a10 a11 a12 a13 a14 a15 a16 a17 a18
    a19 a20 a21 a22 a23 a24 a25 a26 := s in
  mkGame a1 a2 a3 a4 v a6 a7 a8 a9 a10 a11 a12 a13 a14 a15 a16 a17 a18 a19
    a20 a21 a22 a23 a24 a25 a26.
Definition set_snapshots (v : list Snapshot) (s : GameState) : GameState :=
  let 'mkGame a1 a2 a3 a4 a5 _ a7 a8 a9 a10 a11 a12 a13 a14 a15 a16 a17 a18
    a19 a20 a21 a22 a23 a24 a25 a26 := s in
  mkGame a1 a2 a3 a4 a5 v a7 a8 a9 a10 a11 a12 a13 a14 a15 a16 a17 a18 a19
    a20 a21 a22 a23 a24 a25 a26.
Definition set_opening_slide_index (v : nat) (s : GameState) : GameState :=
  let 'mkGame a1 a2 a3 a4 a5 a6 _ a8 a9 a10 a11 a12 a13 a14 a15 a16 a17 a18
    a19 a20 a21 a22 a23 a24 a25 a26 := s in
  mkGame a1 a2 a3 a4 a5 a6 v a8 a9 a10 a11 a12 a13 a14 a15 a16 a17 a18 a19
    a20 a21 a22 a23 a24 a25 a26.
Definition set_opening_timer (v : Z) (s : GameState) : GameState :=
  let 'mkGame a1 a2 a3 a4 a5 a6 a7 _ a9 a10 a11 a12 a13 a14 a15 a16 a17 a18
    a19 a20 a21 a22 a23 a24 a25 a26 := s in
  mkGame a1 a2 a3 a4 a5 a6 a7 v a9 a10 a11 a12 a13 a14 a15 a16 a17 a18 a19
    a20 a21 a22 a23 a24 a25 a26.
Definition set_opening_phase (v : Phase) (s : GameState) : GameState :=
  let 'mkGame a1 a2 a3 a4 a5 a6 a7 a8 _ a10 a11 a12 a13 a14 a15 a16 a17 a18
    a19 a20 a21 a22 a23 a24 a25 a26 := s in
  mkGame a1 a2 a3 a4 a5 a6 a7 a8 v a10 a11 a12 a13 a14 a15 a16 a17 a18 a19
    a20 a21 a22 a23 a24 a25 a26.
Definition set_opening_text_index (v : nat) (s : GameState) : GameState :=
  let 'mkGame a1 a2 a3 a4 a5 a6 a7 a8 a9 _ a11 a12 a13 a14 a15 a16 a17 a18
    a19 a20 a21 a22 a23 a24 a25 a26 := s in
  mkGame a1 a2 a3 a4 a5 a6 a7 a8 a9 v a11 a12 a13 a14 a15 a16 a17 a18 a19
    a20 a21 a22 a23 a24 a25 a26.
Definition set_opening_char_index (v : nat) (s : GameState) : GameState :=
  let 'mkGame a1 a2 a3 a4 a5 a6 a7 a8 a9 a10 _ a12 a13 a14 a15 a16 a17 a18
    a19 a20 a21 a22 a23 a24 a25 a26 := s in
  mkGame a1 a2 a3 a4 a5 a6 a7 a8 a9 a10 v a12 a13 a14 a15 a16 a17 a18 a19
    a20 a21 a22 a23 a24 a25 a26.
Definition set_opening_typing_accumulator (v : Z) (s : GameState) : GameState :=
  let 'mkGame a1 a2 a3 a4 a5 a6 a7 a8 a9 a10 a11 _ a13 a14 a15 a16 a17 a18
    a19 a20 a21 a22 a23 a24 a25 a26 := s in
  mkGame a1 a2 a3 a4 a5 a6 a7 a8 a9 a10 a11 v a13 a14 a15 a16 a17 a18 a19
    a20 a21 a22 a23 a24 a25 a26.
Definition set_snapshot_effect_time (v : Z) (s : GameState) : GameState :=
  let 'mkGame a1 a2 a3 a4 a5 a6 a7 a8 a9 a10 a11 a12 _ a14 a15 a16 a17 a18
    a19 a20 a21 a22 a23 a24 a25 a26 := s in
  mkGame a1 a2 a3 a4 a5 a6 a7 a8 a9 a10 a11 a12 v a14 a15 a16 a17 a18 a19
    a20 a21 a22 a23 a24 a25 a26.
Definition set_popup_artifact_filename (v : string) (s : GameState) : GameState :=
  let 'mkGame a1 a2 a3 a4 a5 a6 a7 a8 a9 a10 a11 a12 a13 _ a15 a16 a17 a18
    a19 a20 a21 a22 a23 a24 a25 a26 := s in
  mkGame a1 a2 a3 a4 a5 a6 a7 a8 a9 a10 a11 a12 a13 v a15 a16 a17 a18 a19
    a20 a21 a22 a23 a24 a25 a26.
Definition set_popup_scene_index (v : Z) (s : GameState) : GameState :=
  let 'mkGame a1 a2 a3 a4 a5 a6 a7 a8 a9 a10 a11 a12 a13 a14 _ a16 a17 a18
    a19 a20 a21 a22 a23 a24 a25 a26 := s in
  mkGame a1 a2 a3 a4 a5 a6 a7 a8 a9 a10 a11 a12 a13 a14 v a16 a17 a18 a19
    a20 a21 a22 a23 a24 a25 a26.
Definition set_popup_artifact_surface (v : option AssetPath) (s : GameState) : GameState :=
  let 'mkGame a1 a2 a3 a4 a5 a6 a7 a8 a9 a10 a11 a12 a13 a14 a15 _ a17 a18
    a19 a20 a21 a22 a23 a24 a25 a26 := s in
  mkGame a1 a2 a3 a4 a5 a6 a7 a8 a9 a10 a11 a12 a13 a14 a15 v a17 a18 a19
    a20 a21 a22 a23 a24 a25 a26.
Definition set_ending_slides (v : list Slide) (s : GameState) : GameState :=
  let 'mkGame a1 a2 a3 a4 a5 a6 a7 a8 a9 a10 a11 a12 a13 a14 a15 a16 _ a18
    a19 a20 a21 a22 a23 a24 a25 a26 := s in
  mkGame a1 a2 a3 a4 a5 a6 a7 a8 a9 a10 a11 a12 a13 a14 a15 a16 v a18 a19
    a20 a21 a22 a23 a24 a25 a26.
Definition set_ending_index (v : nat) (s : GameState) : GameState :=
  let 'mkGame a1 a2 a3 a4 a5 a6 a7 a8 a9 a10 a11 a12 a13 a14 a15 a16 a17 _
    a19 a20 a21 a22 a23 a24 a25 a26 := s in
  mkGame a1 a2 a3 a4 a5 a6 a7 a8 a9 a10 a11 a12 a13 a14 a15 a16 a17 v a19
    a20 a21 a22 a23 a24 a25 a26.
Definition set_ending_phase (v : Phase) (s : GameState) : GameState :=
  let 'mkGame a1 a2 a3 a4 a5 a6 a7 a8 a9 a10 a11 a12 a13 a14 a15 a16 a17 a18
    _ a20 a21 a22 a23 a24 a25 a26 := s in
  mkGame a1 a2 a3 a4 a5 a6 a7 a8 a9 a10 a11 a12 a13 a14 a15 a16 a17 a18 v
    a20 a21 a22 a23 a24 a25 a26.
Definition set_ending_timer (v : Z) (s : GameState) : GameState :=
  let 'mkGame a1 a2 a3 a4 a5 a6 a7 a8 a9 a10 a11 a12 a13 a14 a15 a16 a17 a18
    a19 _ a21 a22 a23 a24 a25 a26 := s in
  mkGame a1 a2 a3 a4 a5 a6 a7 a8 a9 a10 a11 a12 a13 a14 a15 a16 a17 a18 a19
    v a21 a22 a23 a24 a25 a26.
Definition set_ending_player_choice (v : Z) (s : GameState) : GameState :=
  let 'mkGame a1 a2 a3 a4 a5 a6 a7 a8 a9 a10 a11 a12 a13 a14 a15 a16 a17 a18
    a19 a20 _ a22 a23 a24 a25 a26 := s in
  mkGame a1 a2 a3 a4 a5 a6 a7 a8 a9 a10 a11 a12 a13 a14 a15 a16 a17 a18 a19
    a20 v a22 a23 a24 a25 a26.
Definition set_ending_show_memories (v : bool) (s : GameState) : GameState :=
  let 'mkGame a1 a2 a3 a4 a5 a6 a7 a8 a9 a10 a11 a12 a13 a14 a15 a16 a17 a18
    a19 a20 a21 _ a23 a24 a25 a26 := s in
  mkGame a1 a2 a3 a4 a5 a6 a7 a8 a9 a10 a11 a12 a13 a14 a15 a16 a17 a18 a19
    a20 a21 v a23 a24 a25 a26.
Definition set_ending_memory_popup_index (v : Z) (s : GameState) : GameState :=
  let 'mkGame a1 a2 a3 a4 a5 a6 a7 a8 a9 a10 a11 a12 a13 a14 a15 a16 a17 a18
    a19 a20 a21 a22 _ a24 a25 a26 := s in
  mkGame a1 a2 a3 a4 a5 a6 a7 a8 a9 a10 a11 a12 a13 a14 a15 a16 a17 a18 a19
    a20 a21 a22 v a24 a25 a26.
Definition set_ending_text_index (v : nat) (s : GameState) : GameState :=
  let 'mkGame a1 a2 a3 a4 a5 a6 a7 a8 a9 a10 a11 a12 a13 a14 a15 a16 a17 a18
    a19 a20 a21 a22 a23 _ a25 a26 := s in
  mkGame a1 a2 a3 a4 a5 a6 a7 a8 a9 a10 a11 a12 a13 a14 a15 a16 a17 a18 a19
    a20 a21 a22 a23 v a25 a26.
Definition set_ending_char_index (v : nat) (s : GameState) : GameState :=
  let 'mkGame a1 a2 a3 a4 a5 a6 a7 a8 a9 a10 a11 a12 a13 a14 a15 a16 a17 a18
    a19 a20 a21 a22 a23 a24 _ a26 := s in
  mkGame a1 a2 a3 a4 a5 a6 a7 a8 a9 a10 a11 a12 a13 a14 a15 a16 a17 a18 a19
    a20 a21 a22 a23 a24 v a26.
Definition set_ending_typing_accumulator (v : Z) (s : GameState) : GameState :=
  let 'mkGame a1 a2 a3 a4 a5 a6 a7 a8 a9 a10 a11 a12 a13 a14 a15 a16 a17 a18
    a19 a20 a21 a22 a23 a24 a25 _ := s in
  mkGame a1 a2 a3 a4 a5 a6 a7 a8 a9 a10 a11 a12 a13 a14 a15 a16 a17 a18 a19
    a20 a21 a22 a23 a24 a25 v.

Notation "s |> f" := (f s) (at level 45, left associativity, only parsing).

(** ** Constants of [VanishingMemoriesGame] *)

Definition WIDTH : Z := 1100.
Definition HEIGHT : Z := 700.
Definition SCENE_HEIGHT : Z := 504.
Definition GLOBAL_TIME_LIMIT : Z := 120000.
Definition MAX_SNAPSHOTS : nat := 3.
Definition CLOCK_RADIUS : Z := 52.
Definition CLOCK_SPACING : Z := 200.
Definition CLOCK_GRID_TOP : Z := 260.
Definition OPENING_FADE_IN_DURATION : Z := 1200.
Definition OPENING_FADE_OUT_DURATION : Z := 900.
Definition OPENING_TYPING_CPS : Z := 38.
Definition ENDING_FADE_IN : Z := 1200.
Definition ENDING_FADE_OUT : Z := 900.
Definition ENDING_TYPING_CPS : Z := 38.
Definition SNAPSHOT_EFFECT_DURATION : Z := 400.
(** [len(self.opening_images)]: a placeholder stands in for every image
    that fails to load. *)
Definition OPENING_IMAGES : nat := 7.

(** Keys of [ARTIFACT_INFO]. *)
Definition ARTIFACT_INFO : gset string :=
  list_to_set [
    "q10-1.png"; "q10-2.png"; "q5-1.png"; "q5-2.png"; "q1-1.png"; "q1-2.png";
    "c10-1.png"; "c10-2.png"; "c5-1.png"; "c5-2.png"; "c1-1.png"; "c1-2.png";
    "g10-1.png"; "g10-2.png"; "g5-1.png"; "g5-2.png"; "g1-1.png"; "g1-2.png";
    "r1.png"; "r2.png"; "r3.png"; "r4.png"; "r5.png"; "r6.png";
    "r7.png"; "r8.png"; "r9.png"; "r10.png"; "r11.png"; "r12.png"
  ].

(** ** Python lists *)

(** [l[i]] for an integer index; a negative one counts from the end. *)
Definition py_index {A} (l : list A) (i : Z) : pyres A :=
  let n := Z.of_nat (length l) in
  let j := if i <? 0 then i + n else i in
  if (0 <=? j) && (j <? n) then list_get l (Z.to_nat j) else Raise IndexError.

Definition sum_Z (l : list Z) : Z := foldr Z.add 0 l.

(** ** Evidence totals *)

Definition total_queen (l : list Snapshot) : Z := sum_Z (map points_queen l).
Definition total_chef (l : list Snapshot) : Z := sum_Z (map points_chef l).
Definition total_goblin (l : list Snapshot) : Z := sum_Z (map points_goblin l).

(** ** Ending selector *)

Definition killer_be (k : Culprit) : string :=
  match k with
  | Goblin => "gob_be.png"
  | Chef => "chef_be.png"
  | Queen => "queen_be.png"
  end.

Definition slide_of (img : string) (scr : list string) : Slide :=
  mkSlide img false false false scr.

Definition _start_ending (s : GameState) : GameState :=
  let win :=
    (EVIDENCE_POINTS_REQUIRED <=? total_queen (snapshots s))
    || (EVIDENCE_POINTS_REQUIRED <=? total_chef (snapshots s))
    || (EVIDENCE_POINTS_REQUIRED <=? total_goblin (snapshots s)) in
  let killer_id := culprit s in
  let slides :=
    if negb win then
      let culprit_script :=
        match killer_id with
        | Queen => BAD_ENDING_QUEEN_FREE
        | Goblin => BAD_ENDING_GOBLIN_FREE
        | Chef => BAD_ENDING_CHEF_FREE
        end in
      [ slide_of "red_cryst.png" BAD_ENDING_RED_CRYSTAL;
        slide_of "dead_king.png" BAD_ENDING_DEAD_KING;
        mkSlide (killer_be killer_id) false false true culprit_script ]
    else
      [ slide_of "green_cryst.png" WIN_PATH_G1_GREEN_CRYSTAL;
        mkSlide "the_options.png" true false false WIN_PATH_G2_OPTIONS;
        mkSlide "escort_in.png" true false false WIN_PATH_G3_ESCORT;
        mkSlide "the_culprits.png" true true false WIN_PATH_G4_CULPRITS ] in
  s |> set_ending_player_choice 0
    |> set_ending_show_memories false
    |> set_ending_memory_popup_index (-1)
    |> set_ending_slides slides
    |> set_ending_index 0%nat
    |> set_ending_phase fade_in
    |> set_ending_timer 0
    |> set_ending_text_index 0%nat
    |> set_ending_char_index 0%nat
    |> set_ending_typing_accumulator 0
    |> set_state ending.

(** The two dictionaries indexed by [ending_player_choice]
    (1 = goblin, 2 = chef, 3 = queen). *)
Definition blood_slide (choice : Z) : pyres Slide :=
  match choice with
  | 1 => Ok (slide_of "goblin_blood.png" WIN_PATH_G5_GOBLIN_PLEADS)
  | 2 => Ok (slide_of "chef_blood.png" WIN_PATH_G5_CHEF_PLEADS)
  | 3 => Ok (slide_of "queen_blood.png" WIN_PATH_G5_QUEEN_PLEADS)
  | _ => Raise KeyError
  end.

Definition _ending_append_blood_and_continuation (s : GameState)
  : pyres GameState :=
  g5 ← blood_slide (ending_player_choice s);
  Ok (s |> set_ending_slides
        (ending_slides s ++
           [ g5;
             slide_of "blood_transfer.png" WIN_PATH_G6_BLOOD_TAKEN;
             slide_of "mage_cooking.png" WIN_PATH_G7_HANDS_TO_MAGE ])).

Definition _ending_append_outcome (correct : bool) (s : GameState) : GameState :=
  let killer_id := culprit s in
  if correct then
    s |> set_ending_slides
      (ending_slides s ++
         [ slide_of "green_cryst.png" GOOD_ENDING_GREEN_CRYSTAL;
           slide_of "dead_king.png" GOOD_ENDING_DEAD_KING;
           slide_of "ge1.png" GOOD_ENDING_GE1_REJOICING;
           mkSlide "ge2.png" false false true GOOD_ENDING_GE2_CORONATION ])
  else
    let culprit_script_ii :=
      match killer_id with
      | Queen => BAD_ENDING_II_QUEEN_FREE
      | Chef => BAD_ENDING_II_CHEF_FREE
      | Goblin => BAD_ENDING_II_GOBLIN_FREE
      end in
    s |> set_ending_slides
      (ending_slides s ++
         [ slide_of "red_cryst.png" BAD_ENDING_II_RED_CRYSTAL;
           slide_of "dead_king.png" BAD_ENDING_II_DEAD_KING;
           mkSlide (killer_be killer_id) false false true culprit_script_ii ]).

(** ** Typed text *)

(** The loop [while acc >= 1.0 and char < len(full_text)], with the
    accumulator in thousandths of a character; [remaining] is
    [len(full_text) - char]. *)
Fixpoint type_chars (remaining : nat) (acc : Z) (char : nat) : Z * nat :=
  match remaining with
  | O => (acc, char)
  | S r =>
      if 1000 <=? acc then type_chars r (acc - 1000) (S char) else (acc, char)
  end.

(** ** Per-tick updates *)

Definition _update_opening (dt : Z) (s : GameState) : GameState :=
  let s := s |> set_opening_timer (opening_timer s + dt) in
  match opening_phase s with
  | fade_in =>
      if OPENING_FADE_IN_DURATION <=? opening_timer s then
        s |> set_opening_phase holding
          |> set_opening_timer 0
          |> set_opening_text_index 0%nat
          |> set_opening_char_index 0%nat
          |> set_opening_typing_accumulator 0
      else s
  | holding =>
      match OPENING_SCRIPT !! opening_slide_index s with
      | Some boxes =>
          match boxes !! opening_text_index s with
          | Some full_text =>
              let acc := opening_typing_accumulator s + dt * OPENING_TYPING_CPS in
              let '(acc, char) :=
                type_chars (text_len full_text - opening_char_index s) acc
                  (opening_char_index s) in
              let acc := if (text_len full_text <=? char)%nat then 0 else acc in
              s |> set_opening_char_index char
                |> set_opening_typing_accumulator acc
          | None => s
          end
      | None => s
      end
  | fade_out =>
      if OPENING_FADE_OUT_DURATION <=? opening_timer s then
        let s := s |> set_opening_slide_index (S (opening_slide_index s))
                   |> set_opening_timer 0 in
        if (OPENING_IMAGES <=? opening_slide_index s)%nat then
          s |> set_state menu |> set_opening_slide_index 0%nat
        else
          s |> set_opening_phase fade_in
      else s
  end.

Definition _update_ending (dt : Z) (s : GameState) : GameState :=
  let s := s |> set_ending_timer (ending_timer s + dt) in
  match ending_phase s with
  | fade_in =>
      if ENDING_FADE_IN <=? ending_timer s then
        s |> set_ending_phase holding
          |> set_ending_timer 0
          |> set_ending_text_index 0%nat
          |> set_ending_char_index 0%nat
          |> set_ending_typing_accumulator 0
      else s
  | holding =>
      let scr :=
        match ending_slides s !! ending_index s with
        | Some sl => script sl
        | None => []
        end in
      match scr !! ending_text_index s with
      | Some full_text =>
          let acc := ending_typing_accumulator s + dt * ENDING_TYPING_CPS in
          let '(acc, char) :=
            type_chars (text_len full_text - ending_char_index s) acc
              (ending_char_index s) in
          let acc := if (text_len full_text <=? char)%nat then 0 else acc in
          s |> set_ending_char_index char
            |> set_ending_typing_accumulator acc
      | None => s
      end
  | fade_out =>
      if ENDING_FADE_OUT <=? ending_timer s then
        let prev_index := ending_index s in
        let s := s |> set_ending_index (S (ending_index s)) in
        let s :=
          match ending_slides s !! prev_index with
          | Some sl =>
              if String.eqb (image sl) "mage_cooking.png" then
                let correct :=
                  ((ending_player_choice s =? 1) && bool_decide (culprit s = Goblin))
                  || ((ending_player_choice s =? 2) && bool_decide (culprit s = Chef))
                  || ((ending_player_choice s =? 3) && bool_decide (culprit s = Queen)) in
                _ending_append_outcome correct s
              else s
          | None => s
          end in
        let s := s |> set_ending_timer 0
                   |> set_ending_text_index 0%nat
                   |> set_ending_char_index 0%nat
                   |> set_ending_typing_accumulator 0 in
        if (ending_index s <? length (ending_slides s))%nat then
          s |> set_ending_phase fade_in
        else
          s |> set_ending_phase holding
      else s
  end.

Definition _update_global_timer (dt : Z) (s : GameState) : GameState :=
  let s :=
    if 0 <? global_time s then
      let s := s |> set_global_time (Z.max 0 (global_time s - dt)) in
      if global_time s =? 0 then
        _start_ending s |> set_current_scene_index (-1)
      else s
    else s in
  if (MAX_SNAPSHOTS <=? length (snapshots s))%nat && bool_decide (state s = menu)
  then _start_ending s
  else s.

(** Only [scene_time], the fade progress, parallax, camera shake and the
    ominous loop change here; the scene lookup can still fail. *)
Definition _update_scene (dt : Z) (s : GameState) : pyres GameState :=
  if current_scene_index s <? 0 then Ok s
  else
    _ ← py_index (scenes s) (current_scene_index s);
    Ok s.

Definition _update_snapshot_effect (dt : Z) (s : GameState) : GameState :=
  let s := s |> set_snapshot_effect_time (snapshot_effect_time s + dt) in
  if SNAPSHOT_EFFECT_DURATION <? snapshot_effect_time s then
    s |> set_state menu |> set_current_scene_index (-1)
  else s.

(** The per-state update dispatch of [run]. *)
Definition update (dt : Z) (s : GameState) : pyres GameState :=
  match state s with
  | opening => Ok (_update_opening dt s)
  | menu => Ok (_update_global_timer dt s)
  | snapshot_effect => Ok (_update_snapshot_effect dt s)
  | scene => _update_scene dt (_update_global_timer dt s)
  | artifact_popup => Ok (_update_global_timer dt s)
  | ending => Ok (_update_ending dt s)
  end.


(** ** Snapshot ledger *)

(** Points a whole-scene capture records for [sid]: the loop
    [if art.suspect_id == sid: p += art.points] over the artifacts. *)
Definition scene_points (sid : string) (arts : list SceneArtifact) : Z :=
  sum_Z (map (fun art => if String.eqb (suspect_id art) sid then points art else 0) arts).

Definition _take_snapshot (s : GameState) : pyres GameState :=
  if (MAX_SNAPSHOTS <=? length (snapshots s))%nat then Ok s
  else
    let s := s |> set_snapshot_effect_time 0 in
    sc ← py_index (scenes s) (current_scene_index s);
    let captured_tags := concat (map tags (artifacts sc)) in
    let snap :=
      mkSnapshot captured_tags (label sc)
        (scene_points "queen" (artifacts sc))
        (scene_points "chef" (artifacts sc))
        (scene_points "goblin" (artifacts sc))
        None in
    Ok (s |> set_snapshots (snapshots s ++ [snap]) |> set_state snapshot_effect).

Definition _take_snapshot_from_popup (s : GameState) : pyres GameState :=
  if (MAX_SNAPSHOTS <=? length (snapshots s))%nat then Ok s
  else if popup_scene_index s <? 0 then Ok s
  else
    let s := s |> set_snapshot_effect_time 0 in
    sc ← py_index (scenes s) (popup_scene_index s);
    let hit :=
      find (fun art => String.eqb (spec_filename art) (popup_artifact_filename s))
        (artifacts sc) in
    let points_for sid :=
      match hit with
      | Some art => if String.eqb (suspect_id art) sid then points art else 0
      | None => 0
      end in
    let captured_tags := match hit with Some art => tags art | None => [] end in
    let snap :=
      mkSnapshot captured_tags (label sc)
        (points_for "queen") (points_for "chef") (points_for "goblin")
        (Some (popup_artifact_filename s)) in
    Ok (s |> set_snapshots (snapshots s ++ [snap]) |> set_state snapshot_effect).

(** The loop [for i in range(len(l) - 1, -1, -1): if p(l[i]): l.pop(i); break].
    [None] when no element satisfies [p] (the list is left as it is). *)
Fixpoint pop_last_match {A} (p : A -> bool) (l : list A) : option (list A) :=
  match l with
  | [] => None
  | x :: r =>
      match pop_last_match p r with
      | Some r' => Some (x :: r')
      | None => if p x then Some r else None
      end
  end.

(** ** Artifact popup *)

Definition _close_artifact_popup (s : GameState) : GameState :=
  s |> set_state scene
    |> set_popup_artifact_filename EmptyString
    |> set_popup_scene_index (-1)
    |> set_popup_artifact_surface None.

(** [fn.startswith("r") and fn.endswith(".png") and fn[1:-4].isdigit()] *)
Definition is_replacement_name (fn : string) : bool :=
  Py.startswith fn "r" && Py.endswith fn ".png"
  && Py.isdigit (String.substring 1 (String.length fn - 5) fn).

Section Handlers.
Context `{AssetProvider}.

Definition _load_popup_artifact_image (s : GameState) : GameState :=
  let s := s |> set_popup_artifact_surface None in
  if (popup_scene_index s <? 0) || String.eqb (popup_artifact_filename s) EmptyString
  then s
  else
    let fn := Py.lower (popup_artifact_filename s) in
    let path :=
      if is_replacement_name fn
      then ReplacementAsset (popup_artifact_filename s)
      else SceneAsset (Z.to_nat (popup_scene_index s)) (popup_artifact_filename s) in
    if loads path then s |> set_popup_artifact_surface (Some path) else s.

(** [hit] is what the loop of [_get_artifact_index_at_pos(pos)] finds among
    the drawn rectangles of the current scene: the index of an artifact of
    that scene, or -1.  The scene is read before the loop, which raises
    for an index past the scenes. *)
Definition _get_artifact_index_at_pos (hit : Z) (s : GameState) : pyres Z :=
  if current_scene_index s <? 0 then Ok (-1)
  else
    sc ← py_index (scenes s) (current_scene_index s);
    Ok hit.

Definition _handle_scene_click (hit : Z) (s : GameState) : pyres GameState :=
  idx ← _get_artifact_index_at_pos hit s;
  if idx <? 0 then Ok s
  else
    sc ← py_index (scenes s) (current_scene_index s);
    art ← py_index (artifacts sc) idx;
    if String.eqb (spec_filename art) EmptyString then Ok s
    else if negb (bool_decide (spec_filename art ∈ ARTIFACT_INFO)) then Ok s
    else
      Ok (s |> set_popup_artifact_filename (spec_filename art)
            |> set_popup_scene_index (current_scene_index s)
            |> _load_popup_artifact_image
            |> set_state artifact_popup).

Definition popup_box : Rect :=
  mkRect ((WIDTH - 520) / 2) ((SCENE_HEIGHT - 440) / 2) 520 440.
Definition popup_x_btn : Rect :=
  mkRect (left popup_box + 520 - 36) (top popup_box + 8) 28 28.
Definition popup_btn_y : Z := top popup_box + 440 - 56.
Definition cryst_btn : Rect := mkRect (left popup_box + 24) popup_btn_y 160 40.
Definition uncryst_btn : Rect := mkRect (left popup_box + 24 + 164) popup_btn_y 130 40.
Definition close_btn : Rect := mkRect (left popup_box + 520 - 24 - 100) popup_btn_y 100 40.

(** [any(s.scene_label == scene.label and (s.trigger_artifact_filename is
    None or s.trigger_artifact_filename == self.popup_artifact_filename))] *)
Definition can_uncrystallize (lbl key : string) (snaps : list Snapshot) : bool :=
  existsb
    (fun sn =>
       String.eqb (scene_label sn) lbl
       && match trigger_artifact_filename sn with
          | None => true
          | Some f => String.eqb f key
          end)
    snaps.

Definition _handle_artifact_popup_click (pos : Z * Z) (s : GameState)
  : pyres GameState :=
  if collidepoint popup_x_btn pos then Ok (_close_artifact_popup s)
  else
    sc ← (if 0 <=? popup_scene_index s
          then sc ← py_index (scenes s) (popup_scene_index s); Ok (Some sc)
          else Ok None);
    let can_uncrystallize_here :=
      match sc with
      | Some sc => can_uncrystallize (label sc) (popup_artifact_filename s) (snapshots s)
      | None => false
      end in
    if collidepoint cryst_btn pos then
      if (length (snapshots s) <? MAX_SNAPSHOTS)%nat then
        s ← _take_snapshot_from_popup s;
        Ok (s |> set_popup_artifact_filename EmptyString
              |> set_popup_scene_index (-1)
              |> set_popup_artifact_surface None)
      else Ok s
    else if collidepoint uncryst_btn pos && can_uncrystallize_here then
      let lbl := match sc with Some sc => label sc | None => EmptyString end in
      let snaps :=
        match pop_last_match (fun sn => String.eqb (scene_label sn) lbl) (snapshots s) with
        | Some l => l
        | None => snapshots s
        end in
      Ok (_close_artifact_popup (s |> set_snapshots snaps))
    else if collidepoint close_btn pos then Ok (_close_artifact_popup s)
    else if negb (collidepoint popup_box pos) then Ok (_close_artifact_popup s)
    else Ok s.

(** ** Clock menu *)

Definition accuse_rect : Rect := mkRect (WIDTH - 200) (HEIGHT - 56) 180 42.

Definition _clock_center (idx : nat) : Z * Z :=
  let col := Z.of_nat idx mod 3 in
  let row := Z.of_nat idx / 3 in
  (WIDTH / 2 + (col - 1) * CLOCK_SPACING, CLOCK_GRID_TOP + row * CLOCK_SPACING).

(** Index of the first element satisfying [p], as the loops
    [for idx, x in enumerate(l): if p(idx, x): ...; break] find it. *)
Fixpoint find_index_from {A} (p : nat -> A -> bool) (i : nat) (l : list A) : option nat :=
  match l with
  | [] => None
  | x :: r => if p i x then Some i else find_index_from p (S i) r
  end.

Definition enter_scene (idx : nat) (s : GameState) : GameState :=
  s |> set_current_scene_index (Z.of_nat idx) |> set_state scene.

Definition _handle_menu_click (pos : Z * Z) (s : GameState) : GameState :=
  if collidepoint accuse_rect pos then _start_ending s
  else if global_time s <=? 0 then s
  else
    let hit :=
      if (6 <=? length clock_rects)%nat
         && forallb (fun r => 0 <? width r) (take 6 clock_rects)
      then find_index_from (fun _ r => collidepoint r pos) 0 clock_rects
      else
        find_index_from
          (fun idx _ =>
             let c := _clock_center idx in
             (pos.1 - c.1) * (pos.1 - c.1) + (pos.2 - c.2) * (pos.2 - c.2)
             <=? CLOCK_RADIUS * CLOCK_RADIUS)
          0 (scenes s) in
    match hit with
    | Some idx => enter_scene idx s
    | None => s
    end.

(** ** Memories row of the ending *)

Definition _ending_memory_rects (s : GameState) : list Rect :=
  let n := Z.of_nat (length (snapshots s)) in
  let total_w := n * (100 + 24) - 24 in
  let start_x := (WIDTH - total_w) / 2 in
  imap (fun i _ => mkRect (start_x + Z.of_nat i * (100 + 24)) (HEIGHT - 75 - 50) 120 99)
    (snapshots s).

Definition _load_ending_popup_artifact (idx : nat) (s : GameState) : GameState :=
  let s := s |> set_popup_artifact_surface None in
  match snapshots s !! idx with
  | None => s
  | Some snap =>
      let fn := Py.strip (default EmptyString (trigger_artifact_filename snap)) in
      if String.eqb fn EmptyString then s
      else
        let path :=
          if is_replacement_name (Py.lower fn) then ReplacementAsset fn
          else
            let scene_index :=
              default 0%nat
                (find_index_from (fun _ sc => String.eqb (label sc) (scene_label snap))
                   0 (scenes s)) in
            SceneAsset scene_index fn in
        if loads path then s |> set_popup_artifact_surface (Some path) else s
  end.

Definition _handle_ending_memory_click (pos : Z * Z) (s : GameState) : GameState :=
  match find_index_from (fun _ r => collidepoint r pos) 0 (_ending_memory_rects s) with
  | Some idx =>
      s |> set_ending_memory_popup_index (Z.of_nat idx)
        |> set_popup_artifact_filename
             (default EmptyString
                (snap ← snapshots s !! idx; trigger_artifact_filename snap))
        |> _load_ending_popup_artifact idx
  | None => s
  end.

Definition _close_ending_memory_popup (s : GameState) : GameState :=
  s |> set_ending_memory_popup_index (-1)
    |> set_popup_artifact_filename EmptyString
    |> set_popup_artifact_surface None.

Definition ending_popup_box : Rect :=
  mkRect ((WIDTH - 520) / 2) ((HEIGHT - 380) / 2) 520 380.
Definition ending_x_btn : Rect :=
  mkRect (left ending_popup_box + 520 - 36) (top ending_popup_box + 8) 28 28.
Definition close_text_rect : Rect :=
  mkRect (left ending_popup_box + 520 - 24 - close_hint_size.1)
    (top ending_popup_box + 380 - 36) close_hint_size.1 close_hint_size.2.

(** ** Input events *)

Inductive Key : Type :=
| K_ESCAPE | K_RIGHT | K_SPACE | K_RETURN | K_s | K_1 | K_2 | K_3 | K_other.

#[global] Instance Key_eq_dec : EqDecision Key.
Proof. solve_decision. Defined.

(** [artifact_under] is the artifact the drawn scene has under [pos]
    (-1 for none); it depends on image sizes and camera shake. *)
Inductive Event : Type :=
| QUIT
| KEYDOWN (key : Key)
| MOUSEBUTTONDOWN (pos : Z * Z) (button : Z) (artifact_under : Z)
| OTHER_EVENT.

(** The script state a choice or a slide change resets. *)
Definition ending_next_slide (s : GameState) : GameState :=
  s |> set_ending_index (S (ending_index s))
    |> set_ending_phase fade_in
    |> set_ending_timer 0
    |> set_ending_text_index 0%nat
    |> set_ending_char_index 0%nat
    |> set_ending_typing_accumulator 0.

Definition ending_choose (choice : Z) (s : GameState) : pyres GameState :=
  s ← _ending_append_blood_and_continuation (s |> set_ending_player_choice choice);
  Ok (ending_next_slide s).

(** [slide.get("exit_prompt") and (not script or text_index >= len(script))] *)
Definition at_exit_prompt (sl : Slide) (s : GameState) : bool :=
  exit_prompt sl
  && (bool_decide (script sl = []) || (length (script sl) <=? ending_text_index s)%nat).

(** Result of one event: the state and whether [running] is still true. *)
Definition on_keydown_ending (key : Key) (s : GameState) : pyres (GameState * bool) :=
  match ending_slides s !! ending_index s with
  | Some sl =>
      if at_exit_prompt sl s then Ok (s, false)
      else if accept_123 sl then
        match key with
        | K_1 => s ← ending_choose 1 s; Ok (s, true)
        | K_2 => s ← ending_choose 2 s; Ok (s, true)
        | K_3 => s ← ending_choose 3 s; Ok (s, true)
        | _ => Ok (s, true)
        end
      else if bool_decide (ending_phase s = holding) && bool_decide (key = K_RIGHT) then
        match script sl !! ending_text_index s with
        | Some full_text =>
            let s :=
              if (ending_char_index s <? text_len full_text)%nat
              then s |> set_ending_char_index (text_len full_text) else s in
            if (text_len full_text <=? ending_char_index s)%nat then
              if (ending_text_index s + 1 <? length (script sl))%nat then
                Ok (s |> set_ending_text_index (ending_text_index s + 1)%nat
                      |> set_ending_char_index 0%nat
                      |> set_ending_typing_accumulator 0, true)
              else if exit_prompt sl then
                Ok (s |> set_ending_text_index (length (script sl)), true)
              else
                Ok (s |> set_ending_phase fade_out |> set_ending_timer 0, true)
            else Ok (s, true)
        | None =>
            Ok (s |> set_ending_phase fade_out |> set_ending_timer 0, true)
        end
      else Ok (s, true)
  | None => Ok (s, true)
  end.

Definition on_right_opening (s : GameState) : GameState :=
  if bool_decide (opening_phase s = holding) then
    let scr := default [] (OPENING_SCRIPT !! opening_slide_index s) in
    match scr !! opening_text_index s with
    | Some full_text =>
        let s :=
          if (opening_char_index s <? text_len full_text)%nat
          then s |> set_opening_char_index (text_len full_text) else s in
        if (text_len full_text <=? opening_char_index s)%nat then
          if (opening_text_index s + 1 <? length scr)%nat then
            s |> set_opening_text_index (opening_text_index s + 1)%nat
              |> set_opening_char_index 0%nat
              |> set_opening_typing_accumulator 0
          else
            s |> set_opening_phase fade_out |> set_opening_timer 0
        else s
    | None => s |> set_opening_phase fade_out |> set_opening_timer 0
    end
  else s.

Definition on_keydown (key : Key) (s : GameState) : pyres (GameState * bool) :=
  if bool_decide (key = K_ESCAPE) then
    match state s with
    | opening => Ok (s |> set_state menu, true)
    | scene => Ok (s |> set_state menu |> set_current_scene_index (-1), true)
    | menu => Ok (s, false)
    | ending => Ok (s, true)
    | _ => Ok (s, true)
    end
  else if bool_decide (state s = ending) then on_keydown_ending key s
  else if bool_decide (state s = opening) && bool_decide (key = K_RIGHT) then
    Ok (on_right_opening s, true)
  else if bool_decide (state s = scene) && bool_decide (key = K_s) then
    s ← _take_snapshot s; Ok (s, true)
  else if bool_decide (state s = artifact_popup) && bool_decide (key = K_ESCAPE) then
    Ok (_close_artifact_popup s, true)
  else Ok (s, true).

Definition on_click_ending (pos : Z * Z) (s : GameState) : GameState * bool :=
  let quit :=
    match ending_slides s !! ending_index s with
    | Some sl => at_exit_prompt sl s
    | None => false
    end in
  if quit then (s, false)
  else if 0 <=? ending_memory_popup_index s then
    if collidepoint ending_x_btn pos || collidepoint close_text_rect pos
       || negb (collidepoint ending_popup_box pos)
    then (_close_ending_memory_popup s, true)
    else (s, true)
  else (_handle_ending_memory_click pos s, true).

Definition handle_event (ev : Event) (s : GameState) : pyres (GameState * bool) :=
  match ev with
  | QUIT => Ok (s, false)
  | KEYDOWN key => on_keydown key s
  | MOUSEBUTTONDOWN pos button hit =>
      if button =? 1 then
        match state s with
        | menu => Ok (_handle_menu_click pos s, true)
        | scene => s ← _handle_scene_click hit s; Ok (s, true)
        | artifact_popup => s ← _handle_artifact_popup_click pos s; Ok (s, true)
        | ending => Ok (on_click_ending pos s)
        | _ => Ok (s, true)
        end
      else Ok (s, true)
  | OTHER_EVENT => Ok (s, true)
  end.

(** ** The loop of [run] *)

(** [for event in pygame.event.get()]: a cleared [running] stays cleared. *)
Fixpoint handle_events (evs : list Event) (s : GameState) : pyres (GameState * bool) :=
  match evs with
  | [] => Ok (s, true)
  | ev :: r =>
      '(s, running1) ← handle_event ev s;
      '(s, running2) ← handle_events r s;
      Ok (s, running1 && running2)
  end.

(** One pass of the body of [while running]: the events of the tick, then
    the update of the state the events left. *)
Definition frame (evs : list Event) (dt : Z) (s : GameState) : pyres (GameState * bool) :=
  '(s, running) ← handle_events evs s;
  s ← update dt s;
  Ok (s, running).

(** The passes over a list of ticks; the loop stops after the pass in
    which [running] was cleared. *)
Fixpoint run_frames (ticks : list (list Event * Z)) (s : GameState) : pyres GameState :=
  match ticks with
  | [] => Ok s
  | tick :: r =>
      match frame tick.1 tick.2 s with
      | Ok res => if res.2 then run_frames r res.1 else Ok res.1
      | Raise e => Raise e
      end
  end.

(** The state [__init__] leaves for culprit [k]. *)
Definition init (k : Culprit) : pyres GameState :=
  scs ← _build_scenes (culprit_id k);
  Ok (mkGame k scs opening GLOBAL_TIME_LIMIT (-1) []
        0%nat 0 fade_in 0%nat 0%nat 0
        0
        EmptyString (-1) None
        [] 0%nat fade_in 0 0 false (-1) 0%nat 0%nat 0).

End Handlers.

(** ** Statements to compare with

    Definitions that follow the wording of the specification, and the
    concrete inputs the properties are evaluated at. *)

(** The key with the [.png] suffix removed. *)
Definition strip_png_suffix (s : string) : string :=
  if Py.endswith s ".png" then String.substring 0 (String.length s - 4) s else s.

(** The parse as the specification words it: the suffix is removed, a key
    [r] followed only by digits is a decoy. *)
Definition parse_as_claimed (filename : string) : string * Z :=
  let base := strip_png_suffix (Py.lower filename) in
  match base with
  | EmptyString => (EmptyString, 0)
  | String c rest =>
      if Ascii.eqb c "r" && Py.forallb_str Py.chr_isdecimal rest then (EmptyString, 0)
      else
        match suspect_of_letter c with
        | None => (EmptyString, 0)
        | Some suspect => (suspect, Py.decimal_value 0 (Py.digit_run rest))
        end
  end.

(** The one-character string U+00B2. *)
Definition superscript_two : string := String (ascii_of_nat 178) EmptyString.


(** A provider for which every image loads and no clock image exists, so
    the menu falls back to the circle grid. *)
Definition all_assets : AssetProvider :=
  {| loads := fun _ => true; clock_rects := []; close_hint_size := (60, 17) |}.


(** The accusation keys: 1 = goblin, 2 = chef, 3 = queen. *)
Definition accused (choice : Z) : option Culprit :=
  match choice with
  | 1 => Some Goblin
  | 2 => Some Chef
  | 3 => Some Queen
  | _ => None
  end.

(** The case of a run: its culprit and the scenes built for it. *)
Definition same_case (s s' : GameState) : Prop :=
  scenes s' = scenes s /\ culprit s' = culprit s.

(** The branches of the ending, slide by slide. *)
Definition free_text (k : Culprit) : list string :=
  match k with
  | Queen => BAD_ENDING_QUEEN_FREE
  | Goblin => BAD_ENDING_GOBLIN_FREE
  | Chef => BAD_ENDING_CHEF_FREE
  end.

Definition failure_branch (k : Culprit) : list Slide :=
  [ mkSlide "red_cryst.png" false false false BAD_ENDING_RED_CRYSTAL;
    mkSlide "dead_king.png" false false false BAD_ENDING_DEAD_KING;
    mkSlide (killer_be k) false false true (free_text k) ].

Definition success_branch : list Slide :=
  [ mkSlide "green_cryst.png" false false false WIN_PATH_G1_GREEN_CRYSTAL;
    mkSlide "the_options.png" true false false WIN_PATH_G2_OPTIONS;
    mkSlide "escort_in.png" true false false WIN_PATH_G3_ESCORT;
    mkSlide "the_culprits.png" true true false WIN_PATH_G4_CULPRITS ].

Definition plea_branch (k : Culprit) : list Slide :=
  [ match k with
    | Goblin => mkSlide "goblin_blood.png" false false false WIN_PATH_G5_GOBLIN_PLEADS
    | Chef => mkSlide "chef_blood.png" false false false WIN_PATH_G5_CHEF_PLEADS
    | Queen => mkSlide "queen_blood.png" false false false WIN_PATH_G5_QUEEN_PLEADS
    end;
    mkSlide "blood_transfer.png" false false false WIN_PATH_G6_BLOOD_TAKEN;
    mkSlide "mage_cooking.png" false false false WIN_PATH_G7_HANDS_TO_MAGE ].

Definition good_ending : list Slide :=
  [ mkSlide "green_cryst.png" false false false GOOD_ENDING_GREEN_CRYSTAL;
    mkSlide "dead_king.png" false false false GOOD_ENDING_DEAD_KING;
    mkSlide "ge1.png" false false false GOOD_ENDING_GE1_REJOICING;
    mkSlide "ge2.png" false false true GOOD_ENDING_GE2_CORONATION ].

Definition free_text_ii (k : Culprit) : list string :=
  match k with
  | Queen => BAD_ENDING_II_QUEEN_FREE
  | Chef => BAD_ENDING_II_CHEF_FREE
  | Goblin => BAD_ENDING_II_GOBLIN_FREE
  end.

Definition false_judgement (k : Culprit) : list Slide :=
  [ mkSlide "red_cryst.png" false false false BAD_ENDING_II_RED_CRYSTAL;
    mkSlide "dead_king.png" false false false BAD_ENDING_II_DEAD_KING;
    mkSlide (killer_be k) false false true (free_text_ii k) ].

(** The continuation owed to an accusation of [a] when [k] is guilty. *)
Definition outcome_branch (a k : Culprit) : list Slide :=
  if bool_decide (a = k) then good_ending else false_judgement k.

(** ** Scripted runs *)

Definition or_else {A} (r : pyres A) (d : A) : A :=
  match r with
  | Ok a => a
  | Raise _ => d
  end.

(** The state of [__init__] without its scenes. *)
Definition blank_state (k : Culprit) : GameState :=
  mkGame k [] opening GLOBAL_TIME_LIMIT (-1) []
    0%nat 0 fade_in 0%nat 0%nat 0
    0
    EmptyString (-1) None
    [] 0%nat fade_in 0 0 false (-1) 0%nat 0%nat 0.

Definition press (key : Key) : list Event * Z := ([KEYDOWN key], 16).
Definition wait (ms : Z) : list Event * Z := ([], ms).
Definition click (x y hit : Z) : list Event * Z := ([MOUSEBUTTONDOWN (x, y) 1 hit], 16).

(** Skip the opening, enter the scene of clock [cx, cy], open the artifact
    [hit], crystallize it and let the freeze effect pass. *)
Definition crystallize_at (cx cy hit : Z) : list (list Event * Z) :=
  [click cx cy (-1); click 0 0 hit; click 320 420 (-1); wait 401].

(** Read a slide of [boxes] text boxes to its end. *)
Definition read_slide (boxes : nat) : list (list Event * Z) :=
  (wait 1200 :: replicate boxes (press K_RIGHT) ++ [wait 900])%list.

(** The goblin is guilty; the player crystallizes the two 10-point goblin
    artifacts, accuses, names the chef (key 2) and reads on until the
    [mage_cooking] slide fades out. *)
Definition false_judgement_run : list (list Event * Z) :=
  ([press K_ESCAPE]
   ++ crystallize_at 550 460 2 ++ crystallize_at 750 460 2
   ++ [click 950 650 (-1)]
   ++ read_slide 1 ++ read_slide 3 ++ read_slide 2
   ++ [press K_2]
   ++ read_slide 2 ++ read_slide 1
   ++ [wait 1200; press K_RIGHT; press K_RIGHT])%list.

Definition false_judgement_state : GameState :=
  or_else (s0 ← @init all_assets Goblin; @run_frames all_assets false_judgement_run s0)
    (blank_state Goblin).

(** The slide lists a run can hold once the ending has started: the
    failure branch; the success branch up to the accusation slide; the
    success branch with the plea of the accused [a]; or that followed by
    the one outcome owed to [a]. *)
Definition ending_shape (s : GameState) : Prop :=
  ending_slides s = failure_branch (culprit s)
  \/ (ending_slides s = success_branch
      /\ (ending_index s <= 3)%nat
      /\ (ending_index s = 3%nat -> ending_phase s <> fade_out))
  \/ (exists a, accused (ending_player_choice s) = Some a
      /\ ((ending_slides s = (success_branch ++ plea_branch a)%list
           /\ (4 <= ending_index s <= 6)%nat)
          \/ (ending_slides s
              = (success_branch ++ plea_branch a ++ outcome_branch a (culprit s))%list
              /\ (7 <= ending_index s)%nat))).

(** Before the ending starts there are no slides. *)
Definition ending_inv (s : GameState) : Prop :=
  if bool_decide (state s = ending) then ending_shape s else ending_slides s = [].

(** Undo as the specification words it: the most recent snapshot of the
    scene whose trigger is the given key or is empty. *)
Definition undo_as_claimed (lbl key : string) (snaps : list Snapshot) : list Snapshot :=
  default snaps
    (pop_last_match
       (fun sn =>
          String.eqb (scene_label sn) lbl
          && match trigger_artifact_filename sn with
             | None => true
             | Some f => String.eqb f key
             end)
       snaps).

(** Two artifacts of the first scene are crystallized one after the other
    ([q1-1.png], then [c1-1.png]); the popup of the first is open again. *)
Definition undo_run : list (list Event * Z) :=
  ([press K_ESCAPE]
   ++ crystallize_at 350 260 0 ++ crystallize_at 350 260 1
   ++ [click 350 260 (-1); click 0 0 0])%list.

Definition undo_state : GameState :=
  or_else (s0 ← @init all_assets Chef; @run_frames all_assets undo_run s0)
    (blank_state Chef).

(** The popup of [q1-1.png] is open in the first scene. *)
Definition popup_run : list (list Event * Z) :=
  [press K_ESCAPE; click 350 260 (-1); click 0 0 0].

Definition popup_state : GameState :=
  or_else (s0 ← @init all_assets Chef; @run_frames all_assets popup_run s0)
    (blank_state Chef).

(** The freeze effect right after a crystallize. *)
Definition effect_run : list (list Event * Z) :=
  [press K_ESCAPE; click 350 260 (-1); click 0 0 0; click 320 420 (-1)].

Definition effect_state : GameState :=
  or_else (s0 ← @init all_assets Chef; @run_frames all_assets effect_run s0)
    (blank_state Chef).

(** The first text box of the opening starts to be typed. *)
Definition typing_state : GameState :=
  or_else (s0 ← @init all_assets Chef; @run_frames all_assets [wait 1200] s0)
    (blank_state Chef).

(** Three snapshots in the ledger, a scene open. *)
Definition full_ledger : list Snapshot :=
  [ mkSnapshot [] "09:12" 1 0 0 (Some "q1-1.png");
    mkSnapshot [] "09:12" 0 1 0 (Some "c1-1.png");
    mkSnapshot [] "11:17" 0 10 0 (Some "c10-1.png") ].

Definition capped_scene_state : GameState :=
  set_state scene (set_current_scene_index 0 (set_snapshots full_ledger popup_state)).

Definition capped_popup_state : GameState := set_snapshots full_ledger popup_state.

(** The chef is guilty; the player skips the opening and lets the two
    minutes run out without a snapshot. *)
Definition timeout_run : list (list Event * Z) :=
  [press K_ESCAPE; wait 120000].

Definition timeout_state : GameState :=
  or_else (s0 ← @init all_assets Chef; @run_frames all_assets timeout_run s0)
    (blank_state Chef).

(** The queen is guilty; the player crystallizes her two 10-point
    artifacts, accuses, names the queen (key 3) and reads on past the
    [mage_cooking] slide. *)
Definition good_ending_run : list (list Event * Z) :=
  ([press K_ESCAPE]
   ++ crystallize_at 350 460 0 ++ crystallize_at 550 460 0
   ++ [click 950 650 (-1)]
   ++ read_slide 1 ++ read_slide 3 ++ read_slide 2
   ++ [press K_3]
   ++ read_slide 2 ++ read_slide 1
   ++ [wait 1200; press K_RIGHT; press K_RIGHT; wait 900])%list.

Definition good_ending_state : GameState :=
  or_else (s0 ← @init all_assets Queen; @run_frames all_assets good_ending_run s0)
    (blank_state Queen).

(** The queen is guilty; the player skips the opening and crystallizes the
    two 10-point artifacts of the queen in the first scene. *)
Definition evidence_run : list (list Event * Z) :=
  ([press K_ESCAPE] ++ crystallize_at 350 460 0 ++ crystallize_at 550 460 0)%list.

Definition evidence_state : GameState :=
  or_else (s0 ← @init all_assets Queen; @run_frames all_assets evidence_run s0)
    (blank_state Queen).

(** The goblin is guilty and twenty points are held against the goblin;
    the slide that asks for the culprit has come up. *)
Definition accusation_run : list (list Event * Z) :=
  ([press K_ESCAPE]
   ++ crystallize_at 550 460 2 ++ crystallize_at 750 460 2
   ++ [click 950 650 (-1)]
   ++ read_slide 1 ++ read_slide 3 ++ read_slide 2)%list.

Definition accusation_state : GameState :=
  or_else (s0 ← @init all_assets Goblin; @run_frames all_assets accusation_run s0)
    (blank_state Goblin).

(** The same slide once it has faded in. *)
Definition accusation_holding_state : GameState :=
  or_else (@run_frames all_assets [wait 1200] accusation_state) accusation_state.


(** ** What a run keeps *)

(** [0 <= i < len(self.scenes)] *)
Definition scene_index_ok (scs : list MemoryScene) (i : Z) : Prop :=
  0 <= i < Z.of_nat (length scs).

(** The snapshot the key S appends in scene [sc]. *)
Definition scene_capture (sc : MemoryScene) : Snapshot :=
  mkSnapshot (concat (map tags (artifacts sc))) (label sc)
    (scene_points "queen" (artifacts sc))
    (scene_points "chef" (artifacts sc))
    (scene_points "goblin" (artifacts sc))
    None.

(** The snapshot the Crystallize button appends for the artifact [art]
    of scene [sc]. *)
Definition artifact_capture (sc : MemoryScene) (art : SceneArtifact) : Snapshot :=
  let points_for sid := if String.eqb (suspect_id art) sid then points art else 0 in
  mkSnapshot (tags art) (label sc)
    (points_for "queen") (points_for "chef") (points_for "goblin")
    (Some (spec_filename art)).

Definition capture_of (scs : list MemoryScene) (sn : Snapshot) : Prop :=
  exists sc, sc ∈ scs
    /\ (sn = scene_capture sc \/ exists art, art ∈ artifacts sc /\ sn = artifact_capture sc art).

(** What holds of every state of a run over the scenes [scs]. *)
Definition play_inv (scs : list MemoryScene) (s : GameState) : Prop :=
  scenes s = scs
  /\ (length (snapshots s) <= MAX_SNAPSHOTS)%nat
  /\ Forall (capture_of scs) (snapshots s)
  /\ 0 <= global_time s
  /\ match state s with
     | opening => global_time s = GLOBAL_TIME_LIMIT /\ snapshots s = []
     | menu | snapshot_effect => 0 < global_time s
     | scene => 0 < global_time s /\ scene_index_ok scs (current_scene_index s)
     | artifact_popup =>
         0 < global_time s /\ scene_index_ok scs (current_scene_index s)
         /\ popup_scene_index s = current_scene_index s
         /\ exists sc art,
              scs !! Z.to_nat (popup_scene_index s) = Some sc
              /\ art ∈ artifacts sc
              /\ spec_filename art = popup_artifact_filename s
     | ending => True
     end.

(** The artifact index a click carries is one [_get_artifact_index_at_pos]
    can return in the state the click is handled in: while a scene is
    shown, -1 (or any negative number, read as no artifact) or an index
    of the artifacts of that scene.  In every other state, and when the
    scene index is negative or past the scenes, the loop over the
    artifacts is not reached and the index is not read. *)
Definition hit_ok (s : GameState) (ev : Event) : bool :=
  match ev with
  | MOUSEBUTTONDOWN _ _ hit =>
      if bool_decide (state s = scene) && (0 <=? current_scene_index s) then
        match py_index (scenes s) (current_scene_index s) with
        | Ok sc => hit <? Z.of_nat (length (artifacts sc))
        | Raise _ => true
        end
      else true
  | _ => true
  end.

(** [hit_ok] for every event of a tick, each in the state the events
    before it have left. *)
Fixpoint events_hit_ok `{AssetProvider} (evs : list Event) (s : GameState) : bool :=
  match evs with
  | [] => true
  | ev :: r =>
      hit_ok s ev
      && match handle_event ev s with
         | Ok (s', _) => events_hit_ok r s'
         | Raise _ => true
         end
  end.

(** [hit_ok] for every event of a run from [s], each in the state the run
    has reached when the event is handled. *)
Fixpoint clicks_ok `{AssetProvider} (ticks : list (list Event * Z)) (s : GameState) : bool :=
  match ticks with
  | [] => true
  | tick :: r =>
      events_hit_ok tick.1 s
      && match frame tick.1 tick.2 s with
         | Ok (s', true) => clicks_ok r s'
         | _ => true
         end
  end.

(** The events and the elapsed time of every tick satisfy [Pev] and [Pdt]. *)
Definition ticks_ok (Pev : Event -> Prop) (Pdt : Z -> Prop)
    (ticks : list (list Event * Z)) : Prop :=
  Forall (fun tick => Forall Pev tick.1 /\ Pdt tick.2) ticks.

(** The part of the state the ending leaves alone. *)
Definition same_play (s s' : GameState) : Prop :=
  state s' = state s /\ global_time s' = global_time s
  /\ snapshots s' = snapshots s /\ current_scene_index s' = current_scene_index s.

(** Points of the snapshot [sn] toward the suspect [k]. *)
Definition snap_points (k : Culprit) (sn : Snapshot) : Z :=
  match k with
  | Queen => points_queen sn
  | Chef => points_chef sn
  | Goblin => points_goblin sn
  end.

Definition total_of (k : Culprit) (snaps : list Snapshot) : Z :=
  match k with
  | Queen => total_queen snaps
  | Chef => total_chef snaps
  | Goblin => total_goblin snaps
  end.

(** The checks on one artifact of a scene built for the culprit [k]: it
    has an entry in [ARTIFACT_INFO]; it is worth 0, 1, 5 or 10 points; it
    names no suspect exactly when it is a decoy, which is worth nothing;
    and it is worth at most 1 point unless it points at the culprit. *)
Definition artifact_sound (k : Culprit) (art : SceneArtifact) : bool :=
  bool_decide (spec_filename art ∈ ARTIFACT_INFO)
  && bool_decide (points art ∈ [0; 1; 5; 10])
  && bool_decide (suspect_id art ∈ EmptyString :: map culprit_id suspects)
  && (if String.eqb (suspect_id art) EmptyString
      then (points art =? 0) && is_replacement_name (spec_filename art)
      else (0 <? points art) && negb (is_replacement_name (spec_filename art)))
  && (String.eqb (suspect_id art) (culprit_id k) || (points art <=? 1)).

(** One scene against the scene of the same index when every image loads. *)
Definition scene_within (sc full : MemoryScene) : Prop :=
  label sc = label full /\ artifacts sc `sublist_of` artifacts full.

(** The state [__init__] leaves when every image loads. *)
Definition start_state (k : Culprit) : GameState :=
  or_else (@init all_assets k) (blank_state k).

(** The ending reached by running out of time, then a key and two seconds. *)
Definition after_timeout_run : list (list Event * Z) :=
  [press K_RIGHT; wait 2000].

Definition after_timeout_state : GameState :=
  or_else (@run_frames all_assets after_timeout_run timeout_state) timeout_state.

(** ** Statements about the scenes *)

#[global] Instance AssetPath_eq_dec : EqDecision AssetPath.
Proof. solve_decision. Defined.

(** The file [_load_popup_artifact_image] reads for the artifact [fn] of
    the scene [i]. *)
Definition popup_path (i : nat) (fn : string) : AssetPath :=
  if is_replacement_name (Py.lower fn) then ReplacementAsset fn else SceneAsset i fn.

(** The artifacts of scene [i] before their images are loaded, with the
    file each is loaded from. *)
Definition built_for (k : Culprit) (i : nat) : pyres (list (AssetPath * SceneArtifact)) :=
  specs ← list_get artifact_specs i;
  scene_tags ← list_get tag_options i;
  mapM_res (build_artifact (culprit_id k) i scene_tags) specs.

(** A scene is open, nothing crystallized yet. *)
Definition scene_run : list (list Event * Z) :=
  [press K_ESCAPE; click 350 260 (-1)].

Definition scene_state : GameState :=
  or_else (s0 ← @init all_assets Chef; @run_frames all_assets scene_run s0)
    (blank_state Chef).

(** [q1-1.png] of the first scene is crystallized and its popup is open
    again. *)
Definition reopened_run : list (list Event * Z) :=
  ([press K_ESCAPE] ++ crystallize_at 350 260 0 ++ [click 350 260 (-1); click 0 0 0])%list.

Definition reopened_state : GameState :=
  or_else (s0 ← @init all_assets Chef; @run_frames all_assets reopened_run s0)
    (blank_state Chef).

(** The first scene when the chef is guilty and every image loads, and
    its first artifact. *)
Definition first_scene : MemoryScene :=
  nth 0 (scenes (start_state Chef)) (mkScene EmptyString []).

Definition first_artifact : SceneArtifact :=
  nth 0 (artifacts first_scene) (mkArtifact [] EmptyString EmptyString 0).

(** The state the Crystallize button leaves from [popup_state]. *)
Definition crystallized_state : GameState :=
  or_else (_handle_artifact_popup_click (320, 420) popup_state) popup_state.

(** ** Statements about the menu and the ending *)

(** The point [pos] is within [CLOCK_RADIUS] of the centre of clock [idx]. *)
Definition on_clock (idx : nat) (pos : Z * Z) : Prop :=
  let c := _clock_center idx in
  (pos.1 - c.1) * (pos.1 - c.1) + (pos.2 - c.2) * (pos.2 - c.2)
  <= CLOCK_RADIUS * CLOCK_RADIUS.

(** The menu, right after the opening is skipped. *)
Definition menu_state : GameState :=
  or_else (s0 ← @init all_assets Chef; @run_frames all_assets [press K_ESCAPE] s0)
    (blank_state Chef).

(** The thumbnail of snapshot [i] in a memories row of [n] snapshots. *)
Definition memory_rect (n i : nat) : Rect :=
  mkRect ((WIDTH - (Z.of_nat n * 124 - 24)) / 2 + Z.of_nat i * 124) 575 120 99.

(** The slide shown asks for a click or a key to exit. *)
Definition exit_offered (s : GameState) : bool :=
  match ending_slides s !! ending_index s with
  | Some sl => at_exit_prompt sl s
  | None => false
  end.

(** The last slide of the failure branch, read to its end. *)
Definition exit_run : list (list Event * Z) :=
  (read_slide 6 ++ read_slide 6 ++ [wait 1200]
   ++ replicate 7 (press K_RIGHT))%list.

Definition exit_state : GameState :=
  or_else (@run_frames all_assets exit_run timeout_state) timeout_state.

(** ** Word wrap of the text boxes *)

(** The text handed to [_wrap_opening_text] is a [str] of any code
    points: here a [str] is the list of its code points. *)
Definition ustr : Type := list N.

Definition u_space : N := 32.
Definition u_newline : N := 10.

(** The characters [str.split()] separates on, those of [str.isspace]:
    U+0009..U+000D, U+001C..U+0020, U+0085, U+00A0, U+1680,
    U+2000..U+200A, U+2028, U+2029, U+202F, U+205F and U+3000. *)
Definition u_isspace (c : N) : bool :=
  (((9 <=? c) && (c <=? 13)) || ((28 <=? c) && (c <=? 32))
   || (c =? 133) || (c =? 160) || (c =? 5760)
   || ((8192 <=? c) && (c <=? 8202))
   || (c =? 8232) || (c =? 8233) || (c =? 8239) || (c =? 8287) || (c =? 12288))%N.

(** [s.split(sep)] for a separator of one character. *)
Fixpoint u_split_on (sep : N) (s : ustr) : list ustr :=
  match s with
  | [] => [[]]
  | c :: r =>
      if (c =? sep)%N then [] :: u_split_on sep r
      else
        match u_split_on sep r with
        | [] => [[c]]
        | p :: ps => (c :: p) :: ps
        end
  end.

(** [s.split()]: the maximal runs without white space; [word] is the run
    being read. *)
Fixpoint u_split_from (word : ustr) (s : ustr) : list ustr :=
  match s with
  | [] => match word with [] => [] | _ => [word] end
  | c :: r =>
      if u_isspace c
      then (match word with [] => [] | _ => [word] end ++ u_split_from [] r)%list
      else u_split_from (word ++ [c])%list r
  end.

Definition u_split (s : ustr) : list ustr := u_split_from [] s.

(** [" ".join(words)] *)
Fixpoint u_join (words : list ustr) : ustr :=
  match words with
  | [] => []
  | [w] => w
  | w :: r => (w ++ u_space :: u_join r)%list
  end.

Section Wrap.
(** [font.size(text)[0]], the width of the rendered text in pixels. *)
Variable text_width : ustr -> Z.
Variable max_width : Z.

(** [if line: lines_out.append(" ".join(line))] *)
Definition flush_line (line : list ustr) : list ustr :=
  match line with
  | [] => []
  | _ => [u_join line]
  end.

(** The loop over the words of one paragraph, from the state [line]. *)
Fixpoint wrap_words (line : list ustr) (words : list ustr) : list ustr :=
  match words with
  | [] => flush_line line
  | word :: r =>
      if text_width (u_join (line ++ [word])%list) <=? max_width
      then wrap_words (line ++ [word])%list r
      else (flush_line line ++ wrap_words [word] r)%list
  end.

Definition _wrap_opening_text (text : ustr) : list ustr :=
  concat (map (fun para => wrap_words [] (u_split para)) (u_split_on u_newline text)).

End Wrap.

(** A run of characters that are not white space. *)
Definition is_word (w : ustr) : Prop :=
  w <> [] /\ Forall (fun c => u_isspace c = false) w.

(** The code points of an ASCII string, and a font of 10 pixels a
    character. *)
Definition ustr_of (s : string) : ustr :=
  map (fun c => N_of_ascii c) (list_ascii_of_string s).

Definition ten_a_character (s : ustr) : Z := 10 * Z.of_nat (length s).

(** ** Scaling an image to a largest side *)

(** The size an image of [w] by [h] pixels is scaled to in
    [_load_popup_artifact_image], in [_load_ending_popup_artifact] and in
    the artifact loop of [_build_scenes]:
    [if w > h: if w > max_side: h = max(1, int(h * max_side / w)); w = max_side]
    [else: if h > max_side: w = max(1, int(w * max_side / h)); h = max_side].
    The quotient is below [max_side] and the sides of a surface are C
    integers, so the float division truncates to the integer quotient. *)
Definition fit_max_side (max_side w h : Z) : Z * Z :=
  if h <? w then
    if max_side <? w then (max_side, Z.max 1 (h * max_side / w)) else (w, h)
  else
    if max_side <? h then (Z.max 1 (w * max_side / h), max_side) else (w, h).

(** ** The accusation cards

    [_handle_accuse_click], [_update_accuse_hover] and [_compute_result]
    belong to the accusation and result screens; [run] has no branch for
    the states [accuse] and [result], so they are modelled on a state of
    their own: the game state and the attributes they read and write. *)

Module Accuse.

Record Suspect : Type := mkSuspect {
  id : string;
  name : string;
  role : string;
  motive : string;
  requires : list string;
  flavour : string
}.

Definition _build_suspects : list Suspect := [
  mkSuspect "queen" "Queen Elira" "Queen" "Power & Succession" []
    "The crown weighs more than it appears.";
  mkSuspect "goblin" "Brannic Ashhand" "Goblin Groundskeeper" "Resentment & Access" []
    "His hands are worn from work no one sees.";
  mkSuspect "chef" "Edrin Vale" "Royal Chef" "Loyalty & Poison" []
    "He has fed three kings. Trust is another matter."
].

(** [self.culprit], the object [random.choice(self.suspects)] returned. *)
Definition suspect_of (k : Culprit) : Suspect :=
  match k with
  | Queen => mkSuspect "queen" "Queen Elira" "Queen" "Power & Succession" []
               "The crown weighs more than it appears."
  | Goblin => mkSuspect "goblin" "Brannic Ashhand" "Goblin Groundskeeper"
                "Resentment & Access" [] "His hands are worn from work no one sees."
  | Chef => mkSuspect "chef" "Edrin Vale" "Royal Chef" "Loyalty & Poison" []
              "He has fed three kings. Trust is another matter."
  end.

(** [self.state] on the two values these functions deal with. *)
Inductive Screen : Type := accuse | result.

Record State : Type := mkState {
  game : GameState;
  screen : Screen;
  selected_suspect : option Suspect;
  result_message : option string;
  result_success : bool;
  result_time : Z;
  hover_suspect_index : Z
}.

(** The decimal digits of [n], most significant first, before [acc]. *)
Fixpoint digits (fuel : nat) (n : N) (acc : string) : string :=
  match fuel with
  | O => acc
  | S f =>
      let acc := String (ascii_of_N (48 + n mod 10)) acc in
      if (n / 10 =? 0)%N then acc else digits f (n / 10)%N acc
  end.

(** [str(z)] for an integer, as an f-string formats it. *)
Definition str_int (z : Z) : string :=
  match z with
  | Z0 => "0"
  | Zpos p => digits (Pos.size_nat p) (Npos p) EmptyString
  | Zneg p => String "-" (digits (Pos.size_nat p) (Npos p) EmptyString)
  end.

(** The card of suspect [idx] contains the point, its four edges
    included: [x <= pos[0] <= x + card_w and y <= pos[1] <= y + card_h]. *)
Definition on_card (idx : nat) (pos : Z * Z) : bool :=
  let x := 60 in
  let y := 160 + Z.of_nat idx * 125 in
  (x <=? pos.1) && (pos.1 <=? x + 260) && (y <=? pos.2) && (pos.2 <=? y + 115).

Definition _compute_result (a : State) : State :=
  match selected_suspect a with
  | None => a
  | Some sel =>
      let snaps := snapshots (game a) in
      let the_culprit := suspect_of (culprit (game a)) in
      let sid := id sel in
      let total_accused :=
        if String.eqb sid "queen" then total_queen snaps
        else if String.eqb sid "chef" then total_chef snaps
        else total_goblin snaps in
      let is_culprit := String.eqb (id sel) (id the_culprit) in
      let success := is_culprit && (EVIDENCE_POINTS_REQUIRED <=? total_accused) in
      let message :=
        if success then
          "You accused " ++ name sel ++ " and succeeded." ++ nl
          ++ "You had " ++ str_int total_accused ++ " points of evidence against "
          ++ role sel ++ "." ++ nl
          ++ "The culprit was indeed " ++ name the_culprit ++ "."
        else if is_culprit then
          "You accused " ++ name sel ++ ", the real culprit, but you did not "
          ++ "crystallize enough evidence. You had " ++ str_int total_accused
          ++ " points (need " ++ str_int EVIDENCE_POINTS_REQUIRED ++ ")."
        else
          "Wrong suspect. You accused " ++ name sel ++ " but the real culprit was "
          ++ name the_culprit ++ "." in
      mkState (game a) (screen a) (selected_suspect a) (Some message) success
        (result_time a) (hover_suspect_index a)
  end.

Definition _handle_accuse_click (pos : Z * Z) (a : State) : State :=
  match find_index_from (fun idx _ => on_card idx pos) 0 _build_suspects with
  | Some idx =>
      match _build_suspects !! idx with
      | Some s =>
          let a := mkState (game a) (screen a) (Some s) (result_message a)
                     (result_success a) (result_time a) (hover_suspect_index a) in
          let a := _compute_result a in
          mkState (game a) result (selected_suspect a) (result_message a)
            (result_success a) 0 (hover_suspect_index a)
      | None => a
      end
  | None => a
  end.

Definition _update_accuse_hover (mx my : Z) (a : State) : State :=
  let hover :=
    match find_index_from (fun idx _ => on_card idx (mx, my)) 0 _build_suspects with
    | Some idx => Z.of_nat idx
    | None => -1
    end in
  mkState (game a) (screen a) (selected_suspect a) (result_message a)
    (result_success a) (result_time a) hover.

(** The accusation screen over the game state [s], nothing selected. *)
Definition start (s : GameState) : State :=
  mkState s accuse None None false 0 (-1).

End Accuse.

(** The accusation screen over the ending of the false judgement, the
    goblin selected. *)
Definition goblin_accused : Accuse.State :=
  Accuse.mkState false_judgement_state Accuse.accuse (Some (Accuse.suspect_of Goblin))
    None false 0 (-1).

(** ** The clock images of the menu *)

(** [offsets] of [_load_menu_assets], from the centre of the screen. *)
Definition clock_offsets : list (Z * Z) :=
  [(-160, -240); (160, -240); (-340, 0); (340, 0); (-160, 240); (160, 240)].

(** The centre [(px, py)] of clock image [i]. *)
Definition clock_image_center (off : Z * Z) : Z * Z :=
  (WIDTH / 2 + off.1, HEIGHT / 2 + off.2).

(** [self.clock_rects] as [_load_menu_assets] fills it.  [rotated_size i]
    is the size of image [c{i+1}.png] once scaled and rotated, [None]
    when loading it raises; [img.get_rect(center=(px, py))] puts the
    left edge at [px - w // 2] and the top edge at [py - h // 2], and a
    failed load appends [Rect(0, 0, 0, 0)]. *)
Definition _load_menu_assets (rotated_size : nat -> option (Z * Z)) : list Rect :=
  imap (fun i off =>
          match rotated_size i with
          | Some (w, h) =>
              let c := clock_image_center off in
              mkRect (c.1 - w / 2) (c.2 - h / 2) w h
          | None => mkRect 0 0 0 0
          end)
    clock_offsets.

(** Every image loads, the six clock images at 120 by 130 pixels. *)
Definition clock_assets : AssetProvider :=
  {| loads := fun _ => true;
     clock_rects := _load_menu_assets (fun _ => Some (120, 130));
     close_hint_size := (60, 17) |}.

Definition clock_menu_state : GameState :=
  or_else (s0 ← @init clock_assets Chef; @run_frames clock_assets [press K_ESCAPE] s0)
    (blank_state Chef).

(** * Properties *)

(** ** Artifact keys *)

Example parse_q10 : _parse_artifact_suspect_and_points "q10-1.png" = Ok ("queen", 10).
Proof. reflexivity. Qed.
Example parse_r3 : _parse_artifact_suspect_and_points "r3.png" = Ok (EmptyString, 0).
Proof. reflexivity. Qed.
Example parse_upper : _parse_artifact_suspect_and_points "C5-2.PNG" = Ok ("chef", 5).
Proof. reflexivity. Qed.

Lemma chr_lower_isascii c : Py.chr_isascii c = true -> Py.chr_isascii (Py.chr_lower c) = true.
Proof.
  unfold Py.chr_isascii, Py.chr_lower, Py.ord. intros Hc.
  apply N.ltb_lt in Hc.
  destruct (_ || _)%N eqn:E; [|by apply N.ltb_lt].
  apply N.ltb_lt. rewrite N_ascii_embedding by lia.
  apply orb_true_iff in E as [E|E].
  - apply andb_true_iff in E as [_ E]. apply N.leb_le in E. lia.
  - apply andb_true_iff in E as [E _]. apply andb_true_iff in E as [E _].
    apply N.leb_le in E. lia.
Qed.

Lemma lower_isascii s : Py.isascii s = true -> Py.isascii (Py.lower s) = true.
Proof.
  unfold Py.isascii. induction s as [|c r IH]; simpl; [done|].
  intros [Hc Hr]%andb_true_iff. by rewrite chr_lower_isascii, IH.
Qed.

Lemma lower_length s : String.length (Py.lower s) = String.length s.
Proof. induction s; simpl; congruence. Qed.

Lemma remove_isascii old s k :
  Py.isascii s = true -> Py.isascii (Py.replace_from old EmptyString s k) = true.
Proof.
  unfold Py.isascii. revert k. induction s as [|c r IH]; intros k; [done|].
  intros [Hc Hr]%andb_true_iff.
  cbn [Py.replace_from]. destruct k; [|by apply IH].
  destruct (String.prefix old (String c r)); cbn [Py.forallb_str].
  - change (EmptyString +:+ ?x) with x. by apply IH.
  - by rewrite Hc, IH.
Qed.

Lemma remove_length old s k :
  (String.length (Py.replace_from old EmptyString s k) <= String.length s)%nat.
Proof.
  revert k. induction s as [|c r IH]; intros k; [done|].
  cbn [Py.replace_from]. destruct k as [|k].
  - destruct (String.prefix old (String c r)).
    + specialize (IH (String.length old - 1)%nat).
      change (EmptyString +:+ ?x) with x. cbn [String.length]. lia.
    + specialize (IH O). cbn [String.length]. lia.
  - specialize (IH k). simpl. lia.
Qed.

Lemma isdigit_ascii_decimal c :
  Py.chr_isascii c = true -> Py.chr_isdigit c = Py.chr_isdecimal c.
Proof.
  unfold Py.chr_isascii, Py.chr_isdigit, Py.chr_isdecimal.
  intros Hc%N.ltb_lt.
  replace (Py.ord c =? 178)%N with false by (symmetry; apply N.eqb_neq; lia).
  replace (Py.ord c =? 179)%N with false by (symmetry; apply N.eqb_neq; lia).
  replace (Py.ord c =? 185)%N with false by (symmetry; apply N.eqb_neq; lia).
  by rewrite !orb_false_r.
Qed.

Lemma digit_run_decimal s :
  Py.isascii s = true -> Py.forallb_str Py.chr_isdecimal (Py.digit_run s) = true.
Proof.
  unfold Py.isascii. induction s as [|c r IH]; [done|].
  intros [Hc Hr]%andb_true_iff. cbn [Py.digit_run].
  destruct (Py.chr_isdigit c) eqn:E; [|done].
  cbn [Py.forallb_str]. rewrite <- isdigit_ascii_decimal, E, IH; done.
Qed.

Lemma digit_run_length s : (String.length (Py.digit_run s) <= String.length s)%nat.
Proof.
  induction s as [|c r IH]; [done|]. cbn [Py.digit_run].
  destruct (Py.chr_isdigit c); simpl; lia.
Qed.

Lemma int_digit_run s :
  Py.isascii s = true -> (String.length s <= Py.int_max_str_digits)%nat ->
  Py.digit_run s <> EmptyString ->
  Py.int (Py.digit_run s) = Ok (Py.decimal_value 0 (Py.digit_run s)).
Proof.
  intros Ha Hl Hne. unfold Py.int.
  destruct (Py.digit_run s) eqn:E; [done|]. rewrite <- E.
  rewrite digit_run_decimal by done.
  pose proof (digit_run_length s).
  replace (String.length (Py.digit_run s) <=? Py.int_max_str_digits)%nat with true; [done|].
  symmetry. apply Nat.leb_le. lia.
Qed.

Lemma prefix_r_first c rest :
  String.prefix "r" (String c rest) = true -> suspect_of_letter c = None.
Proof.
  cbn [String.prefix]. destruct (ascii_dec "r" c) as [<-|]; [done|discriminate].
Qed.

(** C10, as amended.  For a key of ASCII characters no longer than the
    interpreter converts, the parse returns; with [base] the lowercased
    key from which every occurrence of [.png] is removed, the result is
    [("", 0)] when [base] is empty, is [r] followed only by digits, or
    does not start with [q], [c] or [g], and otherwise the suspect of the
    first letter with the value of the digits that follow it (0 when
    there are none). *)
Theorem parse_total_on_ascii (filename : string) :
  Py.isascii filename = true ->
  (String.length filename <= Py.int_max_str_digits)%nat ->
  let base := Py.replace (Py.lower filename) ".png" EmptyString in
  (base = EmptyString ->
   _parse_artifact_suspect_and_points filename = Ok (EmptyString, 0))
  /\ (forall ds, base = String "r" ds -> Py.forallb_str Py.chr_isdecimal ds = true ->
      _parse_artifact_suspect_and_points filename = Ok (EmptyString, 0))
  /\ (forall c rest, base = String c rest -> c <> "q"%char -> c <> "c"%char -> c <> "g"%char ->
      _parse_artifact_suspect_and_points filename = Ok (EmptyString, 0))
  /\ (forall c rest suspect, base = String c rest ->
      (c = "q"%char /\ suspect = "queen" \/ c = "c"%char /\ suspect = "chef"
       \/ c = "g"%char /\ suspect = "goblin") ->
      _parse_artifact_suspect_and_points filename
      = Ok (suspect, Py.decimal_value 0 (Py.digit_run rest))
      /\ (Py.digit_run rest = EmptyString -> Py.decimal_value 0 (Py.digit_run rest) = 0)).
Proof.
  intros Ha Hl base.
  assert (Hbase : Py.isascii base = true)
    by (apply remove_isascii, lower_isascii, Ha).
  assert (Hlen : (String.length base <= Py.int_max_str_digits)%nat).
  { pose proof (remove_length ".png" (Py.lower filename) O) as Hr.
    rewrite lower_length in Hr. unfold base, Py.replace. lia. }
  assert (Hshape : forall c rest, base = String c rest ->
            _parse_artifact_suspect_and_points filename
            = match suspect_of_letter c with
              | None => Ok (EmptyString, 0)
              | Some suspect => Ok (suspect, Py.decimal_value 0 (Py.digit_run rest))
              end).
  { intros c rest E. unfold _parse_artifact_suspect_and_points.
    fold base. rewrite E. unfold Py.startswith.
    destruct (String.prefix "r" (String c rest)) eqn:Epre.
    - rewrite (prefix_r_first _ _ Epre).
      destruct (Py.isdigit _); reflexivity.
    - cbn [andb]. destruct (suspect_of_letter c) as [suspect|]; [|reflexivity].
      rewrite E in Hbase, Hlen. unfold Py.isascii in Hbase.
      cbn [Py.forallb_str] in Hbase. apply andb_true_iff in Hbase as [_ Hrest].
      cbn [String.length] in Hlen.
      destruct (Py.digit_run rest) eqn:Erun; [reflexivity|].
      rewrite <- Erun, int_digit_run; [reflexivity|exact Hrest|lia|congruence]. }
  split; [|split; [|split]].
  - intros E. unfold _parse_artifact_suspect_and_points. fold base. by rewrite E.
  - intros ds E _. by rewrite (Hshape _ _ E).
  - intros c rest E Hq Hc Hg. rewrite (Hshape _ _ E). unfold suspect_of_letter.
    destruct (Ascii.eqb_spec c "q"); [done|].
    destruct (Ascii.eqb_spec c "c"); [done|].
    destruct (Ascii.eqb_spec c "g"); done.
  - intros c rest suspect E Hsus. split.
    + rewrite (Hshape _ _ E).
      destruct Hsus as [[-> ->]|[[-> ->]|[-> ->]]]; reflexivity.
    + intros ->. reflexivity.
Qed.

Lemma parse_total_on_ascii_witness :
  Py.isascii "c10-1.png" = true
  /\ (String.length "c10-1.png" <= Py.int_max_str_digits)%nat
  /\ _parse_artifact_suspect_and_points "c10-1.png" = Ok ("chef", 10).
Proof.
  split; [reflexivity|]. split; [apply Nat.leb_le; reflexivity|].
  refine (proj1 (proj2 (proj2 (proj2
            (parse_total_on_ascii "c10-1.png" eq_refl _))) "c"%char "10-1" "chef" eq_refl _)).
  - apply Nat.leb_le; reflexivity.
  - right; left; split; reflexivity.
Defined.

(** C10 as stated fails twice.  [.png] is removed wherever it occurs, not
    only as a suffix, so [q.png7] scores 7 points where the stated rule
    gives 0; and a superscript digit passes [isdigit] but is refused by
    [int], so the parse of [q] followed by U+00B2 raises [ValueError]. *)
Lemma parse_not_as_claimed :
  _parse_artifact_suspect_and_points "q.png7" = Ok ("queen", 7)
  /\ parse_as_claimed "q.png7" = ("queen", 0)
  /\ _parse_artifact_suspect_and_points (String "q" superscript_two) = Raise ValueError.
Proof. repeat split. Qed.

(** ** Results *)

Lemma bind_Ok {A B} (m : pyres A) (f : A -> pyres B) (b : B) :
  (m ≫= f) = Ok b -> exists a, m = Ok a /\ f a = Ok b.
Proof. destruct m as [a|e]; [eauto|discriminate]. Qed.

Lemma is_Ok_true {A} (r : pyres A) : is_Ok r = true -> exists a, r = Ok a.
Proof. destruct r; [eauto|discriminate]. Qed.


(** ** Scene construction *)



Section SceneProperties.
Context `{AssetProvider}.

Lemma build_scenes_from_lookup (killer_id : string) (lbls : list string) :
  forall (i0 : nat) (scs : list MemoryScene),
    build_scenes_from killer_id i0 lbls = Ok scs ->
    forall (j : nat) (lbl : string),
      lbls !! j = Some lbl ->
      exists sc, scs !! j = Some sc /\ build_scene killer_id (i0 + j) lbl = Ok sc.
Proof.
  induction lbls as [|l r IH]; intros i0 scs Hb j lbl Hj; [done|].
  simpl in Hb. apply bind_Ok in Hb as (sc & Hsc & Hb).
  apply bind_Ok in Hb as (scs' & Hscs & Hb). injection Hb as <-.
  destruct j as [|j]; simpl in Hj.
  - injection Hj as <-. exists sc. rewrite Nat.add_0_r. auto.
  - destruct (IH _ _ Hscs _ _ Hj) as (sc' & ? & ?). exists sc'.
    replace (i0 + S j)%nat with (S i0 + j)%nat by lia. auto.
Qed.

Lemma build_scenes_ok (k : Culprit) : is_Ok (_build_scenes (culprit_id k)) = true.
Proof. destruct k; vm_compute; reflexivity. Qed.

End SceneProperties.

(** ** The case never changes during a run *)

(** Attribute reads and writes on an explicit state, and nothing else. *)
Ltac fields :=
  cbn [
    culprit scenes state global_time current_scene_index snapshots
    opening_slide_index opening_timer opening_phase opening_text_index
    opening_char_index opening_typing_accumulator snapshot_effect_time
    popup_artifact_filename popup_scene_index popup_artifact_surface
    ending_slides ending_index ending_phase ending_timer ending_player_choice
    ending_show_memories ending_memory_popup_index ending_text_index
    ending_char_index ending_typing_accumulator set_state set_global_time
    set_current_scene_index set_snapshots set_opening_slide_index
    set_opening_timer set_opening_phase set_opening_text_index
    set_opening_char_index set_opening_typing_accumulator
    set_snapshot_effect_time set_popup_artifact_filename set_popup_scene_index
    set_popup_artifact_surface set_ending_slides set_ending_index
    set_ending_phase set_ending_timer set_ending_player_choice
    set_ending_show_memories set_ending_memory_popup_index
    set_ending_text_index set_ending_char_index set_ending_typing_accumulator ] in *.

Ltac res_inv :=
  repeat match goal with
  | H : Ok _ = Ok _ |- _ => injection H as H; try subst
  | H : Raise _ = Ok _ |- _ => discriminate H
  | H : (_ ≫= _) = Ok _ |- _ => apply bind_Ok in H as (? & ? & H)
  | H : (if ?b then _ else _) = Ok _ |- _ => destruct b eqn:?
  | H : match ?x with _ => _ end = Ok _ |- _ => destruct x eqn:?
  | H : (let '(_, _) := ?x in _) = Ok _ |- _ => destruct x eqn:?
  end.

Ltac same_case_pure := repeat case_match; fields; split; reflexivity.

Section Run.
Context `{AssetProvider}.

Lemma same_case_refl s : same_case s s.
Proof. by split. Qed.

Lemma same_case_trans s1 s2 s3 : same_case s1 s2 -> same_case s2 s3 -> same_case s1 s3.
Proof. intros [? ?] [? ?]. split; congruence. Qed.

Lemma start_ending_same s : same_case s (_start_ending s).
Proof. destruct s. by split. Qed.

Lemma update_opening_same dt s : same_case s (_update_opening dt s).
Proof. destruct s. unfold _update_opening. fields. same_case_pure. Qed.

Lemma update_ending_same dt s : same_case s (_update_ending dt s).
Proof.
  destruct s. unfold _update_ending, _ending_append_outcome. fields. same_case_pure.
Qed.

Lemma update_global_timer_same dt s : same_case s (_update_global_timer dt s).
Proof.
  destruct s. unfold _update_global_timer, _start_ending. fields. same_case_pure.
Qed.

Lemma update_snapshot_effect_same dt s : same_case s (_update_snapshot_effect dt s).
Proof. destruct s. unfold _update_snapshot_effect. fields. same_case_pure. Qed.

Lemma update_same dt s s' : update dt s = Ok s' -> same_case s s'.
Proof.
  unfold update, _update_scene. intros Hu. res_inv;
    first [apply update_opening_same | apply update_global_timer_same
          | apply update_ending_same | apply update_snapshot_effect_same].
Qed.

Lemma take_snapshot_same s s' : _take_snapshot s = Ok s' -> same_case s s'.
Proof. destruct s. unfold _take_snapshot. fields. intros Hu. res_inv; by split. Qed.

Lemma take_snapshot_from_popup_same s s' :
  _take_snapshot_from_popup s = Ok s' -> same_case s s'.
Proof.
  destruct s. unfold _take_snapshot_from_popup. fields. intros Hu. res_inv; by split.
Qed.

Lemma close_artifact_popup_same s : same_case s (_close_artifact_popup s).
Proof. destruct s. by split. Qed.

Lemma handle_artifact_popup_click_same pos s s' :
  _handle_artifact_popup_click pos s = Ok s' -> same_case s s'.
Proof.
  unfold _handle_artifact_popup_click. intros Hu. res_inv;
    try apply close_artifact_popup_same; try apply same_case_refl.
  all: first
    [ match goal with
      | Hs : _take_snapshot_from_popup _ = Ok ?x |- _ =>
          apply take_snapshot_from_popup_same in Hs;
          apply (same_case_trans _ x); [exact Hs|destruct x; by split]
      end
    | eapply same_case_trans; [|apply close_artifact_popup_same]; destruct s; by split ].
Qed.

Lemma handle_scene_click_same hit s s' : _handle_scene_click hit s = Ok s' -> same_case s s'.
Proof.
  destruct s. unfold _handle_scene_click, _get_artifact_index_at_pos,
    _load_popup_artifact_image. fields. intros Hu.
  res_inv; try by split. fields. same_case_pure.
Qed.

Lemma handle_menu_click_same pos s : same_case s (_handle_menu_click pos s).
Proof.
  destruct s. unfold _handle_menu_click, enter_scene, _start_ending. fields.
  same_case_pure.
Qed.

Lemma on_keydown_ending_same key s s' r :
  on_keydown_ending key s = Ok (s', r) -> same_case s s'.
Proof.
  destruct s. unfold on_keydown_ending, ending_choose, ending_next_slide,
    _ending_append_blood_and_continuation. fields.
  intros Hu. res_inv; simplify_eq; fields; same_case_pure.
Qed.

Lemma on_right_opening_same s : same_case s (on_right_opening s).
Proof. destruct s. unfold on_right_opening. fields. same_case_pure. Qed.

Lemma on_keydown_same key s s' r : on_keydown key s = Ok (s', r) -> same_case s s'.
Proof.
  unfold on_keydown. intros Hu. res_inv; simplify_eq;
    eauto using on_keydown_ending_same, on_right_opening_same, take_snapshot_same,
      close_artifact_popup_same, same_case_refl.
  all: destruct s; by split.
Qed.

Lemma on_click_ending_same pos s : same_case s (on_click_ending pos s).1.
Proof.
  destruct s. unfold on_click_ending, _close_ending_memory_popup,
    _handle_ending_memory_click, _load_ending_popup_artifact. fields.
  repeat case_match; fields; repeat case_match; fields; split; reflexivity.
Qed.

Lemma handle_event_same ev s s' r : handle_event ev s = Ok (s', r) -> same_case s s'.
Proof.
  unfold handle_event. intros Hu. res_inv; simplify_eq;
    eauto using on_keydown_same, handle_menu_click_same, handle_scene_click_same,
      handle_artifact_popup_click_same, same_case_refl.
  match goal with
  | Hc : on_click_ending ?pos ?s = _ |- _ =>
      pose proof (on_click_ending_same pos s) as Hs; by rewrite Hc in Hs
  end.
Qed.

Lemma handle_events_same evs : forall s s' r,
  handle_events evs s = Ok (s', r) -> same_case s s'.
Proof.
  induction evs as [|ev evs IH]; intros s s' r Hh; simpl in Hh.
  - simplify_eq. apply same_case_refl.
  - apply bind_Ok in Hh as ([s1 r1] & H1 & Hh).
    apply bind_Ok in Hh as ([s2 r2] & H2 & Hh). simplify_eq.
    eauto using same_case_trans, handle_event_same.
Qed.

Lemma frame_same evs dt s s' r : frame evs dt s = Ok (s', r) -> same_case s s'.
Proof.
  unfold frame. intros Hf.
  apply bind_Ok in Hf as ([s1 r1] & H1 & Hf).
  apply bind_Ok in Hf as (s2 & H2 & Hf). simplify_eq.
  eauto using same_case_trans, handle_events_same, update_same.
Qed.

Lemma run_frames_same ticks : forall s s',
  run_frames ticks s = Ok s' -> same_case s s'.
Proof.
  induction ticks as [|[evs dt] ticks IH]; intros s s' Hr; simpl in Hr.
  - simplify_eq. apply same_case_refl.
  - destruct (frame evs dt s) as [[s1 r1]|] eqn:Hf; [|discriminate].
    apply frame_same in Hf. simpl in Hr. destruct r1.
    + eauto using same_case_trans.
    + by simplify_eq.
Qed.

Lemma init_case k s0 :
  init k = Ok s0 -> _build_scenes (culprit_id k) = Ok (scenes s0) /\ culprit s0 = k.
Proof.
  unfold init. intros (scs & Hscs & Hi)%bind_Ok. by simplify_eq.
Qed.


End Run.


(** ** Reachable points *)

Lemma sum_Z_nonneg (l : list Z) : Forall (fun x => 0 <= x) l -> 0 <= sum_Z l.
Proof. induction 1; simpl; lia. Qed.

Lemma scene_points_cons sid art arts :
  scene_points sid (art :: arts)
  = (if String.eqb (suspect_id art) sid then points art else 0) + scene_points sid arts.
Proof. reflexivity. Qed.




Section Reachability.
Context `{AssetProvider}.





End Reachability.



(** ** Ending selector *)

Lemma free_text_inj k1 k2 : free_text k1 = free_text k2 -> k1 = k2.
Proof. destruct k1, k2; intros Hk; first [reflexivity | discriminate Hk]. Qed.

Lemma free_text_ii_inj k1 k2 : free_text_ii k1 = free_text_ii k2 -> k1 = k2.
Proof. destruct k1, k2; intros Hk; first [reflexivity | discriminate Hk]. Qed.

(** C2.  Starting the ending enters the [ending] state on the first slide
    of a list chosen by the totals of the three suspects, the total of a
    suspect being the sum of the points the snapshots hold for that
    suspect, over all current snapshots.  The slide list is the
    three-slide failure branch (red crystal, dead king, the culprit
    walking free with the text of that culprit) if and only if none of
    the three sums reaches 12, and otherwise the four slides that end on
    the accusation slide; without snapshots it is the failure branch. *)
Theorem win_loss_gate (s : GameState) :
  let none_reached :=
    fold_right Z.add 0 (map points_queen (snapshots s)) < 12
    /\ fold_right Z.add 0 (map points_chef (snapshots s)) < 12
    /\ fold_right Z.add 0 (map points_goblin (snapshots s)) < 12 in
  let s' := _start_ending s in
  state s' = ending /\ ending_index s' = 0%nat /\ ending_phase s' = fade_in
  /\ (none_reached <-> ending_slides s' = failure_branch (culprit s))
  /\ (~ none_reached <-> ending_slides s' = success_branch)
  /\ (snapshots s = [] -> ending_slides s' = failure_branch (culprit s))
  /\ length (failure_branch (culprit s)) = 3%nat
  /\ (exists sl, last (failure_branch (culprit s)) = Some sl
                 /\ script sl = free_text (culprit s) /\ exit_prompt sl = true)
  /\ (forall k, free_text k = free_text (culprit s) -> k = culprit s)
  /\ (exists sl, last success_branch = Some sl /\ accept_123 sl = true).
Proof.
  intros none_reached s'. subst none_reached s'. destruct s.
  unfold _start_ending, EVIDENCE_POINTS_REQUIRED. fields.
  change (fold_right Z.add 0 (map points_queen snapshots0)) with (total_queen snapshots0).
  change (fold_right Z.add 0 (map points_chef snapshots0)) with (total_chef snapshots0).
  change (fold_right Z.add 0 (map points_goblin snapshots0)) with (total_goblin snapshots0).
  assert (Hdiff : success_branch <> failure_branch culprit0) by discriminate.
  assert (Hfail : [ slide_of "red_cryst.png" BAD_ENDING_RED_CRYSTAL;
                    slide_of "dead_king.png" BAD_ENDING_DEAD_KING;
                    mkSlide (killer_be culprit0) false false true
                      match culprit0 with
                      | Queen => BAD_ENDING_QUEEN_FREE
                      | Goblin => BAD_ENDING_GOBLIN_FREE
                      | Chef => BAD_ENDING_CHEF_FREE
                      end ] = failure_branch culprit0) by reflexivity.
  rewrite Hfail.
  change [ slide_of "green_cryst.png" WIN_PATH_G1_GREEN_CRYSTAL;
           mkSlide "the_options.png" true false false WIN_PATH_G2_OPTIONS;
           mkSlide "escort_in.png" true false false WIN_PATH_G3_ESCORT;
           mkSlide "the_culprits.png" true true false WIN_PATH_G4_CULPRITS ]
    with success_branch.
  assert (Hdec : total_queen snapshots0 < 12 /\ total_chef snapshots0 < 12
                 /\ total_goblin snapshots0 < 12
                 <-> (12 <=? total_queen snapshots0) || (12 <=? total_chef snapshots0)
                     || (12 <=? total_goblin snapshots0) = false).
  { rewrite !orb_false_iff, !Z.leb_gt. tauto. }
  split; [reflexivity|]. split; [reflexivity|]. split; [reflexivity|].
  split; [|split; [|split; [|split; [|split; [|split]]]]].
  - rewrite Hdec. destruct (_ || _); cbn [negb]; split; congruence.
  - rewrite Hdec. destruct (_ || _); cbn [negb]; split; congruence.
  - intros ->. reflexivity.
  - reflexivity.
  - eexists. split; [reflexivity|]. split; reflexivity.
  - intros k Hk. exact (free_text_inj _ _ Hk).
  - eexists. split; reflexivity.
Qed.

Lemma win_loss_gate_witness :
  (s0 ← @init all_assets Queen; @run_frames all_assets evidence_run s0) = Ok evidence_state
  /\ map points_queen (snapshots evidence_state) = [10; 10]
  /\ ending_slides (_start_ending evidence_state) = success_branch
  /\ snapshots timeout_state = []
  /\ ending_slides (_start_ending timeout_state) = failure_branch Chef.
Proof.
  split; [vm_compute; reflexivity|]. split; [vm_compute; reflexivity|].
  pose proof (win_loss_gate evidence_state) as Hwin.
  pose proof (win_loss_gate timeout_state) as Hloss. cbv zeta in Hwin, Hloss.
  destruct Hwin as (_ & _ & _ & _ & Hwin & _).
  destruct Hloss as (_ & _ & _ & _ & _ & Hloss & _).
  split.
  - apply Hwin. intros (Hq & _). vm_compute in Hq. discriminate Hq.
  - split; [vm_compute; reflexivity|].
    exact (Hloss ltac:(vm_compute; reflexivity)).
Defined.

(** ** The slide list along a run *)

(** Evaluates the comparisons of two constructors. *)
Ltac decide_tags :=
  repeat match goal with
  | |- context [bool_decide (?a = ?b)] =>
      is_constructor a; is_constructor b;
      let v := eval vm_compute in (bool_decide (a = b)) in
      change (bool_decide (a = b)) with v
  | H : context [bool_decide (?a = ?b)] |- _ =>
      is_constructor a; is_constructor b;
      let v := eval vm_compute in (bool_decide (a = b)) in
      change (bool_decide (a = b)) with v in H
  end.

(** Reads of a slide list at an index, the script texts left folded. *)
Ltac slides :=
  cbn [lookup list_lookup app failure_branch success_branch plea_branch good_ending
       false_judgement slide_of image accept_123 exit_prompt show_memories
       andb orb negb] in *.

(** The same, with the length of the list and its comparisons. *)
Ltac slides_len :=
  cbn [lookup list_lookup app failure_branch success_branch plea_branch good_ending
       false_judgement slide_of image accept_123 exit_prompt show_memories
       length Nat.ltb Nat.leb andb orb negb] in *.

Lemma start_ending_inv s : ending_inv (_start_ending s).
Proof.
  destruct s. unfold ending_inv, ending_shape, _start_ending, EVIDENCE_POINTS_REQUIRED.
  fields. decide_tags. destruct (_ || _); cbn [negb].
  - right; left. split; [reflexivity|]. split; [lia|discriminate].
  - left. by destruct culprit0.
Qed.

Lemma accused_correct (c : Z) (a k : Culprit) :
  accused c = Some a ->
  ((c =? 1) && bool_decide (k = Goblin)) || ((c =? 2) && bool_decide (k = Chef))
  || ((c =? 3) && bool_decide (k = Queen))
  = bool_decide (a = k).
Proof.
  unfold accused. intros Ha.
  destruct c as [|[[|[]|]|[]|]|]; simplify_eq; destruct k; reflexivity.
Qed.

(** Evaluates the comparisons of two literal strings. *)
Ltac eval_eqb :=
  repeat match goal with
  | |- context [String.eqb ?a ?b] =>
      let v := eval vm_compute in (String.eqb a b) in
      first [constr_eq v true | constr_eq v false];
      change (String.eqb a b) with v
  end.

Ltac shape_question Hph :=
  right; left; split; [reflexivity|]; split; [lia|];
  first [intros ?; discriminate | intros ?; lia | exact Hph | intros _; discriminate].
Ltac shape_plea Ha :=
  right; right; eexists; split; [exact Ha|]; left; split; [reflexivity|lia].
Ltac shape_outcome Ha :=
  right; right; eexists; split; [exact Ha|]; right; split; [reflexivity|lia].

Lemma update_ending_shape dt s :
  ending_shape s -> ending_shape (_update_ending dt s).
Proof.
  destruct s. unfold ending_shape. fields.
  intros [Hf | [(Hq & Hidx & Hph) | (a & Ha & [(Hp & Hidx) | (Ho & Hidx)])]];
    subst ending_slides0; unfold _update_ending; fields.
  - (* failure branch *)
    left. destruct ending_phase0; fields.
    + destruct (_ <=? _); reflexivity.
    + repeat case_match; reflexivity.
    + destruct (_ <=? _); fields; [|reflexivity].
      destruct ending_index0 as [|[|[|n]]]; slides_len; fields;
        repeat case_match; fields; try reflexivity.
      all: destruct culprit0; discriminate.
  - (* up to the accusation slide *)
    destruct ending_phase0; fields.
    + destruct (_ <=? _); fields; shape_question Hph.
    + repeat case_match; fields; shape_question Hph.
    + destruct (_ <=? _); fields; [|shape_question Hph].
      destruct ending_index0 as [|[|[|[|n]]]]; try lia; slides_len; eval_eqb; fields;
        slides_len; fields; try shape_question Hph.
      by destruct Hph.
  - (* the plea *)
    destruct ending_phase0; fields.
    + destruct (_ <=? _); fields; shape_plea Ha.
    + repeat case_match; fields; shape_plea Ha.
    + destruct (_ <=? _); fields; [|shape_plea Ha].
      destruct ending_index0 as [|[|[|[|[|[|[|n]]]]]]]; try lia; slides_len;
        [destruct a; eval_eqb; fields; slides_len; fields; shape_plea Ha
        |eval_eqb; fields; slides_len; fields; shape_plea Ha
        |].
      eval_eqb. unfold _ending_append_outcome. fields.
      rewrite (accused_correct _ _ culprit0 Ha).
      unfold outcome_branch.
      destruct a, culprit0; decide_tags; fields; slides_len; fields;
        (right; right; eexists; split; [exact Ha|]; right; split; [|lia]);
        decide_tags; reflexivity.
  - (* the outcome *)
    destruct ending_phase0; fields.
    + destruct (_ <=? _); fields; shape_outcome Ha.
    + repeat case_match; fields; shape_outcome Ha.
    + destruct (_ <=? _); fields; [|shape_outcome Ha].
      destruct ending_index0 as [|[|[|[|[|[|[|n]]]]]]]; try lia.
      unfold outcome_branch.
      destruct a, culprit0; decide_tags; slides_len;
        (destruct n as [|[|[|[|n]]]]; slides_len; eval_eqb; fields;
         slides_len; fields; repeat case_match; fields;
         try match goal with
             | Hnil : [] !! ?i = Some _ |- _ => by destruct i
             end;
         right; right; eexists; (split; [exact Ha|]); right; (split; [reflexivity|lia])).
Qed.

Ltac shape_any :=
  fields; slides;
  first
    [ left; reflexivity
    | right; left; split; [reflexivity|]; split; [lia|];
      first [assumption | intros ?; discriminate | intros ?; lia]
    | right; right; eexists; split; [first [eassumption | reflexivity]|];
      left; split; [reflexivity|lia]
    | right; right; eexists; split; [first [eassumption | reflexivity]|];
      right; split; [reflexivity|lia] ].

Lemma on_keydown_ending_shape key s s' r :
  ending_shape s -> on_keydown_ending key s = Ok (s', r) ->
  ending_shape s' /\ state s' = state s.
Proof.
  destruct s. unfold ending_shape. fields.
  intros [Hf | [(Hq & Hidx & Hph) | (a & Ha & [(Hp & Hidx) | (Ho & Hidx)])]];
    subst ending_slides0;
    unfold on_keydown_ending, at_exit_prompt, ending_choose, ending_next_slide,
      _ending_append_blood_and_continuation, blood_slide; fields.
  - destruct ending_index0 as [|[|[|n]]]; slides; fields; intros Hu;
      res_inv; simplify_eq; fields; repeat case_match; fields;
      try match goal with
          | Hnil : [] !! ?i = Some _ |- _ => by destruct i
          end;
      (split; [|reflexivity]); shape_any.
  - destruct ending_index0 as [|[|[|[|n]]]]; try lia; slides; fields; intros Hu.
    1-3: res_inv; simplify_eq; fields; repeat case_match; fields;
      (split; [|reflexivity]); shape_any.
    destruct key; cbn [mbind pyres_bind] in Hu; fields; simplify_eq;
      (split; [|reflexivity]); shape_any.
  - destruct ending_index0 as [|[|[|[|[|[|[|n]]]]]]]; try lia; slides; fields;
      intros Hu; destruct a; slides; res_inv; simplify_eq; fields;
      repeat case_match; fields; (split; [|reflexivity]); shape_any.
  - destruct ending_index0 as [|[|[|[|[|[|[|n]]]]]]]; try lia.
    unfold outcome_branch. intros Hu.
    destruct a, culprit0; decide_tags; slides;
      (destruct n as [|[|[|[|n]]]]; slides; fields; res_inv; simplify_eq;
       try match goal with
           | Hnil : [] !! ?i = Some _ |- _ => by destruct i
           end;
       fields; repeat case_match; fields; (split; [|reflexivity]); fields; slides;
       right; right; eexists; (split; [exact Ha|]); right; (split; [reflexivity|lia])).
Qed.

(** Closes an invariant goal outside the ending, or right after its start. *)
Ltac inv_finish :=
  subst; unfold ending_inv, ending_shape in *; fields; decide_tags;
  cbv beta iota in *;
  first
    [ assumption
    | match goal with Hc : ?x && false = true |- _ => by destruct x end
    | left; reflexivity
    | right; left; split; [reflexivity|]; split; [lia|discriminate] ].

(** As [res_inv], forgetting which branch of a test was taken. *)
Ltac res_cases :=
  repeat match goal with
  | H : Ok _ = Ok _ |- _ => injection H as H; try subst
  | H : Raise _ = Ok _ |- _ => discriminate H
  | H : (_ ≫= _) = Ok _ |- _ => apply bind_Ok in H as (? & ? & H)
  | H : (if ?b then _ else _) = Ok _ |- _ => destruct b
  | H : match ?x with _ => _ end = Ok _ |- _ => destruct x
  end.

Ltac inv_cases := fields; repeat case_match; simplify_eq; fields; inv_finish.

Section Invariant.
Context `{AssetProvider}.

Lemma on_click_ending_shape pos s :
  ending_shape s ->
  ending_shape (on_click_ending pos s).1 /\ state (on_click_ending pos s).1 = state s.
Proof.
  destruct s. unfold ending_shape, on_click_ending, _close_ending_memory_popup,
    _handle_ending_memory_click, _load_ending_popup_artifact. fields.
  intros Hshape. repeat case_match; fields; repeat case_match; fields; done.
Qed.

Lemma update_global_timer_inv dt s :
  state s <> ending -> ending_inv s -> ending_inv (_update_global_timer dt s).
Proof.
  destruct s. fields. intros Hs Hinv.
  unfold _update_global_timer, _start_ending, EVIDENCE_POINTS_REQUIRED.
  destruct state0; try done; inv_cases.
Qed.

Lemma update_inv dt s s' : ending_inv s -> update dt s = Ok s' -> ending_inv s'.
Proof.
  intros Hinv. unfold update.
  destruct (state s) eqn:Hs; intros Hu; simplify_eq.
  - destruct s. unfold _update_opening. fields. subst. inv_cases.
  - apply update_global_timer_inv; [congruence|done].
  - unfold _update_scene in Hu. res_inv; simplify_eq;
      (apply update_global_timer_inv; [congruence|done]).
  - apply update_global_timer_inv; [congruence|done].
  - destruct s. unfold _update_snapshot_effect. fields. subst. inv_cases.
  - unfold ending_inv in *. 
    assert (Hst : state (_update_ending dt s) = ending).
    { destruct s. unfold _update_ending, _ending_append_outcome. fields. subst.
      repeat case_match; fields; reflexivity. }
    rewrite Hst, Hs in *. rewrite bool_decide_eq_true_2 in * by done.
    by apply update_ending_shape.
Qed.

Lemma on_right_opening_inv s :
  state s <> ending -> ending_inv s -> ending_inv (on_right_opening s).
Proof.
  destruct s. fields. intros Hs Hinv. unfold on_right_opening.
  destruct state0; try done; inv_cases.
Qed.

Lemma take_snapshot_inv s s' :
  state s <> ending -> ending_inv s -> _take_snapshot s = Ok s' -> ending_inv s'.
Proof.
  destruct s. fields. intros Hs Hinv. unfold _take_snapshot. fields. intros Hu.
  res_cases; destruct state0; try done; inv_cases.
Qed.

Lemma handle_menu_click_inv pos s :
  state s <> ending -> ending_inv s -> ending_inv (_handle_menu_click pos s).
Proof.
  destruct s. fields. intros Hs Hinv.
  unfold _handle_menu_click, enter_scene, _start_ending, EVIDENCE_POINTS_REQUIRED.
  destruct state0; try done; inv_cases.
Qed.

Lemma handle_scene_click_inv hit s s' :
  state s <> ending -> ending_inv s -> _handle_scene_click hit s = Ok s' -> ending_inv s'.
Proof.
  destruct s. fields. intros Hs Hinv.
  unfold _handle_scene_click, _get_artifact_index_at_pos, _load_popup_artifact_image.
  fields. intros Hu.
  res_cases; destruct state0; try done; inv_cases.
Qed.

Lemma handle_artifact_popup_click_inv pos s s' :
  state s <> ending -> ending_inv s ->
  _handle_artifact_popup_click pos s = Ok s' -> ending_inv s'.
Proof.
  destruct s. fields. intros Hs Hinv.
  unfold _handle_artifact_popup_click, _close_artifact_popup, _take_snapshot_from_popup.
  fields. intros Hu.
  res_cases; destruct state0; try done; inv_cases.
Qed.

Lemma handle_event_inv ev s s' r :
  ending_inv s -> handle_event ev s = Ok (s', r) -> ending_inv s'.
Proof.
  intros Hinv. unfold handle_event, on_keydown.
  destruct (decide (state s = ending)) as [Hs|Hs].
  - (* in the ending only the ending handlers run *)
    unfold ending_inv in *. rewrite Hs in *.
    rewrite bool_decide_eq_true_2 in Hinv by done.
    decide_tags. cbv beta iota. intros Hu.
    assert (Hgoal : ending_shape s' /\ state s' = ending);
      [|destruct Hgoal as [? ->]; by rewrite bool_decide_eq_true_2].
    destruct ev as [|key|pos button hit|].
    + injection Hu as <- _. done.
    + destruct (bool_decide (key = K_ESCAPE)).
      * injection Hu as <- _. done.
      * cbn [andb] in Hu. apply on_keydown_ending_shape in Hu; [|done].
        destruct Hu as [? ->]. done.
    + destruct (button =? 1).
      * injection Hu as Hu.
        destruct (on_click_ending_shape pos s Hinv) as [Hsh Hst].
        rewrite Hu in Hsh, Hst. cbn [fst] in *. split; congruence.
      * injection Hu as <- _. done.
    + injection Hu as <- _. done.
  - rewrite (bool_decide_eq_false_2 (state s = ending)) by done. intros Hu.
    destruct ev as [|key|pos button hit|].
    + injection Hu as <- _. done.
    + destruct (bool_decide (key = K_ESCAPE)).
      * destruct s; fields; destruct state0; try done; injection Hu as <- _;
          inv_finish.
      * cbn [andb] in Hu. res_cases.
        -- by apply on_right_opening_inv.
        -- by eapply take_snapshot_inv.
        -- destruct s; fields; unfold _close_artifact_popup;
             destruct state0; try done; inv_cases.
        -- done.
    + destruct (button =? 1); [|by injection Hu as <- _].
      destruct (state s) eqn:Hst; res_cases; try done.
      * apply handle_menu_click_inv; [congruence|done].
      * eapply handle_scene_click_inv; [| |eassumption]; [congruence|done].
      * eapply handle_artifact_popup_click_inv; [| |eassumption]; [congruence|done].
    + injection Hu as <- _. done.
Qed.

Lemma handle_events_inv evs : forall s s' r,
  ending_inv s -> handle_events evs s = Ok (s', r) -> ending_inv s'.
Proof.
  induction evs as [|ev evs IH]; intros s s' r Hinv Hh; simpl in Hh.
  - by simplify_eq.
  - apply bind_Ok in Hh as ([s1 r1] & H1 & Hh).
    apply bind_Ok in Hh as ([s2 r2] & H2 & Hh). simplify_eq.
    eauto using handle_event_inv.
Qed.

Lemma frame_inv evs dt s s' r :
  ending_inv s -> frame evs dt s = Ok (s', r) -> ending_inv s'.
Proof.
  unfold frame. intros Hinv Hf.
  apply bind_Ok in Hf as ([s1 r1] & H1 & Hf).
  apply bind_Ok in Hf as (s2 & H2 & Hf). simplify_eq.
  eauto using handle_events_inv, update_inv.
Qed.

Lemma run_frames_inv ticks : forall s s',
  ending_inv s -> run_frames ticks s = Ok s' -> ending_inv s'.
Proof.
  induction ticks as [|[evs dt] ticks IH]; intros s s' Hinv Hr; simpl in Hr.
  - by simplify_eq.
  - destruct (frame evs dt s) as [[s1 r1]|] eqn:Hf; [|discriminate].
    apply frame_inv in Hf; [|done]. simpl in Hr. destruct r1.
    + eauto.
    + by simplify_eq.
Qed.

Lemma init_inv k s0 : init k = Ok s0 -> ending_inv s0.
Proof.
  unfold init. intros (scs & _ & Hi)%bind_Ok. by simplify_eq.
Qed.

(** C3.  When the fade-out of the [mage_cooking] slide completes, the
    slide list grows by exactly the four slides of the good ending (green
    crystal, dead king, rejoicing, coronation, the last one an exit slide)
    if the accused (1 = goblin, 2 = chef, 3 = queen) is the culprit, and by
    exactly the three slides of the false judgement (red crystal, dead
    king, and an exit slide with the text of the real culprit walking
    free) if not.  Along a run the slide list never holds more than that
    one continuation: it is always one of the shapes of [ending_shape]. *)
Theorem outcome_resolution (s : GameState) (dt : Z) (sl : Slide) :
  ending_phase s = fade_out ->
  ENDING_FADE_OUT <= ending_timer s + dt ->
  ending_slides s !! ending_index s = Some sl ->
  image sl = "mage_cooking.png" ->
  let s' := _update_ending dt s in
  (accused (ending_player_choice s) = Some (culprit s) ->
   ending_slides s' = (ending_slides s ++ good_ending)%list)
  /\ (accused (ending_player_choice s) <> Some (culprit s) ->
      ending_slides s' = (ending_slides s ++ false_judgement (culprit s))%list)
  /\ ending_index s' = S (ending_index s)
  /\ map image good_ending = ["green_cryst.png"; "dead_king.png"; "ge1.png"; "ge2.png"]
  /\ map exit_prompt good_ending = [false; false; false; true]
  /\ map image (false_judgement (culprit s))
     = ["red_cryst.png"; "dead_king.png"; killer_be (culprit s)]
  /\ map exit_prompt (false_judgement (culprit s)) = [false; false; true]
  /\ last (false_judgement (culprit s))
     = Some (mkSlide (killer_be (culprit s)) false false true (free_text_ii (culprit s)))
  /\ (forall k, free_text_ii k = free_text_ii (culprit s) -> k = culprit s)
  /\ (forall k ticks s0 s1,
        init k = Ok s0 -> run_frames ticks s0 = Ok s1 ->
        culprit s1 = k /\ ending_inv s1).
Proof.
  intros Hphase Htimer Hsl Himg s'. subst s'.
  assert (Hcorrect :
    ((ending_player_choice s =? 1) && bool_decide (culprit s = Goblin))
    || ((ending_player_choice s =? 2) && bool_decide (culprit s = Chef))
    || ((ending_player_choice s =? 3) && bool_decide (culprit s = Queen))
    = bool_decide (accused (ending_player_choice s) = Some (culprit s))).
  { unfold accused.
    destruct (ending_player_choice s) as [|[[|[]|]|[]|]|]; destruct (culprit s);
      reflexivity. }
  destruct s. fields. subst ending_phase0.
  unfold _update_ending, _ending_append_outcome. fields.
  apply Z.leb_le in Htimer. unfold ENDING_FADE_OUT in *. rewrite Htimer. fields.
  rewrite Hsl, Himg. eval_eqb. fields. rewrite Hcorrect.
  split; [|split; [|split]].
  - intros Ha. rewrite bool_decide_eq_true_2 by done. fields.
    repeat case_match; reflexivity.
  - intros Ha. rewrite bool_decide_eq_false_2 by done. fields.
    repeat case_match; fields; subst; reflexivity.
  - repeat case_match; reflexivity.
  - split; [reflexivity|]. split; [reflexivity|]. split; [reflexivity|].
    split; [reflexivity|]. split; [reflexivity|]. split.
    + intros k Hk. exact (free_text_ii_inj _ _ Hk).
    + intros k ticks s0 s1 Hi Hr. split.
      * apply run_frames_same in Hr as [_ Hc]. apply init_case in Hi as [_ Hk].
        congruence.
      * eapply run_frames_inv; [|exact Hr]. by eapply init_inv.
Qed.

End Invariant.

Lemma outcome_resolution_witness :
  ending_phase false_judgement_state = fade_out
  /\ ENDING_FADE_OUT <= ending_timer false_judgement_state + 900
  /\ culprit false_judgement_state = Goblin
  /\ accused (ending_player_choice false_judgement_state) = Some Chef
  /\ ending_slides (_update_ending 900 false_judgement_state)
     = (ending_slides false_judgement_state
        ++ false_judgement (culprit false_judgement_state))%list.
Proof.
  assert (Hphase : ending_phase false_judgement_state = fade_out)
    by (vm_compute; reflexivity).
  assert (Htimer : ENDING_FADE_OUT <= ending_timer false_judgement_state + 900)
    by (vm_compute; discriminate).
  assert (Hsl : ending_slides false_judgement_state
                !! ending_index false_judgement_state
                = Some (slide_of "mage_cooking.png" WIN_PATH_G7_HANDS_TO_MAGE))
    by (vm_compute; reflexivity).
  split; [exact Hphase|]. split; [exact Htimer|].
  split; [vm_compute; reflexivity|]. split; [vm_compute; reflexivity|].
  apply (proj1 (proj2 (@outcome_resolution all_assets false_judgement_state 900 _
                         Hphase Htimer Hsl eq_refl))).
  vm_compute; discriminate.
Defined.

(** ** Snapshot ledger *)

Section Ledger.
Context `{AssetProvider}.

Lemma x_btn_not_cryst pos :
  collidepoint cryst_btn pos = true -> collidepoint popup_x_btn pos = false.
Proof.
  unfold collidepoint, cryst_btn, popup_x_btn, popup_btn_y, popup_box, WIDTH,
    SCENE_HEIGHT. cbn [left top width height].
  intros Hc. apply andb_true_iff in Hc as [Hc _]. apply andb_true_iff in Hc as [_ Hc].
  apply Z.leb_le in Hc. apply andb_false_iff. right. apply Z.ltb_ge.
  change ((504 - 440) / 2) with 32 in *. lia.
Qed.

(** C6.  With three snapshots in the ledger a capture changes nothing:
    both capture functions return the state they were given, and so do
    the S key in a scene and a click on the crystallize button of the
    popup; no exception is raised, the snapshot list keeps its three
    entries and the state does not become [snapshot_effect]. *)
Theorem snapshot_cap_noop (s : GameState) :
  length (snapshots s) = 3%nat ->
  _take_snapshot s = Ok s
  /\ _take_snapshot_from_popup s = Ok s
  /\ (state s = scene -> handle_event (KEYDOWN K_s) s = Ok (s, true))
  /\ (state s = artifact_popup ->
      forall pos button hit,
        collidepoint cryst_btn pos = true ->
        popup_scene_index s < Z.of_nat (length (scenes s)) ->
        handle_event (MOUSEBUTTONDOWN pos button hit) s = Ok (s, true)).
Proof.
  intros Hcap.
  assert (Hts : _take_snapshot s = Ok s)
    by (unfold _take_snapshot, MAX_SNAPSHOTS; by rewrite Hcap).
  assert (Htp : _take_snapshot_from_popup s = Ok s)
    by (unfold _take_snapshot_from_popup, MAX_SNAPSHOTS; by rewrite Hcap).
  split; [exact Hts|]. split; [exact Htp|]. split.
  - intros Hst. unfold handle_event, on_keydown. rewrite Hst. decide_tags.
    cbn [andb]. by rewrite Hts.
  - intros Hst pos button hit Hpos Hidx. unfold handle_event. rewrite Hst.
    destruct (button =? 1); [|reflexivity].
    unfold _handle_artifact_popup_click.
    rewrite (x_btn_not_cryst _ Hpos), Hpos, Hcap. unfold MAX_SNAPSHOTS.
    cbn [Nat.ltb Nat.leb].
    destruct (0 <=? popup_scene_index s) eqn:Hnonneg; [|reflexivity].
    apply Z.leb_le in Hnonneg. unfold py_index.
    replace (popup_scene_index s <? 0) with false by (symmetry; apply Z.ltb_ge; lia).
    replace (0 <=? popup_scene_index s) with true by (symmetry; apply Z.leb_le; lia).
    replace (popup_scene_index s <? Z.of_nat (length (scenes s))) with true
      by (symmetry; apply Z.ltb_lt; lia).
    cbn [andb]. unfold list_get.
    destruct (scenes s !! Z.to_nat (popup_scene_index s)) eqn:Hsc; [reflexivity|].
    apply lookup_ge_None in Hsc. lia.
Qed.

End Ledger.

Lemma snapshot_cap_noop_witness :
  length (snapshots capped_popup_state) = 3%nat
  /\ state capped_popup_state = artifact_popup
  /\ state capped_scene_state = scene
  /\ @handle_event all_assets (KEYDOWN K_s) capped_scene_state
     = Ok (capped_scene_state, true)
  /\ @handle_event all_assets (MOUSEBUTTONDOWN (320, 420) 1 (-1)) capped_popup_state
     = Ok (capped_popup_state, true).
Proof.
  split; [reflexivity|]. split; [vm_compute; reflexivity|].
  split; [vm_compute; reflexivity|]. split.
  - apply (proj1 (proj2 (proj2 (@snapshot_cap_noop all_assets capped_scene_state
                                  eq_refl)))).
    vm_compute; reflexivity.
  - apply (proj2 (proj2 (proj2 (@snapshot_cap_noop all_assets capped_popup_state
                                  eq_refl)))).
    + vm_compute; reflexivity.
    + reflexivity.
    + vm_compute; reflexivity.
Defined.

Section Undo.
Context `{AssetProvider}.

(** What the uncrystallize button does when it is permitted: the most
    recent snapshot of the scene goes, whatever triggered it. *)
Lemma uncrystallize_removes_latest_of_scene (s : GameState) (pos : Z * Z) (sc : MemoryScene) :
  collidepoint popup_x_btn pos = false ->
  collidepoint cryst_btn pos = false ->
  collidepoint uncryst_btn pos = true ->
  0 <= popup_scene_index s ->
  py_index (scenes s) (popup_scene_index s) = Ok sc ->
  can_uncrystallize (label sc) (popup_artifact_filename s) (snapshots s) = true ->
  _handle_artifact_popup_click pos s
  = Ok (_close_artifact_popup
          (set_snapshots
             (default (snapshots s)
                (pop_last_match (fun sn => String.eqb (scene_label sn) (label sc))
                   (snapshots s)))
             s)).
Proof.
  intros Hx Hc Hu Hidx Hsc Hcan. unfold _handle_artifact_popup_click.
  rewrite Hx, Hc, Hu, Hsc. apply Z.leb_le in Hidx. rewrite Hidx.
  cbn [mbind pyres_bind]. rewrite Hcan. cbn [andb].
  by destruct (pop_last_match _ _).
Qed.

End Undo.

(** The ledger of the specification's example: the undo of artifact Y in
    scene 1 removes exactly B. *)
Example undo_example_of_the_spec :
  let A := mkSnapshot [] "scene1" 0 0 0 (Some "artifactX") in
  let B := mkSnapshot [] "scene1" 0 0 0 (Some "artifactY") in
  let C := mkSnapshot [] "scene2" 0 0 0 None in
  pop_last_match (fun sn => String.eqb (scene_label sn) "scene1") [A; B; C] = Some [A; C]
  /\ undo_as_claimed "scene1" "artifactY" [A; B; C] = [A; C].
Proof. split; reflexivity. Qed.

(** C5 fails on the code.  In the first scene [q1-1.png] is crystallized,
    then [c1-1.png]; the popup of [q1-1.png] is opened again and the
    uncrystallize button is pressed.  The button is permitted because of
    the snapshot of [q1-1.png], and the claim has that snapshot removed;
    the loop of the handler tests the scene label alone and removes the
    snapshot of [c1-1.png]. *)
Theorem undo_removes_other_artifact :
  (s0 ← @init all_assets Chef; @run_frames all_assets undo_run s0) = Ok undo_state
  /\ state undo_state = artifact_popup
  /\ popup_artifact_filename undo_state = "q1-1.png"
  /\ map (fun sn => (scene_label sn, trigger_artifact_filename sn)) (snapshots undo_state)
     = [("09:12", Some "q1-1.png"); ("09:12", Some "c1-1.png")]
  /\ collidepoint uncryst_btn (480, 420) = true
  /\ (exists s',
        @handle_event all_assets (MOUSEBUTTONDOWN (480, 420) 1 (-1)) undo_state
        = Ok (s', true)
        /\ map trigger_artifact_filename (snapshots s') = [Some "q1-1.png"])
  /\ map trigger_artifact_filename
       (undo_as_claimed "09:12" "q1-1.png" (snapshots undo_state))
     = [Some "c1-1.png"].
Proof.
  split; [vm_compute; reflexivity|]. split; [vm_compute; reflexivity|].
  split; [vm_compute; reflexivity|]. split; [vm_compute; reflexivity|].
  split; [vm_compute; reflexivity|]. split; [|vm_compute; reflexivity].
  eexists. split; vm_compute; reflexivity.
Qed.

(** ** Escape and the countdown *)

Section Dispatch.
Context `{AssetProvider}.

(** The other ways out of the popup do close it. *)
Lemma popup_x_button_closes (s : GameState) (pos : Z * Z) (hit : Z) :
  state s = artifact_popup -> collidepoint popup_x_btn pos = true ->
  handle_event (MOUSEBUTTONDOWN pos 1 hit) s = Ok (_close_artifact_popup s, true).
Proof.
  intros Hst Hx. unfold handle_event. rewrite Hst. cbn [Z.eqb Pos.eqb].
  unfold _handle_artifact_popup_click. by rewrite Hx.
Qed.

Lemma close_artifact_popup_clears (s : GameState) :
  let s' := _close_artifact_popup s in
  state s' = scene /\ popup_artifact_filename s' = EmptyString
  /\ popup_scene_index s' = -1 /\ popup_artifact_surface s' = None.
Proof. destruct s. repeat split. Qed.

(** C8 fails on the code.  The Escape key is dispatched on the state
    inside the first branch of the key handler, which has no case for
    [artifact_popup]; the branch written for it further down is never
    reached.  Escape in the popup leaves the whole state as it is. *)
Theorem escape_in_popup_does_nothing (s : GameState) :
  state s = artifact_popup ->
  handle_event (KEYDOWN K_ESCAPE) s = Ok (s, true).
Proof.
  intros Hst. unfold handle_event, on_keydown. decide_tags. by rewrite Hst.
Qed.

(** The countdown of the states that call [_update_global_timer]. *)
Lemma countdown_runs (s : GameState) (dt : Z) :
  state s = menu \/ state s = artifact_popup
  \/ (state s = scene /\ -1 <= current_scene_index s < Z.of_nat (length (scenes s))) ->
  0 < global_time s ->
  exists s',
    update dt s = Ok s'
    /\ global_time s' = Z.max 0 (global_time s - dt)
    /\ (global_time s - dt <= 0 -> state s' = ending)
    /\ (state s = menu -> (3 <= length (snapshots s))%nat -> state s' = ending).
Proof.
  intros Hst Htime. apply Z.ltb_lt in Htime.
  assert (Htimer : let s1 := _update_global_timer dt s in
            global_time s1 = Z.max 0 (global_time s - dt)
            /\ (global_time s - dt <= 0 -> state s1 = ending)
            /\ (state s = menu -> (3 <= length (snapshots s))%nat -> state s1 = ending)
            /\ (current_scene_index s1 = current_scene_index s
                \/ current_scene_index s1 = -1)
            /\ scenes s1 = scenes s).
  { destruct s. fields. unfold _update_global_timer, _start_ending, MAX_SNAPSHOTS.
    fields. rewrite Htime. fields.
    destruct (Z.max 0 (global_time0 - dt) =? 0) eqn:Hzero; fields; decide_tags.
    - rewrite andb_false_r. fields. repeat split; auto.
    - apply Z.eqb_neq in Hzero.
      destruct ((3 <=? length snapshots0)%nat && bool_decide (state0 = menu)) eqn:Hcap;
        fields; (split; [reflexivity|]); (split; [lia|]); (split; [|auto]).
      + done.
      + intros -> Hlen%Nat.leb_le. rewrite Hlen in Hcap. by decide_tags. }
  destruct Htimer as (Ht & Hz & Hc & Hidx & Hscs).
  exists (_update_global_timer dt s). split; [|by repeat split].
  unfold update.
  destruct Hst as [Hst | [Hst | [Hst Hrange]]]; rewrite Hst; try reflexivity.
  unfold _update_scene, py_index.
  destruct (current_scene_index (_update_global_timer dt s) <? 0) eqn:Hneg;
    [reflexivity|].
  apply Z.ltb_ge in Hneg. rewrite Hscs.
  replace (0 <=? current_scene_index (_update_global_timer dt s)) with true
    by (symmetry; apply Z.leb_le; lia).
  replace (current_scene_index (_update_global_timer dt s)
           <? Z.of_nat (length (scenes s))) with true
    by (symmetry; apply Z.ltb_lt; lia).
  cbn [andb]. unfold list_get.
  destruct (scenes s !! Z.to_nat (current_scene_index (_update_global_timer dt s)))
    eqn:Hsc; [reflexivity|].
  apply lookup_ge_None in Hsc. lia.
Qed.

(** C9 fails on the code.  The update dispatch calls
    [_update_global_timer] for [menu], [scene] and [artifact_popup] but not
    for [snapshot_effect]: while the freeze effect lasts the countdown
    stands still, whatever time the tick took. *)
Theorem countdown_pauses_in_snapshot_effect (s : GameState) (dt : Z) :
  state s = snapshot_effect ->
  exists s', update dt s = Ok s' /\ global_time s' = global_time s.
Proof.
  intros Hst. unfold update. rewrite Hst. eexists. split; [reflexivity|].
  destruct s. unfold _update_snapshot_effect. fields. by destruct (_ <? _).
Qed.

End Dispatch.

Lemma escape_in_popup_does_nothing_witness :
  (s0 ← @init all_assets Chef; @run_frames all_assets popup_run s0) = Ok popup_state
  /\ state popup_state = artifact_popup
  /\ popup_artifact_filename popup_state = "q1-1.png"
  /\ @handle_event all_assets (KEYDOWN K_ESCAPE) popup_state = Ok (popup_state, true).
Proof.
  split; [vm_compute; reflexivity|].
  assert (Hst : state popup_state = artifact_popup) by (vm_compute; reflexivity).
  split; [exact Hst|]. split; [vm_compute; reflexivity|].
  exact (@escape_in_popup_does_nothing all_assets popup_state Hst).
Defined.

Lemma countdown_pauses_in_snapshot_effect_witness :
  (s0 ← @init all_assets Chef; @run_frames all_assets effect_run s0) = Ok effect_state
  /\ state effect_state = snapshot_effect
  /\ global_time effect_state = 119952
  /\ exists s', update 16 effect_state = Ok s' /\ global_time s' = 119952.
Proof.
  split; [vm_compute; reflexivity|].
  assert (Hst : state effect_state = snapshot_effect) by (vm_compute; reflexivity).
  assert (Ht : global_time effect_state = 119952) by (vm_compute; reflexivity).
  split; [exact Hst|]. split; [exact Ht|].
  destruct (countdown_pauses_in_snapshot_effect effect_state 16 Hst)
    as (s' & Hu & Hg).
  exists s'. split; [exact Hu|]. by rewrite Hg.
Defined.

(** ** Continue press *)

Section Continue.
Context `{AssetProvider}.

(** C7, as amended.  In the holding phase a continue press on the current
    text box always advances, whether the box is fully revealed or not:
    with more boxes in the slide it moves to the next box with reveal and
    accumulator reset, on the last box it starts the fade-out (in the
    ending, on an exit slide, it shows the exit prompt instead).  A box
    not yet fully revealed is forced to full reveal and left on the same
    press, so the press has the effect it has on the fully revealed box.
    On the slide of the ending that asks for the culprit the press is
    ignored, in every phase and whatever is revealed. *)
Theorem continue_press_advances (s : GameState) :
  (forall scr full_text,
      state s = opening -> opening_phase s = holding ->
      OPENING_SCRIPT !! opening_slide_index s = Some scr ->
      scr !! opening_text_index s = Some full_text ->
      exists s',
        handle_event (KEYDOWN K_RIGHT) s = Ok (s', true)
        /\ ((opening_char_index s < text_len full_text)%nat ->
            handle_event (KEYDOWN K_RIGHT)
              (set_opening_char_index (text_len full_text) s) = Ok (s', true))
        /\ (if (opening_text_index s + 1 <? length scr)%nat
            then opening_text_index s' = (opening_text_index s + 1)%nat
                 /\ opening_char_index s' = 0%nat
                 /\ opening_typing_accumulator s' = 0
                 /\ opening_phase s' = holding
            else opening_text_index s' = opening_text_index s
                 /\ opening_phase s' = fade_out /\ opening_timer s' = 0))
  /\ (forall sl full_text,
        state s = ending -> ending_phase s = holding ->
        ending_slides s !! ending_index s = Some sl ->
        accept_123 sl = false ->
        script sl !! ending_text_index s = Some full_text ->
        exists s',
          handle_event (KEYDOWN K_RIGHT) s = Ok (s', true)
          /\ ((ending_char_index s < text_len full_text)%nat ->
              handle_event (KEYDOWN K_RIGHT)
                (set_ending_char_index (text_len full_text) s) = Ok (s', true))
          /\ (if (ending_text_index s + 1 <? length (script sl))%nat
              then ending_text_index s' = (ending_text_index s + 1)%nat
                   /\ ending_char_index s' = 0%nat
                   /\ ending_typing_accumulator s' = 0
                   /\ ending_phase s' = holding
              else if exit_prompt sl
              then ending_text_index s' = length (script sl)
                   /\ ending_phase s' = holding
              else ending_text_index s' = ending_text_index s
                   /\ ending_phase s' = fade_out /\ ending_timer s' = 0))
  /\ (forall sl,
        state s = ending ->
        ending_slides s !! ending_index s = Some sl ->
        accept_123 sl = true -> at_exit_prompt sl s = false ->
        handle_event (KEYDOWN K_RIGHT) s = Ok (s, true)).
Proof.
  split; [|split].
  - intros scr full_text Hst Hph Hscr Hbox. destruct s. fields. subst.
    unfold handle_event, on_keydown, on_right_opening. fields. decide_tags.
    cbn [andb]. cbv beta iota. rewrite Hscr. cbn [default from_option id].
    rewrite Hbox. fields. rewrite Nat.ltb_irrefl, Nat.leb_refl.
    destruct (opening_char_index0 <? text_len full_text)%nat eqn:Hchar; fields.
    + rewrite Nat.leb_refl.
      destruct (opening_text_index0 + 1 <? length scr)%nat; fields;
        eexists; (split; [reflexivity|]); (split; [reflexivity|]); repeat split.
    + apply Nat.ltb_ge in Hchar. pose proof Hchar as Hle. apply Nat.leb_le in Hle.
      rewrite Hle.
      destruct (opening_text_index0 + 1 <? length scr)%nat; fields;
        eexists; (split; [reflexivity|]); (split; [intros; lia|repeat split]).
  - intros sl full_text Hst Hph Hsl Hacc Hbox. destruct s. fields. subst.
    assert (Hexit : at_exit_prompt sl
                      (mkGame culprit0 scenes0 ending global_time0 current_scene_index0
                         snapshots0 opening_slide_index0 opening_timer0 opening_phase0
                         opening_text_index0 opening_char_index0
                         opening_typing_accumulator0 snapshot_effect_time0
                         popup_artifact_filename0 popup_scene_index0
                         popup_artifact_surface0 ending_slides0 ending_index0 holding
                         ending_timer0 ending_player_choice0 ending_show_memories0
                         ending_memory_popup_index0 ending_text_index0
                         ending_char_index0 ending_typing_accumulator0) = false).
    { unfold at_exit_prompt. fields. apply lookup_lt_Some in Hbox as Hlt.
      destruct (script sl) eqn:Escr; [simpl in Hlt; lia|].
      rewrite bool_decide_eq_false_2 by done. cbn [orb].
      replace (length (s :: l) <=? ending_text_index0)%nat with false
        by (symmetry; apply Nat.leb_gt; lia).
      apply andb_false_r. }
    unfold handle_event, on_keydown, on_keydown_ending. fields. decide_tags.
    cbn [andb]. cbv beta iota. rewrite Hsl.
    unfold at_exit_prompt in *. fields. rewrite Hexit, Hacc, Hbox. fields.
    rewrite Nat.ltb_irrefl, Nat.leb_refl.
    destruct (ending_char_index0 <? text_len full_text)%nat eqn:Hchar; fields.
    + rewrite Nat.leb_refl.
      destruct (ending_text_index0 + 1 <? length (script sl))%nat; fields;
        [|destruct (exit_prompt sl)];
        eexists; (split; [reflexivity|]); (split; [reflexivity|]); repeat split.
    + apply Nat.ltb_ge in Hchar. pose proof Hchar as Hle. apply Nat.leb_le in Hle.
      rewrite Hle.
      destruct (ending_text_index0 + 1 <? length (script sl))%nat; fields;
        [|destruct (exit_prompt sl)];
        eexists; (split; [reflexivity|]); (split; [intros; lia|repeat split]).
  - intros sl Hst Hsl Hacc Hexit. unfold handle_event, on_keydown.
    rewrite Hst. decide_tags. cbv beta iota.
    unfold on_keydown_ending. rewrite Hsl, Hexit, Hacc. reflexivity.
Qed.

End Continue.

Lemma continue_press_advances_witness :
  (s0 ← @init all_assets Chef; @run_frames all_assets [wait 1200] s0) = Ok typing_state
  /\ state typing_state = opening /\ opening_phase typing_state = holding
  /\ opening_text_index typing_state = 0%nat
  /\ opening_char_index typing_state = 0%nat
  /\ exists s',
       @handle_event all_assets (KEYDOWN K_RIGHT) typing_state = Ok (s', true)
       /\ opening_text_index s' = 1%nat /\ opening_char_index s' = 0%nat
       /\ opening_phase s' = holding
       /\ (s0 ← @init all_assets Goblin;
           @run_frames all_assets (accusation_run ++ [wait 1200])%list s0)
          = Ok accusation_holding_state
       /\ ending_phase accusation_holding_state = holding
       /\ @handle_event all_assets (KEYDOWN K_RIGHT) accusation_holding_state
          = Ok (accusation_holding_state, true).
Proof.
  split; [vm_compute; reflexivity|].
  assert (Hst : state typing_state = opening) by (vm_compute; reflexivity).
  assert (Hph : opening_phase typing_state = holding) by (vm_compute; reflexivity).
  split; [exact Hst|]. split; [exact Hph|].
  split; [vm_compute; reflexivity|]. split; [vm_compute; reflexivity|].
  assert (Hscr : OPENING_SCRIPT !! opening_slide_index typing_state
                 = Some (hd [] OPENING_SCRIPT)) by (vm_compute; reflexivity).
  assert (Hbox : hd [] OPENING_SCRIPT !! opening_text_index typing_state
                 = Some (hd EmptyString (hd [] OPENING_SCRIPT)))
    by (vm_compute; reflexivity).
  destruct (proj1 (@continue_press_advances all_assets typing_state) _ _
              Hst Hph Hscr Hbox)
    as (s' & Hev & _ & Hnext).
  exists s'. split; [exact Hev|].
  assert (Hmore : (opening_text_index typing_state + 1
                   <? length (hd [] OPENING_SCRIPT))%nat = true)
    by (vm_compute; reflexivity).
  rewrite Hmore in Hnext. destruct Hnext as (Ht & Hc & _ & Hp).
  assert (Hzero : opening_text_index typing_state = 0%nat) by (vm_compute; reflexivity).
  rewrite Hzero in Ht. split; [exact Ht|]. split; [exact Hc|]. split; [exact Hp|].
  split; [vm_compute; reflexivity|]. split; [vm_compute; reflexivity|].
  exact (proj2 (proj2 (@continue_press_advances all_assets accusation_holding_state))
           (mkSlide "the_culprits.png" true true false WIN_PATH_G4_CULPRITS)
           ltac:(vm_compute; reflexivity) ltac:(vm_compute; reflexivity)
           ltac:(reflexivity) ltac:(vm_compute; reflexivity)).
Defined.

(** C7 as stated fails.  The opening has just started to type its first
    box (no character shown yet); one press of the right arrow leaves the
    player on the second box with nothing revealed, instead of on the
    first box fully revealed. *)
Lemma continue_press_skips_on_the_same_press :
  state typing_state = opening /\ opening_phase typing_state = holding
  /\ opening_text_index typing_state = 0%nat
  /\ opening_char_index typing_state = 0%nat
  /\ (OPENING_SCRIPT !! 0%nat ≫= (fun scr => text_len <$> scr !! 0%nat)) = Some 78%nat
  /\ exists s',
       @handle_event all_assets (KEYDOWN K_RIGHT) typing_state = Ok (s', true)
       /\ opening_text_index s' = 1%nat /\ opening_char_index s' = 0%nat.
Proof.
  split; [vm_compute; reflexivity|]. split; [vm_compute; reflexivity|].
  split; [vm_compute; reflexivity|]. split; [vm_compute; reflexivity|].
  split; [vm_compute; reflexivity|].
  eexists. split; [vm_compute; reflexivity|]. split; vm_compute; reflexivity.
Qed.

(** ** Whole runs *)

(** No snapshot and the timer at zero: the failure branch, ending on the
    text of the chef walking free. *)
Example run_out_of_time :
  (s0 ← @init all_assets Chef; @run_frames all_assets timeout_run s0) = Ok timeout_state
  /\ state timeout_state = ending
  /\ snapshots timeout_state = []
  /\ ending_slides timeout_state = failure_branch Chef
  /\ script <$> last (ending_slides timeout_state) = Some BAD_ENDING_CHEF_FREE.
Proof. repeat split; vm_compute; reflexivity. Qed.

(** Twenty points for the guilty queen and the queen named: the good
    ending is appended and its first slide is reached. *)
Example run_to_good_ending :
  (s0 ← @init all_assets Queen; @run_frames all_assets good_ending_run s0)
  = Ok good_ending_state
  /\ total_queen (snapshots good_ending_state) = 20
  /\ ending_player_choice good_ending_state = 3
  /\ ending_slides good_ending_state
     = (success_branch ++ plea_branch Queen ++ good_ending)%list
  /\ ending_index good_ending_state = 7%nat.
Proof. repeat split; vm_compute; reflexivity. Qed.

(** * Properties of whole runs *)

(** ** Induction over the frames of a run *)

Section RunInduction.
Context `{AssetProvider}.
Variable P : GameState -> Prop.
Variable Pev : Event -> Prop.
Variable Pdt : Z -> Prop.
Hypothesis Hev : forall ev s s' r,
  Pev ev -> P s -> handle_event ev s = Ok (s', r) -> P s'.
Hypothesis Hup : forall dt s s', Pdt dt -> P s -> update dt s = Ok s' -> P s'.

Lemma handle_events_preserves evs : forall s s' r,
  Forall Pev evs -> P s -> handle_events evs s = Ok (s', r) -> P s'.
Proof.
  induction evs as [|ev evs IH]; intros s s' r Hevs Hs Hh; simpl in Hh.
  - by simplify_eq.
  - apply Forall_cons in Hevs as [Hev1 Hevs].
    apply bind_Ok in Hh as ([s1 r1] & H1 & Hh).
    apply bind_Ok in Hh as ([s2 r2] & H2 & Hh). simplify_eq.
    eauto.
Qed.

Lemma frame_preserves evs dt s s' r :
  Forall Pev evs -> Pdt dt -> P s -> frame evs dt s = Ok (s', r) -> P s'.
Proof.
  unfold frame. intros Hevs Hdt Hs Hf.
  apply bind_Ok in Hf as ([s1 r1] & H1 & Hf).
  apply bind_Ok in Hf as (s2 & H2 & Hf). simplify_eq.
  eauto using handle_events_preserves.
Qed.

Lemma run_frames_preserves ticks : forall s s',
  ticks_ok Pev Pdt ticks -> P s -> run_frames ticks s = Ok s' -> P s'.
Proof.
  induction ticks as [|[evs dt] ticks IH]; intros s s' Hticks Hs Hr; simpl in Hr.
  - by simplify_eq.
  - apply Forall_cons in Hticks as [[Hevs Hdt] Hticks]. simpl in Hevs, Hdt.
    destruct (frame evs dt s) as [[s1 r1]|] eqn:Hf; [|discriminate].
    apply frame_preserves in Hf; [|done..]. simpl in Hr. destruct r1.
    + eauto.
    + by simplify_eq.
Qed.

Hypothesis Hev_ok : forall ev s, Pev ev -> P s -> is_Ok (handle_event ev s) = true.
Hypothesis Hup_ok : forall dt s, Pdt dt -> P s -> is_Ok (update dt s) = true.

Lemma handle_events_total evs : forall s,
  Forall Pev evs -> P s -> is_Ok (handle_events evs s) = true.
Proof.
  induction evs as [|ev evs IH]; intros s Hevs Hs; simpl; [done|].
  apply Forall_cons in Hevs as [Hev1 Hevs].
  destruct (is_Ok_true _ (Hev_ok ev s Hev1 Hs)) as ([s1 r1] & H1).
  rewrite H1. simpl.
  assert (Hs1 : P s1) by eauto.
  destruct (is_Ok_true _ (IH s1 Hevs Hs1)) as ([s2 r2] & H2).
  by rewrite H2.
Qed.

Lemma run_frames_total ticks : forall s,
  ticks_ok Pev Pdt ticks -> P s -> is_Ok (run_frames ticks s) = true.
Proof.
  induction ticks as [|[evs dt] ticks IH]; intros s Hticks Hs; simpl; [done|].
  apply Forall_cons in Hticks as [[Hevs Hdt] Hticks]. simpl in Hevs, Hdt.
  destruct (is_Ok_true _ (handle_events_total evs s Hevs Hs)) as ([s1 r1] & H1).
  assert (Hs1 : P s1) by eauto using handle_events_preserves.
  destruct (is_Ok_true _ (Hup_ok dt s1 Hdt Hs1)) as (s2 & H2).
  unfold frame. rewrite H1. simpl. rewrite H2. simpl.
  destruct r1; [|done]. eauto.
Qed.

End RunInduction.

(** ** The ending leaves the investigation alone *)

Section Frozen.
Context `{AssetProvider}.

Lemma update_ending_frozen dt s : same_play s (_update_ending dt s).
Proof.
  destruct s. unfold _update_ending, _ending_append_outcome, same_play. fields.
  repeat case_match; fields; repeat split; reflexivity.
Qed.

Lemma on_keydown_ending_frozen key s s' r :
  on_keydown_ending key s = Ok (s', r) -> same_play s s'.
Proof.
  destruct s. unfold on_keydown_ending, ending_choose, ending_next_slide,
    _ending_append_blood_and_continuation, same_play. fields.
  intros Hu. res_inv; simplify_eq; fields; repeat case_match; fields;
    repeat split; reflexivity.
Qed.

Lemma on_click_ending_frozen pos s : same_play s (on_click_ending pos s).1.
Proof.
  destruct s. unfold on_click_ending, _close_ending_memory_popup,
    _handle_ending_memory_click, _load_ending_popup_artifact, same_play. fields.
  repeat case_match; fields; repeat case_match; fields; repeat split; reflexivity.
Qed.

Lemma handle_event_frozen ev s s' r :
  state s = ending -> handle_event ev s = Ok (s', r) -> same_play s s'.
Proof.
  intros Hst. unfold handle_event, on_keydown. rewrite Hst. decide_tags.
  cbv beta iota. intros Hu.
  destruct ev as [|key|pos button hit|].
  - injection Hu as <- _. by repeat split.
  - destruct (bool_decide (key = K_ESCAPE)).
    + injection Hu as <- _. by repeat split.
    + by apply on_keydown_ending_frozen in Hu.
  - destruct (button =? 1).
    + injection Hu as Hu. pose proof (on_click_ending_frozen pos s) as Hf.
      by rewrite Hu in Hf.
    + injection Hu as <- _. by repeat split.
  - injection Hu as <- _. by repeat split.
Qed.

Lemma update_frozen dt s s' :
  state s = ending -> update dt s = Ok s' -> same_play s s'.
Proof.
  intros Hst. unfold update. rewrite Hst. intros Hu. injection Hu as <-.
  apply update_ending_frozen.
Qed.

End Frozen.

(** ** Lists as the handlers use them *)

Lemma py_index_lookup {A} (l : list A) (i : Z) (x : A) :
  0 <= i -> py_index l i = Ok x -> l !! Z.to_nat i = Some x.
Proof.
  unfold py_index, list_get. intros Hi.
  replace (i <? 0) with false by (symmetry; apply Z.ltb_ge; lia).
  destruct (_ && _); [|discriminate].
  destruct (l !! Z.to_nat i); [congruence|discriminate].
Qed.

Lemma py_index_in_range {A} (l : list A) (i : Z) :
  0 <= i < Z.of_nat (length l) -> exists x, py_index l i = Ok x /\ l !! Z.to_nat i = Some x.
Proof.
  unfold py_index, list_get. intros Hi.
  replace (i <? 0) with false by (symmetry; apply Z.ltb_ge; lia).
  replace (0 <=? i) with true by (symmetry; apply Z.leb_le; lia).
  replace (i <? Z.of_nat (length l)) with true by (symmetry; apply Z.ltb_lt; lia).
  cbn [andb].
  destruct (l !! Z.to_nat i) as [x|] eqn:Hx; [eauto|].
  apply lookup_ge_None in Hx. lia.
Qed.

Lemma py_index_bound {A} (l : list A) (i : Z) (x : A) :
  0 <= i -> py_index l i = Ok x -> i < Z.of_nat (length l).
Proof.
  intros Hi Hx. apply py_index_lookup in Hx; [|done].
  apply lookup_lt_Some in Hx. lia.
Qed.

Lemma pop_last_match_sublist {A} (p : A -> bool) (l l' : list A) :
  pop_last_match p l = Some l' -> l' `sublist_of` l /\ length l = S (length l').
Proof.
  revert l'. induction l as [|x r IH]; intros l' Hl; simpl in Hl; [done|].
  destruct (pop_last_match p r) as [r'|].
  - injection Hl as <-. destruct (IH _ eq_refl) as [Hs Hn].
    split; [by apply sublist_skip|simpl; lia].
  - destruct (p x); [|done]. injection Hl as <-.
    split; [by apply sublist_cons|done].
Qed.

Lemma find_index_from_bound {A} (p : nat -> A -> bool) (l : list A) :
  forall i j, find_index_from p i l = Some j -> (i <= j < i + length l)%nat.
Proof.
  induction l as [|x r IH]; intros i j Hj; simpl in Hj; [done|].
  destruct (p i x).
  - injection Hj as <-. simpl. lia.
  - apply IH in Hj. simpl. lia.
Qed.

Lemma Forall_sublist_of {A} (P : A -> Prop) (l1 l2 : list A) :
  l1 `sublist_of` l2 -> Forall P l2 -> Forall P l1.
Proof.
  induction 1 as [|x l1 l2 _ IH|x l1 l2 _ IH]; intros Hl; [done| |].
  - apply Forall_cons in Hl as [? ?]. constructor; auto.
  - apply Forall_cons in Hl as [? ?]. auto.
Qed.

(** What [_get_artifact_index_at_pos] returns when it returns. *)
Lemma get_artifact_index_at_pos_Ok (hit idx : Z) (s : GameState) :
  _get_artifact_index_at_pos hit s = Ok idx ->
  (current_scene_index s < 0 /\ idx = -1)
  \/ (0 <= current_scene_index s /\ idx = hit
      /\ exists sc, py_index (scenes s) (current_scene_index s) = Ok sc).
Proof.
  unfold _get_artifact_index_at_pos.
  destruct (current_scene_index s <? 0) eqn:Hneg.
  - intros [= <-]. left. apply Z.ltb_lt in Hneg. done.
  - intros (sc & Hsc & [= <-])%bind_Ok. right. apply Z.ltb_ge in Hneg. eauto.
Qed.

(** ** The invariant of a run *)

(** Splits an invariant goal and closes the arithmetic and the parts that
    did not change. *)
Ltac play_finish :=
  unfold scene_index_ok, GLOBAL_TIME_LIMIT, MAX_SNAPSHOTS in *;
  repeat match goal with
  | H : _ /\ _ |- _ => destruct H
  | |- _ /\ _ => split
  end;
  first [assumption | reflexivity | lia | discriminate | constructor | eauto 6].

(** Opens a state into its attributes. *)
Ltac open_state s :=
  destruct s as [k0 scs0 st0 time0 csi0 snaps0 osi0 otimer0 oph0 oti0 oci0 oacc0
                 fx0 pfn0 psi0 psurf0 esl0 eidx0 eph0 etimer0 echoice0 eshow0
                 empi0 eti0 eci0 eacc0].

(** Turns the boolean tests on integers in the context into facts. *)
Ltac tests :=
  repeat match goal with
  | H : (_ <? _) = true |- _ => apply Z.ltb_lt in H
  | H : (_ <? _) = false |- _ => apply Z.ltb_ge in H
  | H : (_ <=? _) = true |- _ => apply Z.leb_le in H
  | H : (_ <=? _) = false |- _ => apply Z.leb_gt in H
  | H : (_ =? _) = true |- _ => apply Z.eqb_eq in H
  | H : (_ =? _) = false |- _ => apply Z.eqb_neq in H
  | H : (_ <=? _)%nat = true |- _ => apply Nat.leb_le in H
  | H : (_ <=? _)%nat = false |- _ => apply Nat.leb_gt in H
  | H : (_ <? _)%nat = true |- _ => apply Nat.ltb_lt in H
  | H : (_ <? _)%nat = false |- _ => apply Nat.ltb_ge in H
  | H : _ && _ = true |- _ => apply andb_true_iff in H as [? ?]
  | H : bool_decide _ = true |- _ => apply bool_decide_eq_true in H
  | H : bool_decide _ = false |- _ => apply bool_decide_eq_false in H
  end.

Section PlayInvariant.
Context `{AssetProvider}.
Variable scs : list MemoryScene.

Lemma play_inv_ending s s' :
  state s = ending -> same_play s s' -> scenes s' = scenes s ->
  play_inv scs s -> play_inv scs s'.
Proof.
  unfold play_inv. intros Hst (Hs & Ht & Hsn & _) Hsc Hinv.
  destruct Hinv as (? & ? & ? & ? & _). rewrite Hs, Ht, Hsn, Hsc, Hst. done.
Qed.

Lemma start_ending_play s : play_inv scs s -> play_inv scs (_start_ending s).
Proof.
  open_state s. unfold play_inv, _start_ending. fields. intros Hinv. play_finish.
Qed.

Lemma update_global_timer_play dt s :
  state s = menu \/ state s = scene \/ state s = artifact_popup ->
  play_inv scs s -> play_inv scs (_update_global_timer dt s).
Proof.
  open_state s. unfold _update_global_timer, _start_ending. fields.
  intros Hst Hinv. repeat case_match. all: unfold play_inv in *; fields.
  all: destruct st0; try (exfalso; intuition discriminate).
  all: decide_tags; tests; try discriminate; play_finish.
Qed.

Lemma update_opening_play dt s :
  state s = opening -> play_inv scs s -> play_inv scs (_update_opening dt s).
Proof.
  open_state s. unfold _update_opening. fields. intros -> Hinv.
  repeat case_match. all: unfold play_inv in *; fields. all: play_finish.
Qed.

Lemma update_snapshot_effect_play dt s :
  state s = snapshot_effect -> play_inv scs s ->
  play_inv scs (_update_snapshot_effect dt s).
Proof.
  open_state s. unfold _update_snapshot_effect. fields. intros -> Hinv.
  repeat case_match. all: unfold play_inv in *; fields. all: play_finish.
Qed.

Lemma update_play dt s s' : play_inv scs s -> update dt s = Ok s' -> play_inv scs s'.
Proof.
  intros Hinv. unfold update.
  destruct (state s) eqn:Hst; intros Hu.
  - injection Hu as <-. by apply update_opening_play.
  - injection Hu as <-. apply update_global_timer_play; auto.
  - unfold _update_scene in Hu. res_cases; apply update_global_timer_play; auto.
  - injection Hu as <-. apply update_global_timer_play; auto.
  - injection Hu as <-. by apply update_snapshot_effect_play.
  - injection Hu as <-.
    apply (play_inv_ending s); [done|apply update_ending_frozen| |done].
    apply update_ending_same.
Qed.

Lemma take_snapshot_play s s' :
  state s = scene -> play_inv scs s -> _take_snapshot s = Ok s' -> play_inv scs s'.
Proof.
  open_state s. unfold _take_snapshot. fields. intros -> Hinv.
  destruct (_ <=? _)%nat eqn:Hcap; [by intros [= <-]|].
  intros (sc & Hsc & Hu)%bind_Ok. injection Hu as <-.
  unfold play_inv in *. fields. destruct Hinv as (-> & Hlen & Hall & Ht & Hpos & Hidx).
  apply py_index_lookup in Hsc; [|apply Hidx].
  apply Nat.leb_gt in Hcap. rewrite length_app. cbn [length].
  split; [done|]. split; [lia|]. split; [|done].
  apply Forall_app. split; [done|]. constructor; [|done].
  exists sc. split; [by eapply list_elem_of_lookup_2|]. by left.
Qed.

Lemma handle_menu_click_play pos s :
  (length clock_rects <= length scs)%nat ->
  state s = menu -> play_inv scs s -> play_inv scs (_handle_menu_click pos s).
Proof.
  open_state s. unfold _handle_menu_click, enter_scene. fields. intros Hclocks -> Hinv.
  destruct (collidepoint accuse_rect pos); [by apply start_ending_play|].
  destruct (time0 <=? 0); [done|].
  match goal with
  | |- context [match ?h with _ => _ end] => destruct h as [idx|] eqn:Hhit
  end; [|done].
  unfold play_inv in *. fields. destruct Hinv as (-> & Hlen & Hall & Ht & Hpos).
  assert (idx < length scs)%nat.
  { destruct (_ && _); apply find_index_from_bound in Hhit; lia. }
  play_finish.
Qed.

Lemma handle_scene_click_play hit s s' :
  state s = scene -> play_inv scs s -> _handle_scene_click hit s = Ok s' ->
  play_inv scs s'.
Proof.
  open_state s. unfold _handle_scene_click. fields.
  intros -> Hinv (idx & Hget & Hu)%bind_Ok.
  apply get_artifact_index_at_pos_Ok in Hget as [[_ ->]|(_ & -> & _)]; fields.
  { change (-1 <? 0) with true in Hu. by injection Hu as <-. }
  destruct (hit <? 0) eqn:Hhit; [by injection Hu as <-|].
  apply bind_Ok in Hu as (sc & Hsc & Hu). apply bind_Ok in Hu as (art & Hart & Hu).
  destruct (String.eqb _ _); [by injection Hu as <-|].
  destruct (negb _); [by injection Hu as <-|].
  injection Hu as <-.
  unfold play_inv in Hinv. fields.
  destruct Hinv as (-> & Hlen & Hall & Ht & Hpos & Hidx).
  apply Z.ltb_ge in Hhit.
  apply py_index_lookup in Hsc; [|apply Hidx].
  apply py_index_lookup in Hart; [|done].
  apply list_elem_of_lookup_2 in Hart.
  unfold _load_popup_artifact_image. fields.
  repeat case_match; unfold play_inv; fields; play_finish.
Qed.

Lemma close_artifact_popup_play snaps s :
  state s = artifact_popup -> snaps `sublist_of` snapshots s -> play_inv scs s ->
  play_inv scs (_close_artifact_popup (set_snapshots snaps s)).
Proof.
  open_state s. unfold _close_artifact_popup, play_inv. fields.
  intros -> Hsub (-> & Hlen & Hall & Ht & Hpos & Hidx & _).
  apply sublist_length in Hsub as Hle.
  split; [done|]. split; [lia|]. split; [|done].
  by eapply Forall_sublist_of.
Qed.

Lemma close_artifact_popup_play_same s :
  state s = artifact_popup -> play_inv scs s -> play_inv scs (_close_artifact_popup s).
Proof.
  intros Hst Hinv. pose proof (close_artifact_popup_play (snapshots s) s Hst) as Hc.
  destruct s. apply Hc; done.
Qed.

Lemma take_snapshot_from_popup_play s s' :
  state s = artifact_popup -> (length (snapshots s) < MAX_SNAPSHOTS)%nat ->
  play_inv scs s -> _take_snapshot_from_popup s = Ok s' ->
  play_inv scs (s' |> set_popup_artifact_filename EmptyString
                   |> set_popup_scene_index (-1)
                   |> set_popup_artifact_surface None).
Proof.
  open_state s. unfold _take_snapshot_from_popup, play_inv. fields.
  intros -> Hcap (-> & Hlen & Hall & Ht & Hpos & Hidx & Hpsi & sc & art & Hsc & Hart & Hfn).
  replace (MAX_SNAPSHOTS <=? length snaps0)%nat with false
    by (symmetry; apply Nat.leb_gt; lia).
  replace (psi0 <? 0) with false
    by (symmetry; apply Z.ltb_ge; unfold scene_index_ok in Hidx; lia).
  intros (sc' & Hsc' & Hu)%bind_Ok. injection Hu as <-. fields.
  apply py_index_lookup in Hsc'; [|unfold scene_index_ok in Hidx; lia].
  assert (sc' = sc) as -> by congruence.
  destruct (find (fun a => String.eqb (spec_filename a) pfn0) (artifacts sc))
    as [hit|] eqn:Hfind.
  - apply find_some in Hfind as [Hin Heq]. apply String.eqb_eq in Heq.
    rewrite length_app. cbn [length].
    split; [done|]. split; [lia|]. split; [|done].
    apply Forall_app. split; [done|]. constructor; [|done].
    exists sc. split; [by eapply list_elem_of_lookup_2|]. right.
    exists hit. split; [by apply list_elem_of_In|].
    unfold artifact_capture. by rewrite Heq.
  - exfalso. apply list_elem_of_In in Hart.
    apply (find_none _ _ Hfind) in Hart. apply String.eqb_neq in Hart. done.
Qed.

Lemma handle_artifact_popup_click_play pos s s' :
  state s = artifact_popup -> play_inv scs s ->
  _handle_artifact_popup_click pos s = Ok s' -> play_inv scs s'.
Proof.
  intros Hst Hinv. unfold _handle_artifact_popup_click.
  destruct (collidepoint popup_x_btn pos);
    [intros [= <-]; by apply close_artifact_popup_play_same|].
  intros (sc & Hsc & Hu)%bind_Ok.
  destruct (collidepoint cryst_btn pos).
  { destruct (_ <? _)%nat eqn:Hcap; [|by injection Hu as <-].
    apply bind_Ok in Hu as (s1 & Hs1 & Hu). injection Hu as <-.
    apply Nat.ltb_lt in Hcap. by eapply take_snapshot_from_popup_play. }
  destruct (_ && _).
  { injection Hu as <-. apply close_artifact_popup_play; [done| |done].
    destruct (pop_last_match _ _) eqn:Hpop; [|done].
    by apply pop_last_match_sublist in Hpop as [? _]. }
  destruct (collidepoint close_btn pos);
    [injection Hu as <-; by apply close_artifact_popup_play_same|].
  destruct (negb _); injection Hu as <-; [by apply close_artifact_popup_play_same|done].
Qed.

Lemma on_right_opening_play s :
  state s = opening -> play_inv scs s -> play_inv scs (on_right_opening s).
Proof.
  open_state s. unfold on_right_opening. fields. intros -> Hinv.
  repeat case_match. all: unfold play_inv in *; fields. all: play_finish.
Qed.

Lemma escape_play s :
  play_inv scs s ->
  (state s = opening -> play_inv scs (set_state menu s))
  /\ (state s = scene ->
      play_inv scs (s |> set_state menu |> set_current_scene_index (-1))).
Proof.
  open_state s. unfold play_inv. fields. intros Hinv.
  split; intros ->; play_finish.
Qed.

Lemma on_keydown_play key s s' r :
  play_inv scs s -> on_keydown key s = Ok (s', r) -> play_inv scs s'.
Proof.
  intros Hinv. unfold on_keydown.
  destruct (bool_decide (key = K_ESCAPE)).
  - destruct (escape_play s Hinv) as [Hm Hsc].
    destruct (state s); intros [= <- _]; auto.
  - destruct (bool_decide (state s = ending)) eqn:Hend.
    { apply bool_decide_eq_true in Hend. intros Hu.
      apply (play_inv_ending s); [done|by eapply on_keydown_ending_frozen| |done].
      by eapply on_keydown_ending_same. }
    destruct (bool_decide (state s = opening) && _) eqn:Ho.
    { apply andb_true_iff in Ho as [Ho%bool_decide_eq_true _].
      intros [= <- _]. by apply on_right_opening_play. }
    destruct (bool_decide (state s = scene) && _) eqn:Hs.
    { apply andb_true_iff in Hs as [Hs%bool_decide_eq_true _].
      intros (s1 & Hs1 & Hu)%bind_Ok. injection Hu as <- _.
      by eapply take_snapshot_play. }
    destruct (bool_decide (state s = artifact_popup) && _) eqn:Hp.
    { apply andb_true_iff in Hp as [Hp%bool_decide_eq_true _].
      intros [= <- _]. by apply close_artifact_popup_play_same. }
    by intros [= <- _].
Qed.

Lemma handle_event_play ev s s' r :
  (length clock_rects <= length scs)%nat ->
  play_inv scs s -> handle_event ev s = Ok (s', r) -> play_inv scs s'.
Proof.
  intros Hclocks Hinv. unfold handle_event.
  destruct ev as [|key|pos button hit|].
  - by intros [= <- _].
  - by apply on_keydown_play.
  - destruct (button =? 1); [|by intros [= <- _]].
    destruct (state s) eqn:Hst.
    + by intros [= <- _].
    + intros [= <- _]. by apply handle_menu_click_play.
    + intros (s1 & Hs1 & Hu)%bind_Ok. injection Hu as <- _.
      by eapply handle_scene_click_play.
    + intros (s1 & Hs1 & Hu)%bind_Ok. injection Hu as <- _.
      by eapply handle_artifact_popup_click_play.
    + by intros [= <- _].
    + intros [= Hu]. pose proof (on_click_ending_frozen pos s) as Hf.
      pose proof (on_click_ending_same pos s) as [Hsc _].
      rewrite Hu in Hf, Hsc. by apply (play_inv_ending s).
  - by intros [= <- _].
Qed.

Lemma run_frames_play ticks s s' :
  (length clock_rects <= length scs)%nat ->
  play_inv scs s -> run_frames ticks s = Ok s' -> play_inv scs s'.
Proof.
  intros Hclocks.
  apply (run_frames_preserves (play_inv scs) (fun _ => True) (fun _ => True)).
  - intros ev s1 s2 r _. by apply handle_event_play.
  - intros dt s1 s2 _. apply update_play.
  - unfold ticks_ok. apply Forall_forall. intros tick _. split; [|done].
    by apply Forall_forall.
Qed.

End PlayInvariant.

(** ** No handler fails *)

Section NoFailure.
Context `{AssetProvider}.
Variable scs : list MemoryScene.

Lemma on_keydown_ending_ok key s : is_Ok (on_keydown_ending key s) = true.
Proof.
  open_state s. unfold on_keydown_ending, ending_choose,
    _ending_append_blood_and_continuation. fields.
  repeat case_match; reflexivity.
Qed.

Lemma take_snapshot_ok s :
  state s = scene -> play_inv scs s -> is_Ok (_take_snapshot s) = true.
Proof.
  open_state s. unfold _take_snapshot, play_inv. fields.
  intros -> (-> & _ & _ & _ & _ & Hidx).
  destruct (_ <=? _)%nat; [done|].
  destruct (py_index_in_range scs csi0 Hidx) as (sc & -> & _). done.
Qed.

Lemma handle_scene_click_ok pos button hit s :
  state s = scene -> play_inv scs s ->
  hit_ok s (MOUSEBUTTONDOWN pos button hit) = true ->
  is_Ok (_handle_scene_click hit s) = true.
Proof.
  open_state s. unfold _handle_scene_click, _get_artifact_index_at_pos, play_inv, hit_ok.
  fields. intros -> (-> & _ & _ & _ & _ & Hidx). decide_tags. cbn [andb].
  replace (csi0 <? 0) with false
    by (symmetry; apply Z.ltb_ge; unfold scene_index_ok in Hidx; lia).
  replace (0 <=? csi0) with true
    by (symmetry; apply Z.leb_le; unfold scene_index_ok in Hidx; lia).
  destruct (py_index_in_range scs csi0 Hidx) as (sc & -> & Hsc). cbn [mbind pyres_bind].
  intros Hhit%Z.ltb_lt.
  destruct (hit <? 0) eqn:Hneg; [done|]. apply Z.ltb_ge in Hneg.
  destruct (py_index_in_range (artifacts sc) hit) as (art & -> & _); [lia|].
  cbn [mbind pyres_bind]. repeat case_match; reflexivity.
Qed.

Lemma handle_artifact_popup_click_ok pos s :
  state s = artifact_popup -> play_inv scs s ->
  is_Ok (_handle_artifact_popup_click pos s) = true.
Proof.
  open_state s. unfold _handle_artifact_popup_click, _take_snapshot_from_popup, play_inv.
  fields. intros -> (-> & _ & _ & _ & _ & Hidx & -> & _).
  destruct (collidepoint popup_x_btn pos); [done|].
  replace (0 <=? csi0) with true
    by (symmetry; apply Z.leb_le; unfold scene_index_ok in Hidx; lia).
  destruct (py_index_in_range scs csi0 Hidx) as (sc & Hsc & _). rewrite Hsc.
  cbn [mbind pyres_bind]. repeat case_match; try reflexivity.
  all: fields; rewrite Hsc; reflexivity.
Qed.

Lemma update_scene_ok dt s :
  state s = scene -> play_inv scs s ->
  is_Ok (_update_scene dt (_update_global_timer dt s)) = true.
Proof.
  open_state s. unfold _update_scene, _update_global_timer, _start_ending, play_inv.
  fields. intros -> (-> & _ & _ & _ & _ & Hidx).
  destruct (py_index_in_range scs csi0 Hidx) as (sc & Hsc & _).
  repeat case_match; fields; try reflexivity.
  all: try (rewrite Hsc; reflexivity).
  all: decide_tags; tests; first [discriminate | lia].
Qed.

Lemma handle_event_ok ev s :
  hit_ok s ev = true -> play_inv scs s -> is_Ok (handle_event ev s) = true.
Proof.
  intros Hev Hinv. unfold handle_event.
  destruct ev as [|key|pos button hit|]; [done| | |done].
  - unfold on_keydown. destruct (bool_decide (key = K_ESCAPE)).
    + by destruct (state s).
    + destruct (bool_decide (state s = ending)); [apply on_keydown_ending_ok|].
      destruct (bool_decide (state s = opening) && _); [done|].
      destruct (bool_decide (state s = scene) && _) eqn:Hs.
      { apply andb_true_iff in Hs as [Hs%bool_decide_eq_true _].
        destruct (_take_snapshot s) eqn:Ht; [done|].
        pose proof (take_snapshot_ok s Hs Hinv) as Hok. by rewrite Ht in Hok. }
      by destruct (bool_decide (state s = artifact_popup) && _).
  - destruct (button =? 1); [|done].
    destruct (state s) eqn:Hst; try done.
    + pose proof (handle_scene_click_ok pos button hit s Hst Hinv Hev) as Hok.
      by destruct (_handle_scene_click hit s).
    + pose proof (handle_artifact_popup_click_ok pos s Hst Hinv) as Hok.
      by destruct (_handle_artifact_popup_click pos s).
Qed.

Lemma update_ok dt s : play_inv scs s -> is_Ok (update dt s) = true.
Proof.
  intros Hinv. unfold update. destruct (state s) eqn:Hst; try done.
  by apply update_scene_ok.
Qed.

(** The events of a tick, then the ticks of a run, go through when every
    click carries an index the state it is handled in allows. *)
Lemma handle_events_hit_ok evs : forall s,
  (length clock_rects <= length scs)%nat ->
  play_inv scs s -> events_hit_ok evs s = true ->
  exists s' r, handle_events evs s = Ok (s', r) /\ play_inv scs s'.
Proof.
  induction evs as [|ev evs IH]; intros s Hclocks Hinv Hhit; simpl.
  - eauto.
  - simpl in Hhit. apply andb_true_iff in Hhit as [Hev Hrest].
    destruct (is_Ok_true _ (handle_event_ok ev s Hev Hinv)) as ([s1 r1] & H1).
    rewrite H1 in Hrest |- *. simpl.
    assert (Hinv1 : play_inv scs s1) by (eapply handle_event_play; eauto).
    destruct (IH s1 Hclocks Hinv1 Hrest) as (s2 & r2 & H2 & Hinv2).
    rewrite H2. simpl. eauto.
Qed.

Lemma run_frames_hit_ok ticks : forall s,
  (length clock_rects <= length scs)%nat ->
  play_inv scs s -> clicks_ok ticks s = true ->
  is_Ok (run_frames ticks s) = true.
Proof.
  induction ticks as [|[evs dt] ticks IH]; intros s Hclocks Hinv Hhit; simpl; [done|].
  simpl in Hhit. apply andb_true_iff in Hhit as [Hevs Hrest].
  destruct (handle_events_hit_ok evs s Hclocks Hinv Hevs) as (s1 & r1 & H1 & Hinv1).
  destruct (is_Ok_true _ (update_ok dt s1 Hinv1)) as (s2 & H2).
  assert (Hf : frame evs dt s = Ok (s2, r1)).
  { unfold frame. rewrite H1. simpl. rewrite H2. reflexivity. }
  rewrite Hf in Hrest |- *. simpl. destruct r1; [|done].
  apply IH; [exact Hclocks| |exact Hrest].
  eapply update_play; eauto.
Qed.

End NoFailure.

(** ** The scenes of a game *)

Lemma filter_sublist {A} (p : A -> bool) (l : list A) : List.filter p l `sublist_of` l.
Proof.
  induction l as [|x l IH]; simpl; [constructor|].
  destruct (p x); by constructor.
Qed.

Lemma concat_sublist {A} (xs ys : list (list A)) :
  Forall2 sublist xs ys -> concat xs `sublist_of` concat ys.
Proof. induction 1; simpl; [constructor|by apply sublist_app]. Qed.

Lemma scene_points_sublist_le sid (sub full : list SceneArtifact) :
  sub `sublist_of` full -> Forall (fun art => 0 <= points art) full ->
  0 <= scene_points sid sub <= scene_points sid full.
Proof.
  induction 1 as [|x l1 l2 _ IH|x l1 l2 _ IH]; intros Hpos.
  - done.
  - apply Forall_cons in Hpos as [Hx Hpos]. specialize (IH Hpos).
    rewrite !scene_points_cons. destruct (String.eqb _ _); lia.
  - apply Forall_cons in Hpos as [Hx Hpos]. specialize (IH Hpos).
    rewrite scene_points_cons. destruct (String.eqb _ _); lia.
Qed.

Lemma artifact_sound_points (k : Culprit) (art : SceneArtifact) :
  artifact_sound k art = true ->
  0 <= points art <= 10
  /\ (suspect_id art <> culprit_id k -> points art <= 1).
Proof.
  unfold artifact_sound. intros Ha.
  apply andb_true_iff in Ha as [Ha Hlow].
  apply andb_true_iff in Ha as [Ha _].
  apply andb_true_iff in Ha as [Ha _].
  apply andb_true_iff in Ha as [_ Hp].
  apply bool_decide_eq_true in Hp.
  assert (Hrange : 0 <= points art <= 10).
  { repeat (apply elem_of_cons in Hp as [->|Hp]); try lia. by apply elem_of_nil in Hp. }
  split; [exact Hrange|]. intros Hne.
  apply orb_true_iff in Hlow as [Heq%String.eqb_eq|Hle%Z.leb_le]; [done|lia].
Qed.

Section Built.
Context `{AssetProvider}.

Lemma build_scenes_from_within (killer_id : string) (lbls : list string) :
  forall i0 scs full,
    build_scenes_from killer_id i0 lbls = Ok scs ->
    @build_scenes_from all_assets killer_id i0 lbls = Ok full ->
    Forall2 scene_within scs full.
Proof.
  induction lbls as [|lbl r IH]; intros i0 scs full Hs Hf; simpl in Hs, Hf.
  - simplify_eq. constructor.
  - apply bind_Ok in Hs as (sc & Hsc & Hs). apply bind_Ok in Hs as (scs' & Hscs & Hs).
    apply bind_Ok in Hf as (scf & Hscf & Hf). apply bind_Ok in Hf as (full' & Hfull & Hf).
    simplify_eq. constructor; [|by eapply IH].
    unfold build_scene in Hsc, Hscf.
    apply bind_Ok in Hsc as (specs & Hspecs & Hsc).
    apply bind_Ok in Hsc as (tgs & Htgs & Hsc).
    apply bind_Ok in Hsc as (built & Hbuilt & Hsc).
    rewrite Hspecs, Htgs in Hscf. simpl in Hscf. rewrite Hbuilt in Hscf. simpl in Hscf.
    simplify_eq. split; [done|]. unfold loaded_artifacts. cbn [artifacts].
    assert (Hfilter : List.filter (fun pa : AssetPath * SceneArtifact =>
                                     @loads all_assets pa.1) built = built).
    { clear. induction built as [|pa built IHb]; [done|].
      cbn [List.filter loads all_assets]. f_equal. exact IHb. }
    rewrite Hfilter. apply fmap_sublist, filter_sublist.
Qed.

Lemma build_scenes_within (k : Culprit) :
  exists scs full,
    _build_scenes (culprit_id k) = Ok scs
    /\ @_build_scenes all_assets (culprit_id k) = Ok full
    /\ Forall2 scene_within scs full.
Proof.
  destruct (is_Ok_true _ (build_scenes_ok k)) as (scs & Hscs).
  destruct (is_Ok_true _ (@build_scenes_ok all_assets k)) as (full & Hfull).
  exists scs, full. split; [done|]. split; [done|].
  by eapply build_scenes_from_within.
Qed.

End Built.

(** One goal for each element of a list that is written out. *)
Ltac each_element := repeat first [apply Forall_nil_2 | apply Forall_cons_2].

(** The scenes with every image loaded pass the checks. *)
Lemma full_scenes_sound (k : Culprit) :
  exists full,
    @_build_scenes all_assets (culprit_id k) = Ok full
    /\ map label full = labels
    /\ Forall (fun sc => length (artifacts sc) = 3%nat) full
    /\ Forall (fun sc => Forall (fun art => artifact_sound k art = true) (artifacts sc)) full
    /\ NoDup (concat (map (fun sc => map spec_filename (artifacts sc)) full))
    /\ (forall k', Forall (fun sc => scene_points (culprit_id k') (artifacts sc)
                                     <= if bool_decide (k' = k) then 10 else 1) full).
Proof.
  destruct k; eexists.
  all: split; [vm_compute; reflexivity|].
  all: split; [reflexivity|].
  all: split; [by each_element|].
  all: split; [each_element; vm_compute; reflexivity|].
  all: split; [refine (bool_decide_unpack _ _); vm_compute; exact I|].
  all: intros []; each_element; apply Z.leb_le; vm_compute; reflexivity.
Qed.

(** ** Runs from the start *)

Section FromInit.
Context `{AssetProvider}.

Lemma built_scenes_facts (k : Culprit) (scs : list MemoryScene) :
  _build_scenes (culprit_id k) = Ok scs ->
  length scs = 6%nat
  /\ map label scs = labels
  /\ (forall sc, sc ∈ scs ->
        (length (artifacts sc) <= 3)%nat
        /\ Forall (fun art => artifact_sound k art = true) (artifacts sc)
        /\ forall k', 0 <= scene_points (culprit_id k') (artifacts sc)
                      <= if bool_decide (k' = k) then 10 else 1)
  /\ NoDup (concat (map (fun sc => map spec_filename (artifacts sc)) scs)).
Proof.
  intros Hscs.
  destruct (build_scenes_within k) as (scs' & full & Hscs' & Hfull & Hwithin).
  assert (scs' = scs) as -> by congruence.
  destruct (full_scenes_sound k) as (full' & Hfull' & Hlbl & Hlen & Hsound & Hdup & Hpts).
  assert (full' = full) as -> by congruence.
  assert (Hlabels : map label scs = map label full).
  { clear -Hwithin. induction Hwithin as [|sc f scs full [Hl _] _ IH]; [done|].
    simpl. by rewrite Hl, IH. }
  split; [|split; [|split]].
  - apply Forall2_length in Hwithin. rewrite Hwithin.
    rewrite <- (length_map label), Hlbl. reflexivity.
  - congruence.
  - intros sc Hsc.
    apply list_elem_of_lookup_1 in Hsc as (i & Hi).
    destruct (Forall2_lookup_l _ _ _ _ _ Hwithin Hi) as (f & Hf & _ & Hsub).
    rewrite Forall_lookup in Hlen, Hsound.
    specialize (Hlen _ _ Hf). specialize (Hsound _ _ Hf). cbn beta in Hlen, Hsound.
    split; [apply sublist_length in Hsub; lia|].
    split; [by eapply Forall_sublist_of|].
    intros k'. specialize (Hpts k'). rewrite Forall_lookup in Hpts.
    specialize (Hpts _ _ Hf). cbn beta in Hpts.
    assert (Hpos : Forall (fun art => 0 <= points art) (artifacts f)).
    { eapply Forall_impl; [exact Hsound|]. intros art Ha. cbn beta in Ha.
      apply artifact_sound_points in Ha. lia. }
    pose proof (scene_points_sublist_le (culprit_id k') _ _ Hsub Hpos). lia.
  - eapply sublist_NoDup; [exact Hdup|]. apply concat_sublist.
    clear -Hwithin. induction Hwithin as [|sc f scs full [_ Hs] _ IH]; simpl.
    + constructor.
    + constructor; [by apply fmap_sublist|exact IH].
Qed.

Lemma init_play (k : Culprit) (s0 : GameState) :
  init k = Ok s0 ->
  play_inv (scenes s0) s0
  /\ _build_scenes (culprit_id k) = Ok (scenes s0)
  /\ culprit s0 = k.
Proof.
  unfold init. intros (scs & Hscs & Hi)%bind_Ok. injection Hi as <-.
  unfold play_inv. fields. split; [|done].
  split; [done|]. split; [unfold MAX_SNAPSHOTS; simpl; lia|].
  split; [constructor|]. by split.
Qed.

Lemma reachable_play (k : Culprit) (ticks : list (list Event * Z)) (s0 s' : GameState) :
  (length clock_rects <= 6)%nat ->
  init k = Ok s0 -> run_frames ticks s0 = Ok s' ->
  play_inv (scenes s0) s'
  /\ _build_scenes (culprit_id k) = Ok (scenes s0)
  /\ culprit s' = k.
Proof.
  intros Hclocks Hinit Hrun.
  destruct (init_play _ _ Hinit) as (Hinv & Hscs & Hk).
  destruct (built_scenes_facts _ _ Hscs) as (Hsix & _).
  split; [|split; [done|]].
  - eapply run_frames_play; [|exact Hinv|exact Hrun]. by rewrite Hsix.
  - apply run_frames_same in Hrun as [_ Hc]. congruence.
Qed.

End FromInit.

Lemma culprit_id_inj (k1 k2 : Culprit) : culprit_id k1 = culprit_id k2 -> k1 = k2.
Proof. destruct k1, k2; intros Hk; first [reflexivity | discriminate Hk]. Qed.

Lemma total_of_sum (k : Culprit) (snaps : list Snapshot) :
  total_of k snaps = sum_Z (map (snap_points k) snaps).
Proof. by destruct k. Qed.

Lemma sum_Z_bounded {A} (f : A -> Z) (b : Z) (l : list A) :
  Forall (fun x => 0 <= f x <= b) l ->
  0 <= sum_Z (map f l) <= b * Z.of_nat (length l).
Proof. induction 1 as [|x l Hx _ IH]; simpl; lia. Qed.

Section Reached.
Context `{AssetProvider}.

Lemma capture_points (k : Culprit) (scs : list MemoryScene) (sn : Snapshot) :
  _build_scenes (culprit_id k) = Ok scs -> capture_of scs sn ->
  forall k', 0 <= snap_points k' sn <= if bool_decide (k' = k) then 10 else 1.
Proof.
  intros Hscs (sc & Hsc & Hsn) k'.
  destruct (built_scenes_facts _ _ Hscs) as (_ & _ & Hfacts & _).
  destruct (Hfacts sc Hsc) as (_ & Hsound & Hpts).
  destruct Hsn as [->|(art & Hart & ->)].
  - specialize (Hpts k'). by destruct k'.
  - rewrite Forall_forall in Hsound. specialize (Hsound art Hart).
    apply artifact_sound_points in Hsound as [Hrange Hlow].
    assert (Hsp : snap_points k' (artifact_capture sc art)
                  = if String.eqb (suspect_id art) (culprit_id k') then points art else 0)
      by (by destruct k').
    rewrite Hsp. destruct (String.eqb_spec (suspect_id art) (culprit_id k')) as [Heq|Hne].
    + case_bool_decide as Hk; [lia|].
      assert (suspect_id art <> culprit_id k).
      { rewrite Heq. intros Hc. by apply culprit_id_inj in Hc. }
      specialize (Hlow ltac:(done)). lia.
    + case_bool_decide; lia.
Qed.

(** X1.  A run never raises: from the state [__init__] leaves, for every
    culprit, every loading outcome of the images, at most six clock click
    areas and every sequence of ticks in which each click made while a
    scene is shown carries an artifact index that is -1 or an index of
    the artifacts of the scene shown at that time, the loop of [run] goes
    through all the ticks without an [IndexError], a [KeyError] or a
    [ValueError]. *)
Theorem run_never_raises (k : Culprit) (ticks : list (list Event * Z)) :
  (length clock_rects <= 6)%nat ->
  (forall s0, init k = Ok s0 -> clicks_ok ticks s0 = true) ->
  exists s0 s', init k = Ok s0 /\ run_frames ticks s0 = Ok s'.
Proof.
  intros Hclocks Hticks.
  destruct (is_Ok_true _ (build_scenes_ok k)) as (scs & Hscs).
  assert (Hinit : exists s0, init k = Ok s0)
    by (unfold init; rewrite Hscs; eauto).
  destruct Hinit as (s0 & Hinit). exists s0.
  destruct (init_play _ _ Hinit) as (Hinv & Hscs0 & _).
  destruct (built_scenes_facts _ _ Hscs0) as (Hsix & _).
  assert (Hok : is_Ok (run_frames ticks s0) = true).
  { apply (run_frames_hit_ok (scenes s0)).
    - by rewrite Hsix.
    - exact Hinv.
    - by apply Hticks. }
  apply is_Ok_true in Hok as (s' & Hs'). eauto.
Qed.

(** X2.  The ledger along a run: it never holds more than [MAX_SNAPSHOTS]
    snapshots, and every snapshot in it is a capture of one of the scenes
    of the game, either of the whole scene (key S) or of one artifact of
    the scene (the Crystallize button), with the label of that scene. *)
Theorem ledger_holds_captures (k : Culprit) (ticks : list (list Event * Z))
    (s0 s' : GameState) :
  (length clock_rects <= 6)%nat ->
  init k = Ok s0 -> run_frames ticks s0 = Ok s' ->
  (length (snapshots s') <= MAX_SNAPSHOTS)%nat
  /\ Forall (capture_of (scenes s')) (snapshots s').
Proof.
  intros Hclocks Hinit Hrun.
  destruct (reachable_play _ _ _ _ Hclocks Hinit Hrun) as ((Hsc & Hlen & Hall & _) & _).
  rewrite Hsc. done.
Qed.

(** The totals of a reached ledger. *)
Lemma reachable_totals (k : Culprit) (ticks : list (list Event * Z)) (s0 s' : GameState) :
  (length clock_rects <= 6)%nat ->
  init k = Ok s0 -> run_frames ticks s0 = Ok s' ->
  culprit s' = k
  /\ Forall (fun sn => forall k', 0 <= snap_points k' sn
                                <= if bool_decide (k' = k) then 10 else 1)
       (snapshots s')
  /\ (forall k', k' <> k -> 0 <= total_of k' (snapshots s') <= 3)
  /\ 0 <= total_of k (snapshots s') <= 30.
Proof.
  intros Hclocks Hinit Hrun.
  destruct (reachable_play _ _ _ _ Hclocks Hinit Hrun)
    as ((Hsc & Hlen & Hall & _) & Hscs & Hk).
  assert (Hsnaps : Forall (fun sn => forall k', 0 <= snap_points k' sn
                             <= if bool_decide (k' = k) then 10 else 1) (snapshots s')).
  { eapply Forall_impl; [exact Hall|]. intros sn Hsn. by eapply capture_points. }
  split; [exact Hk|]. split; [exact Hsnaps|]. unfold MAX_SNAPSHOTS in Hlen. split.
  - intros k' Hk'. rewrite total_of_sum.
    pose proof (sum_Z_bounded (snap_points k') 1 (snapshots s')) as Hb.
    assert (Forall (fun sn => 0 <= snap_points k' sn <= 1) (snapshots s')).
    { eapply Forall_impl; [exact Hsnaps|]. intros sn Hsn. cbn beta in Hsn.
      specialize (Hsn k'). by rewrite bool_decide_eq_false_2 in Hsn. }
    specialize (Hb ltac:(done)). lia.
  - rewrite total_of_sum.
    pose proof (sum_Z_bounded (snap_points k) 10 (snapshots s')) as Hb.
    assert (Forall (fun sn => 0 <= snap_points k sn <= 10) (snapshots s')).
    { eapply Forall_impl; [exact Hsnaps|]. intros sn Hsn. cbn beta in Hsn.
      specialize (Hsn k). by rewrite bool_decide_eq_true_2 in Hsn. }
    specialize (Hb ltac:(done)). lia.
Qed.

(** The gate of the ending when only the culprit can reach the threshold. *)
Lemma start_ending_gate (k : Culprit) (s : GameState) :
  culprit s = k ->
  (forall k', k' <> k -> total_of k' (snapshots s) <= 3) ->
  ending_slides (_start_ending s) = success_branch
  <-> EVIDENCE_POINTS_REQUIRED <= total_of k (snapshots s).
Proof.
  intros Hk Hothers.
  open_state s. unfold _start_ending, EVIDENCE_POINTS_REQUIRED in *. fields. subst.
  assert (Hq := Hothers Queen). assert (Hc := Hothers Chef). assert (Hg := Hothers Goblin).
  cbn [total_of] in *.
  assert (Hdiff : forall scr,
            [ slide_of "red_cryst.png" BAD_ENDING_RED_CRYSTAL;
              slide_of "dead_king.png" BAD_ENDING_DEAD_KING;
              mkSlide (killer_be k) false false true scr ] <> success_branch)
    by discriminate.
  destruct (12 <=? total_queen snaps0) eqn:Eq;
    destruct (12 <=? total_chef snaps0) eqn:Ec;
    destruct (12 <=? total_goblin snaps0) eqn:Eg;
    cbn [orb negb]; tests; destruct k; cbn [total_of] in *;
    (split; [intros Hs; first [lia | by apply Hdiff in Hs
                               | (exfalso; first [specialize (Hq ltac:(done)); lia
                                                 | specialize (Hc ltac:(done)); lia
                                                 | specialize (Hg ltac:(done)); lia])]
            | intros Hs; first [reflexivity | lia
                               | (exfalso; first [specialize (Hq ltac:(done)); lia
                                                 | specialize (Hc ltac:(done)); lia
                                                 | specialize (Hg ltac:(done)); lia])]]).
Qed.

(** X3.  Only the culprit can be convicted.  Along a run every snapshot
    scores between 0 and 10 points toward the culprit and at most 1 point
    toward anyone else, so the total of an innocent suspect never exceeds
    3; the accusation slides are therefore reached exactly when the points
    gathered against the culprit reach the threshold of 12. *)
Theorem only_the_culprit_scores (k : Culprit) (ticks : list (list Event * Z))
    (s0 s' : GameState) :
  (length clock_rects <= 6)%nat ->
  init k = Ok s0 -> run_frames ticks s0 = Ok s' ->
  Forall (fun sn => forall k', 0 <= snap_points k' sn
                               <= if bool_decide (k' = k) then 10 else 1)
    (snapshots s')
  /\ (forall k', k' <> k -> 0 <= total_of k' (snapshots s') <= 3)
  /\ 0 <= total_of k (snapshots s') <= 30
  /\ (ending_slides (_start_ending s') = success_branch
      <-> EVIDENCE_POINTS_REQUIRED <= total_of k (snapshots s')).
Proof.
  intros Hclocks Hinit Hrun.
  destruct (reachable_totals _ _ _ _ Hclocks Hinit Hrun) as (Hk & Hsnaps & Hothers & Hown).
  split; [exact Hsnaps|]. split; [exact Hothers|]. split; [exact Hown|].
  apply start_ending_gate; [exact Hk|]. intros k' Hk'. apply Hothers. exact Hk'.
Qed.

(** X4.  The clock and the state agree along a run: the remaining time is
    never negative; outside the ending it is positive, so a clock at zero
    means the ending has started; and during the opening it still shows
    the full [GLOBAL_TIME_LIMIT] with an empty ledger, the countdown
    starting only when the opening is over. *)
Theorem clock_at_zero_is_the_ending (k : Culprit) (ticks : list (list Event * Z))
    (s0 s' : GameState) :
  (length clock_rects <= 6)%nat ->
  init k = Ok s0 -> run_frames ticks s0 = Ok s' ->
  0 <= global_time s'
  /\ (state s' <> ending -> 0 < global_time s')
  /\ (state s' = opening -> global_time s' = GLOBAL_TIME_LIMIT /\ snapshots s' = []).
Proof.
  intros Hclocks Hinit Hrun.
  destruct (reachable_play _ _ _ _ Hclocks Hinit Hrun)
    as ((_ & _ & _ & Ht & Hst) & _).
  split; [exact Ht|]. unfold GLOBAL_TIME_LIMIT in *.
  destruct (state s'); (split; [intros Hne|intros Heq]);
    first [done | discriminate Heq | lia | tauto].
Qed.

(** X7.  Scene and popup indices along a run: while a scene is shown its
    index is one of the scenes of the game, and while the artifact popup is
    open it belongs to the scene being shown and names an artifact placed
    in that scene, which has an entry in [ARTIFACT_INFO]. *)
Theorem popup_shows_artifact_of_scene (k : Culprit) (ticks : list (list Event * Z))
    (s0 s' : GameState) :
  (length clock_rects <= 6)%nat ->
  init k = Ok s0 -> run_frames ticks s0 = Ok s' ->
  (state s' = scene -> scene_index_ok (scenes s') (current_scene_index s'))
  /\ (state s' = artifact_popup ->
      scene_index_ok (scenes s') (current_scene_index s')
      /\ popup_scene_index s' = current_scene_index s'
      /\ exists sc art,
           scenes s' !! Z.to_nat (popup_scene_index s') = Some sc
           /\ art ∈ artifacts sc
           /\ spec_filename art = popup_artifact_filename s'
           /\ popup_artifact_filename s' ∈ ARTIFACT_INFO).
Proof.
  intros Hclocks Hinit Hrun.
  destruct (reachable_play _ _ _ _ Hclocks Hinit Hrun)
    as ((Hsc & _ & _ & _ & Hst) & Hscs & _).
  rewrite Hsc. split; intros Heq; rewrite Heq in Hst; [apply Hst|].
  destruct Hst as (_ & Hidx & Hpsi & sc & art & Hlook & Hart & Hfn).
  split; [done|]. split; [done|]. exists sc, art.
  split; [done|]. split; [done|]. split; [done|].
  destruct (built_scenes_facts _ _ Hscs) as (_ & _ & Hfacts & _).
  destruct (Hfacts sc (list_elem_of_lookup_2 _ _ _ Hlook)) as (_ & Hsound & _).
  rewrite Forall_forall in Hsound. specialize (Hsound art Hart).
  unfold artifact_sound in Hsound.
  apply andb_true_iff in Hsound as [Hsound _].
  apply andb_true_iff in Hsound as [Hsound _].
  apply andb_true_iff in Hsound as [Hsound _].
  apply andb_true_iff in Hsound as [Hsound _].
  apply bool_decide_eq_true in Hsound. by rewrite <- Hfn.
Qed.

(** X6.  The ending is final: once the state is [ending], every later
    frame, whatever the keys and clicks, leaves the state in [ending] and
    the clock, the ledger, the culprit and the scenes as they were. *)
Theorem ending_is_final (ticks : list (list Event * Z)) (s s' : GameState) :
  state s = ending -> run_frames ticks s = Ok s' ->
  state s' = ending
  /\ global_time s' = global_time s
  /\ snapshots s' = snapshots s
  /\ culprit s' = culprit s
  /\ scenes s' = scenes s.
Proof.
  intros Hst Hrun.
  apply run_frames_same in Hrun as Hsame. destruct Hsame as [Hsc Hk].
  assert (Hgoal : state s' = ending /\ same_play s s').
  { apply (run_frames_preserves (fun x => state x = ending /\ same_play s x)
             (fun _ => True) (fun _ => True)) with (ticks := ticks) (s := s);
      [| | |by repeat split|exact Hrun].
    - intros ev s1 s2 r _ [Hs1 Hp1] Hev.
      apply handle_event_frozen in Hev as Hf; [|done].
      destruct Hp1 as (? & ? & ? & ?), Hf as (? & ? & ? & ?).
      repeat split; congruence.
    - intros dt s1 s2 _ [Hs1 Hp1] Hup.
      apply update_frozen in Hup as Hf; [|done].
      destruct Hp1 as (? & ? & ? & ?), Hf as (? & ? & ? & ?).
      repeat split; congruence.
    - apply Forall_forall. intros tick _. split; [|done]. by apply Forall_forall. }
  destruct Hgoal as (? & _ & ? & ? & _). done.
Qed.

End Reached.

(** ** The countdown *)

Section Countdown.
Context `{AssetProvider}.

Lemma on_keydown_clock key s s' r :
  on_keydown key s = Ok (s', r) -> global_time s' = global_time s.
Proof.
  unfold on_keydown.
  destruct (bool_decide (key = K_ESCAPE)).
  { open_state s; fields. destruct st0; intros [= <- _]; reflexivity. }
  destruct (bool_decide (state s = ending)) eqn:Hend.
  { apply bool_decide_eq_true in Hend. intros Hu.
    by apply on_keydown_ending_frozen in Hu as (_ & ? & _). }
  destruct (bool_decide (state s = opening) && _).
  { intros [= <- _]. open_state s. unfold on_right_opening. fields.
    repeat case_match; reflexivity. }
  destruct (bool_decide (state s = scene) && _).
  { intros (s1 & Hs1 & Hu)%bind_Ok. injection Hu as <- _. revert Hs1.
    open_state s. unfold _take_snapshot. fields. intros Hu. res_cases; reflexivity. }
  destruct (bool_decide (state s = artifact_popup) && _).
  { intros [= <- _]. by destruct s. }
  by intros [= <- _].
Qed.

Lemma handle_artifact_popup_click_clock pos s s' :
  _handle_artifact_popup_click pos s = Ok s' -> global_time s' = global_time s.
Proof.
  open_state s. unfold _handle_artifact_popup_click, _take_snapshot_from_popup,
    _close_artifact_popup. fields.
  intros Hu. res_cases; fields; reflexivity.
Qed.

Lemma handle_scene_click_clock hit s s' :
  _handle_scene_click hit s = Ok s' -> global_time s' = global_time s.
Proof.
  open_state s. unfold _handle_scene_click, _get_artifact_index_at_pos,
    _load_popup_artifact_image. fields.
  intros Hu. res_cases; fields; repeat case_match; reflexivity.
Qed.

Lemma handle_menu_click_clock pos s :
  global_time (_handle_menu_click pos s) = global_time s.
Proof.
  open_state s. unfold _handle_menu_click, enter_scene, _start_ending. fields.
  repeat case_match; reflexivity.
Qed.

Lemma handle_event_clock ev s s' r :
  handle_event ev s = Ok (s', r) -> global_time s' = global_time s.
Proof.
  unfold handle_event. destruct ev as [|key|pos button hit|].
  - by intros [= <- _].
  - apply on_keydown_clock.
  - destruct (button =? 1); [|by intros [= <- _]].
    destruct (state s) eqn:Hst.
    + by intros [= <- _].
    + intros [= <- _]. apply handle_menu_click_clock.
    + intros (s1 & Hs1 & Hu)%bind_Ok. injection Hu as <- _.
      by eapply handle_scene_click_clock.
    + intros (s1 & Hs1 & Hu)%bind_Ok. injection Hu as <- _.
      by eapply handle_artifact_popup_click_clock.
    + by intros [= <- _].
    + intros [= Hu]. pose proof (on_click_ending_frozen pos s) as (_ & Ht & _).
      by rewrite Hu in Ht.
  - by intros [= <- _].
Qed.

Lemma update_global_timer_clock dt s :
  0 <= dt -> global_time (_update_global_timer dt s) <= global_time s.
Proof.
  open_state s. unfold _update_global_timer, _start_ending. fields. intros Hdt.
  repeat case_match; fields; tests; lia.
Qed.

Lemma update_clock dt s s' :
  0 <= dt -> update dt s = Ok s' -> global_time s' <= global_time s.
Proof.
  intros Hdt. unfold update. destruct (state s) eqn:Hst; intros Hu.
  - injection Hu as <-. open_state s. unfold _update_opening. fields.
    repeat case_match; fields; lia.
  - injection Hu as <-. by apply update_global_timer_clock.
  - unfold _update_scene in Hu. res_cases; by apply update_global_timer_clock.
  - injection Hu as <-. by apply update_global_timer_clock.
  - injection Hu as <-. open_state s. unfold _update_snapshot_effect. fields.
    repeat case_match; fields; lia.
  - injection Hu as <-. pose proof (update_ending_frozen dt s) as (_ & Ht & _). lia.
Qed.

(** X5.  The countdown never rises: over any ticks whose elapsed times are
    not negative, from any state, the remaining time at the end is at most
    the remaining time at the start; keys and clicks leave it as it is. *)
Theorem countdown_never_rises (ticks : list (list Event * Z)) (s s' : GameState) :
  ticks_ok (fun _ => True) (fun dt => 0 <= dt) ticks ->
  run_frames ticks s = Ok s' ->
  global_time s' <= global_time s
  /\ (forall ev s1 s2 r, handle_event ev s1 = Ok (s2, r) -> global_time s2 = global_time s1).
Proof.
  intros Hticks Hrun. split; [|apply handle_event_clock].
  apply (run_frames_preserves (fun x => global_time x <= global_time s)
           (fun _ => True) (fun dt => 0 <= dt)) with (ticks := ticks) (s := s);
    [| |done|lia|done].
  - intros ev s1 s2 r _ Hs1 Hev. apply handle_event_clock in Hev. lia.
  - intros dt s1 s2 Hdt Hs1 Hup. apply update_clock in Hup; [lia|done].
Qed.

End Countdown.

(** ** The properties of runs on the scripted runs *)

Lemma run_never_raises_witness :
  exists s0 s', @init all_assets Chef = Ok s0 /\ @run_frames all_assets undo_run s0 = Ok s'.
Proof.
  apply (@run_never_raises all_assets Chef undo_run).
  - simpl. lia.
  - intros s0 Hinit. vm_compute in Hinit. injection Hinit as <-.
    vm_compute. reflexivity.
Defined.

Lemma ledger_holds_captures_witness :
  (length (snapshots undo_state) <= MAX_SNAPSHOTS)%nat
  /\ Forall (capture_of (scenes undo_state)) (snapshots undo_state).
Proof.
  apply (@ledger_holds_captures all_assets Chef undo_run (start_state Chef) undo_state).
  - simpl. lia.
  - vm_compute; reflexivity.
  - vm_compute; reflexivity.
Defined.

Lemma only_the_culprit_scores_witness :
  Forall (fun sn => forall k', 0 <= snap_points k' sn
                               <= if bool_decide (k' = Chef) then 10 else 1)
    (snapshots undo_state)
  /\ (forall k', k' <> Chef -> 0 <= total_of k' (snapshots undo_state) <= 3)
  /\ 0 <= total_of Chef (snapshots undo_state) <= 30
  /\ (ending_slides (_start_ending undo_state) = success_branch
      <-> EVIDENCE_POINTS_REQUIRED <= total_of Chef (snapshots undo_state)).
Proof.
  apply (@only_the_culprit_scores all_assets Chef undo_run (start_state Chef) undo_state).
  - simpl. lia.
  - vm_compute; reflexivity.
  - vm_compute; reflexivity.
Defined.

Lemma clock_at_zero_is_the_ending_witness :
  0 <= global_time timeout_state
  /\ (state timeout_state <> ending -> 0 < global_time timeout_state)
  /\ (state timeout_state = opening ->
      global_time timeout_state = GLOBAL_TIME_LIMIT /\ snapshots timeout_state = []).
Proof.
  apply (@clock_at_zero_is_the_ending all_assets Chef timeout_run (start_state Chef)
           timeout_state).
  - simpl. lia.
  - vm_compute; reflexivity.
  - vm_compute; reflexivity.
Defined.

Lemma popup_shows_artifact_of_scene_witness :
  (state undo_state = scene ->
   scene_index_ok (scenes undo_state) (current_scene_index undo_state))
  /\ (state undo_state = artifact_popup ->
      scene_index_ok (scenes undo_state) (current_scene_index undo_state)
      /\ popup_scene_index undo_state = current_scene_index undo_state
      /\ exists sc art,
           scenes undo_state !! Z.to_nat (popup_scene_index undo_state) = Some sc
           /\ art ∈ artifacts sc
           /\ spec_filename art = popup_artifact_filename undo_state
           /\ popup_artifact_filename undo_state ∈ ARTIFACT_INFO).
Proof.
  apply (@popup_shows_artifact_of_scene all_assets Chef undo_run (start_state Chef)
           undo_state).
  - simpl. lia.
  - vm_compute; reflexivity.
  - vm_compute; reflexivity.
Defined.

Lemma ending_is_final_witness :
  state timeout_state = ending
  /\ state after_timeout_state = ending
  /\ global_time after_timeout_state = global_time timeout_state
  /\ snapshots after_timeout_state = snapshots timeout_state
  /\ culprit after_timeout_state = culprit timeout_state
  /\ scenes after_timeout_state = scenes timeout_state.
Proof.
  assert (Hst : state timeout_state = ending) by (vm_compute; reflexivity).
  split; [exact Hst|].
  apply (@ending_is_final all_assets after_timeout_run timeout_state after_timeout_state Hst).
  vm_compute; reflexivity.
Defined.

Lemma countdown_never_rises_witness :
  global_time undo_state <= global_time (start_state Chef)
  /\ (forall ev s1 s2 r,
        @handle_event all_assets ev s1 = Ok (s2, r) -> global_time s2 = global_time s1).
Proof.
  apply (@countdown_never_rises all_assets undo_run (start_state Chef) undo_state).
  - unfold undo_run, crystallize_at, press, click, wait. cbn [app].
    unfold ticks_ok. each_element; (split; [|cbv; discriminate]); each_element; exact I.
  - vm_compute; reflexivity.
Defined.

(** ** Artifacts of the scenes *)

Section Artifacts.
Context `{AssetProvider}.

Lemma build_scene_built_for (k : Culprit) (i : nat) (lbl : string) :
  build_scene (culprit_id k) i lbl
  = (built ← built_for k i; Ok (mkScene lbl (loaded_artifacts built))).
Proof.
  unfold build_scene, built_for.
  destruct (list_get artifact_specs i); [|done]. cbn [mbind pyres_bind].
  destruct (list_get tag_options i); done.
Qed.

Lemma loaded_artifact_path (built : list (AssetPath * SceneArtifact)) (art : SceneArtifact) :
  art ∈ loaded_artifacts built -> exists p, (p, art) ∈ built /\ loads p = true.
Proof.
  unfold loaded_artifacts. induction built as [|[p a] built IH]; simpl.
  - intros Hin. by apply elem_of_nil in Hin.
  - destruct (loads p) eqn:Hp; simpl.
    + intros [->|Hin]%elem_of_cons.
      * exists p. split; [left|done].
      * destruct (IH Hin) as (p' & ? & ?). exists p'. split; [by right|done].
    + intros Hin. destruct (IH Hin) as (p' & ? & ?). exists p'. split; [by right|done].
Qed.

End Artifacts.

(** Every artifact of the table is loaded from the file the popup reads. *)
Lemma built_paths (k : Culprit) (i : nat) (lbl : string) :
  labels !! i = Some lbl ->
  exists built,
    built_for k i = Ok built
    /\ Forall (fun pa => pa.1 = popup_path i (spec_filename pa.2)) built.
Proof.
  intros Hi.
  do 6 (destruct i as [|i];
        [destruct k; eexists; (split; [vm_compute; reflexivity|]);
         each_element; vm_compute; reflexivity|]).
  done.
Qed.

Section ArtifactProperties.
Context `{AssetProvider}.

Lemma artifact_image_loads (k : Culprit) (scs : list MemoryScene) (i : nat)
    (sc : MemoryScene) (art : SceneArtifact) :
  _build_scenes (culprit_id k) = Ok scs -> scs !! i = Some sc -> art ∈ artifacts sc ->
  loads (popup_path i (spec_filename art)) = true.
Proof.
  intros Hscs Hsc Hart.
  destruct (built_scenes_facts _ _ Hscs) as (Hsix & Hlbls & _).
  assert (Hlbl : labels !! i = Some (label sc)).
  { rewrite <- Hlbls. by rewrite list_lookup_fmap, Hsc. }
  destruct (build_scenes_from_lookup _ _ _ _ Hscs _ _ Hlbl) as (sc' & Hsc' & Hb).
  assert (sc' = sc) as -> by congruence.
  change (0 + i)%nat with i in Hb. rewrite build_scene_built_for in Hb.
  destruct (built_paths k i _ Hlbl) as (built & Hbuilt & Hpaths).
  rewrite Hbuilt in Hb. cbn [mbind pyres_bind] in Hb. injection Hb as Hb.
  rewrite <- Hb in Hart. cbn [artifacts] in Hart.
  apply loaded_artifact_path in Hart as (p & Hin & Hp).
  rewrite Forall_forall in Hpaths. specialize (Hpaths _ Hin). cbn [fst snd] in Hpaths.
  by rewrite <- Hpaths.
Qed.

(** X8.  The scenes of a game, for every culprit and whatever images
    load: there are six, with the six clock labels, each with at most three
    artifacts; no file name occurs twice; every artifact has an entry in
    [ARTIFACT_INFO], is worth 0, 1, 5 or 10 points, names no suspect
    exactly when it is a decoy (a file [r<digits>.png], worth nothing),
    names one of the three suspects otherwise, and is worth at most 1 point
    unless it points at the culprit. *)
Theorem built_scenes_are_sound (k : Culprit) :
  exists scs,
    _build_scenes (culprit_id k) = Ok scs
    /\ map label scs = labels
    /\ length scs = 6%nat
    /\ NoDup (concat (map (fun sc => map spec_filename (artifacts sc)) scs))
    /\ forall sc art, sc ∈ scs -> art ∈ artifacts sc ->
         (length (artifacts sc) <= 3)%nat
         /\ spec_filename art ∈ ARTIFACT_INFO
         /\ points art ∈ [0; 1; 5; 10]
         /\ (suspect_id art = EmptyString ->
             points art = 0 /\ is_replacement_name (spec_filename art) = true)
         /\ (suspect_id art <> EmptyString ->
             suspect_id art ∈ map culprit_id suspects
             /\ 0 < points art
             /\ is_replacement_name (spec_filename art) = false)
         /\ (suspect_id art <> culprit_id k -> points art <= 1).
Proof.
  destruct (is_Ok_true _ (build_scenes_ok k)) as (scs & Hscs).
  destruct (built_scenes_facts _ _ Hscs) as (Hsix & Hlbls & Hfacts & Hdup).
  exists scs. split; [done|]. split; [done|]. split; [done|]. split; [done|].
  intros sc art Hsc Hart. destruct (Hfacts sc Hsc) as (Hlen & Hsound & _).
  split; [done|].
  rewrite Forall_forall in Hsound. specialize (Hsound art Hart).
  pose proof (artifact_sound_points _ _ Hsound) as [_ Hlow].
  unfold artifact_sound in Hsound.
  apply andb_true_iff in Hsound as [Hsound _].
  apply andb_true_iff in Hsound as [Hsound Hdecoy].
  apply andb_true_iff in Hsound as [Hsound Hsus%bool_decide_eq_true].
  apply andb_true_iff in Hsound as [Hinfo%bool_decide_eq_true Hpts%bool_decide_eq_true].
  split; [exact Hinfo|]. split; [exact Hpts|]. clear Hinfo.
  destruct (String.eqb_spec (suspect_id art) EmptyString) as [Heq|Hne].
  - apply andb_true_iff in Hdecoy as [Hz%Z.eqb_eq Hr].
    split; [intros _; split; [exact Hz|exact Hr]|].
    split; [intros Hc; contradiction|exact Hlow].
  - apply andb_true_iff in Hdecoy as [Hz%Z.ltb_lt Hr%negb_true_iff].
    split; [intros Hc; contradiction|]. split; [|exact Hlow]. intros _.
    split; [|split; [exact Hz|exact Hr]].
    apply elem_of_cons in Hsus as [Hs|Hs]; [contradiction|exact Hs].
Qed.

End ArtifactProperties.

(** ** Opening the popup and crystallizing from it *)

(** Turns the hit tests of rectangles into inequalities. *)
Ltac rects :=
  unfold collidepoint, popup_x_btn, cryst_btn, uncryst_btn, close_btn, popup_btn_y,
    popup_box, accuse_rect, WIDTH, HEIGHT, SCENE_HEIGHT in *;
  cbn [left top width height] in *;
  change ((1100 - 520) / 2) with 290 in *;
  change ((504 - 440) / 2) with 32 in *;
  repeat match goal with
  | H : _ && _ = true |- _ => apply andb_true_iff in H as [? ?]
  | H : _ && _ = false |- _ => apply andb_false_iff in H
  | H : (_ <=? _) = true |- _ => apply Z.leb_le in H
  | H : (_ <=? _) = false |- _ => apply Z.leb_gt in H
  | H : (_ <? _) = true |- _ => apply Z.ltb_lt in H
  | H : (_ <? _) = false |- _ => apply Z.ltb_ge in H
  | |- _ && _ = true => apply andb_true_iff; split
  | |- (_ <=? _) = true => apply Z.leb_le
  | |- (_ <? _) = true => apply Z.ltb_lt
  end.

Lemma collidepoint_false (r : Rect) (p : Z * Z) :
  collidepoint r p = false
  <-> p.1 < left r \/ left r + width r <= p.1 \/ p.2 < top r \/ top r + height r <= p.2.
Proof.
  unfold collidepoint. rewrite !andb_false_iff, !Z.leb_gt, !Z.ltb_ge. tauto.
Qed.

Lemma collidepoint_true (r : Rect) (p : Z * Z) :
  collidepoint r p = true
  <-> left r <= p.1 < left r + width r /\ top r <= p.2 < top r + height r.
Proof.
  unfold collidepoint. rewrite !andb_true_iff, !Z.leb_le, !Z.ltb_lt. tauto.
Qed.

(** The four buttons of the popup lie inside its panel and apart from one
    another. *)
Lemma popup_buttons (pos : Z * Z) :
  (collidepoint popup_x_btn pos = true \/ collidepoint cryst_btn pos = true
   \/ collidepoint uncryst_btn pos = true \/ collidepoint close_btn pos = true ->
   collidepoint popup_box pos = true)
  /\ (collidepoint cryst_btn pos = true ->
      collidepoint popup_x_btn pos = false /\ collidepoint uncryst_btn pos = false
      /\ collidepoint close_btn pos = false)
  /\ (collidepoint uncryst_btn pos = true ->
      collidepoint popup_x_btn pos = false /\ collidepoint cryst_btn pos = false
      /\ collidepoint close_btn pos = false)
  /\ (collidepoint close_btn pos = true ->
      collidepoint popup_x_btn pos = false /\ collidepoint cryst_btn pos = false
      /\ collidepoint uncryst_btn pos = false).
Proof.
  rewrite !collidepoint_true, !collidepoint_false.
  unfold popup_x_btn, cryst_btn, uncryst_btn, close_btn, popup_btn_y, popup_box,
    WIDTH, SCENE_HEIGHT. cbn [left top width height].
  change ((1100 - 520) / 2) with 290. change ((504 - 440) / 2) with 32.
  lia.
Qed.

Lemma NoDup_concat_elem {A} (ls : list (list A)) (l : list A) :
  NoDup (concat ls) -> l ∈ ls -> NoDup l.
Proof.
  induction ls as [|x ls IH]; simpl; intros Hd Hin.
  - by apply elem_of_nil in Hin.
  - apply NoDup_app in Hd as (Hx & _ & Hls).
    apply elem_of_cons in Hin as [->|Hin]; auto.
Qed.

Lemma find_by_name (l : list SceneArtifact) (art : SceneArtifact) :
  NoDup (map spec_filename l) -> art ∈ l ->
  find (fun a => String.eqb (spec_filename a) (spec_filename art)) l = Some art.
Proof.
  induction l as [|x l IH]; simpl; intros Hd Hin.
  - by apply elem_of_nil in Hin.
  - apply NoDup_cons in Hd as [Hx Hd].
    apply elem_of_cons in Hin as [->|Hin].
    + by rewrite String.eqb_refl.
    + destruct (String.eqb_spec (spec_filename x) (spec_filename art)) as [Heq|Hne].
      * exfalso. apply Hx. rewrite Heq. by apply list_elem_of_fmap_2.
      * auto.
Qed.

Lemma pop_last_match_snoc {A} (p : A -> bool) (l : list A) (x : A) :
  p x = true -> pop_last_match p (l ++ [x]) = Some l.
Proof.
  intros Hx. induction l as [|y l IH]; simpl.
  - by rewrite Hx.
  - by rewrite IH.
Qed.

Lemma artifact_sound_info (k : Culprit) (art : SceneArtifact) :
  artifact_sound k art = true ->
  bool_decide (spec_filename art ∈ ARTIFACT_INFO) = true
  /\ String.eqb (spec_filename art) EmptyString = false.
Proof.
  unfold artifact_sound. intros Ha.
  apply andb_true_iff in Ha as [Ha _].
  apply andb_true_iff in Ha as [Ha _].
  apply andb_true_iff in Ha as [Ha _].
  apply andb_true_iff in Ha as [Ha _].
  split; [exact Ha|].
  destruct (String.eqb_spec (spec_filename art) EmptyString) as [Heq|Hne]; [|done].
  rewrite Heq in Ha. vm_compute in Ha. discriminate Ha.
Qed.

Section Popup.
Context `{AssetProvider}.

Lemma scene_artifact_facts (k : Culprit) (scs : list MemoryScene) (i : nat)
    (sc : MemoryScene) (art : SceneArtifact) :
  _build_scenes (culprit_id k) = Ok scs -> scs !! i = Some sc -> art ∈ artifacts sc ->
  artifact_sound k art = true
  /\ NoDup (map spec_filename (artifacts sc))
  /\ loads (popup_path i (spec_filename art)) = true.
Proof.
  intros Hscs Hsc Hart.
  destruct (built_scenes_facts _ _ Hscs) as (_ & _ & Hfacts & Hdup).
  pose proof (list_elem_of_lookup_2 _ _ _ Hsc) as Hin.
  destruct (Hfacts sc Hin) as (_ & Hsound & _).
  rewrite Forall_forall in Hsound.
  split; [by apply Hsound|]. split; [|by eapply artifact_image_loads].
  eapply NoDup_concat_elem; [exact Hdup|].
  apply (list_elem_of_fmap_2 (fun sc => map spec_filename (artifacts sc))). exact Hin.
Qed.

(** X9.  Every artifact shown in a scene can be inspected: a click on the
    artifact [j] of the current scene opens the popup on that artifact, for
    that scene, and the larger image the popup reads is the file the scene
    showed (a decoy from [replacements], the others from the folder of the
    scene), so it loads. *)
Theorem scene_click_opens_popup (k : Culprit) (s : GameState) (i j : nat)
    (sc : MemoryScene) (art : SceneArtifact) :
  _build_scenes (culprit_id k) = Ok (scenes s) ->
  current_scene_index s = Z.of_nat i ->
  scenes s !! i = Some sc -> artifacts sc !! j = Some art ->
  _handle_scene_click (Z.of_nat j) s
  = Ok (s |> set_popup_artifact_filename (spec_filename art)
          |> set_popup_scene_index (Z.of_nat i)
          |> set_popup_artifact_surface (Some (popup_path i (spec_filename art)))
          |> set_state artifact_popup)
  /\ loads (popup_path i (spec_filename art)) = true.
Proof.
  intros Hscs Hcsi Hsc Hart.
  destruct (scene_artifact_facts k _ i sc art Hscs Hsc (list_elem_of_lookup_2 _ _ _ Hart))
    as (Hsound & _ & Hloads).
  destruct (artifact_sound_info _ _ Hsound) as [Hinfo Hname].
  split; [|exact Hloads]. clear Hscs Hsound.
  assert (Hpy1 : py_index (scenes s) (Z.of_nat i) = Ok sc).
  { destruct (py_index_in_range (scenes s) (Z.of_nat i)) as (x & Hx & Hl).
    - apply lookup_lt_Some in Hsc. lia.
    - rewrite Nat2Z.id in Hl. congruence. }
  assert (Hpy2 : py_index (artifacts sc) (Z.of_nat j) = Ok art).
  { destruct (py_index_in_range (artifacts sc) (Z.of_nat j)) as (x & Hx & Hl).
    - apply lookup_lt_Some in Hart. lia.
    - rewrite Nat2Z.id in Hl. congruence. }
  revert Hcsi Hpy1. open_state s.
  unfold _handle_scene_click, _get_artifact_index_at_pos, _load_popup_artifact_image.
  fields. intros -> Hpy1.
  replace (Z.of_nat i <? 0) with false by (symmetry; apply Z.ltb_ge; lia).
  rewrite Hpy1. cbn [mbind pyres_bind].
  replace (Z.of_nat j <? 0) with false by (symmetry; apply Z.ltb_ge; lia).
  rewrite Hpy2. cbn [mbind pyres_bind].
  rewrite Hname, Hinfo. cbn [negb orb]. fields. rewrite Nat2Z.id.
  unfold popup_path in Hloads |- *.
  destruct (is_replacement_name (Py.lower (spec_filename art)));
    rewrite Hloads; reflexivity.
Qed.

(** The Crystallize button on an artifact of the scene of the popup. *)
Lemma crystallize_click (k : Culprit) (s : GameState) (i : nat)
    (sc : MemoryScene) (art : SceneArtifact) (pos : Z * Z) :
  _build_scenes (culprit_id k) = Ok (scenes s) ->
  popup_scene_index s = Z.of_nat i ->
  scenes s !! i = Some sc -> art ∈ artifacts sc ->
  popup_artifact_filename s = spec_filename art ->
  (length (snapshots s) < MAX_SNAPSHOTS)%nat ->
  collidepoint cryst_btn pos = true ->
  _handle_artifact_popup_click pos s
  = Ok (s |> set_snapshot_effect_time 0
          |> set_snapshots (snapshots s ++ [artifact_capture sc art])
          |> set_state snapshot_effect
          |> set_popup_artifact_filename EmptyString
          |> set_popup_scene_index (-1)
          |> set_popup_artifact_surface None).
Proof.
  intros Hscs Hpsi Hsc Hart Hfn Hroom Hpos.
  destruct (scene_artifact_facts k _ i sc art Hscs Hsc Hart) as (_ & Hdup & _).
  pose proof (find_by_name _ _ Hdup Hart) as Hfind.
  destruct (popup_buttons pos) as (_ & Hcryst & _).
  destruct (Hcryst Hpos) as (Hx & _).
  assert (Hpy : py_index (scenes s) (Z.of_nat i) = Ok sc).
  { destruct (py_index_in_range (scenes s) (Z.of_nat i)) as (x & Hx' & Hl).
    - apply lookup_lt_Some in Hsc. lia.
    - rewrite Nat2Z.id in Hl. congruence. }
  clear Hscs Hdup Hcryst.
  revert Hpsi Hfn Hroom Hpy. open_state s.
  unfold _handle_artifact_popup_click, _take_snapshot_from_popup. fields.
  intros -> -> Hroom Hpy. rewrite Hx, Hpos.
  replace (0 <=? Z.of_nat i) with true by (symmetry; apply Z.leb_le; lia).
  rewrite Hpy. cbn [mbind pyres_bind].
  apply Nat.ltb_lt in Hroom as Hlt. rewrite Hlt.
  replace (MAX_SNAPSHOTS <=? length snaps0)%nat with false
    by (symmetry; apply Nat.leb_gt; lia).
  replace (Z.of_nat i <? 0) with false by (symmetry; apply Z.ltb_ge; lia).
  cbn [mbind pyres_bind]. fields. rewrite Hfind. reflexivity.
Qed.


(** X10.  The Crystallize button scores the artifact that was opened: in a
    popup on an artifact of its scene, with room left in the ledger, a
    click on the button appends exactly the capture of that artifact (its
    tags, the label of the scene, its points for its own suspect and
    nothing for the others, and its file name as the trigger), starts the
    freeze effect and clears the popup. *)
Theorem crystallize_scores_the_opened_artifact (k : Culprit) (s : GameState) (i : nat)
    (sc : MemoryScene) (art : SceneArtifact) (pos : Z * Z) :
  _build_scenes (culprit_id k) = Ok (scenes s) ->
  popup_scene_index s = Z.of_nat i ->
  scenes s !! i = Some sc -> art ∈ artifacts sc ->
  popup_artifact_filename s = spec_filename art ->
  (length (snapshots s) < MAX_SNAPSHOTS)%nat ->
  collidepoint cryst_btn pos = true ->
  _handle_artifact_popup_click pos s
  = Ok (s |> set_snapshot_effect_time 0
          |> set_snapshots (snapshots s ++ [artifact_capture sc art])
          |> set_state snapshot_effect
          |> set_popup_artifact_filename EmptyString
          |> set_popup_scene_index (-1)
          |> set_popup_artifact_surface None).
Proof. apply crystallize_click. Qed.

(** The Uncrystallize button on a ledger that ends with a capture of the
    opened artifact. *)
Lemma uncrystallize_last (s s2 : GameState) (i : nat)
    (sc : MemoryScene) (art : SceneArtifact) (pos : Z * Z) :
  scenes s2 !! i = Some sc ->
  popup_scene_index s2 = Z.of_nat i ->
  popup_artifact_filename s2 = spec_filename art ->
  snapshots s2 = (snapshots s ++ [artifact_capture sc art])%list ->
  collidepoint uncryst_btn pos = true ->
  _handle_artifact_popup_click pos s2
  = Ok (_close_artifact_popup (set_snapshots (snapshots s) s2)).
Proof.
  intros Hsc Hpsi Hfn Hsnaps Hpos.
  destruct (popup_buttons pos) as (_ & _ & Hun & _).
  destruct (Hun Hpos) as (Hx & Hc & _).
  assert (Hpy : py_index (scenes s2) (Z.of_nat i) = Ok sc).
  { destruct (py_index_in_range (scenes s2) (Z.of_nat i)) as (x & Hx' & Hl).
    - apply lookup_lt_Some in Hsc. lia.
    - rewrite Nat2Z.id in Hl. congruence. }
  unfold _handle_artifact_popup_click. rewrite Hx, Hc, Hpos, Hpsi.
  replace (0 <=? Z.of_nat i) with true by (symmetry; apply Z.leb_le; lia).
  rewrite Hpy. cbn [mbind pyres_bind]. rewrite Hsnaps, Hfn.
  assert (Hcan : can_uncrystallize (label sc) (spec_filename art)
                   (snapshots s ++ [artifact_capture sc art]) = true).
  { unfold can_uncrystallize. rewrite existsb_app. apply orb_true_iff. right.
    cbn [existsb artifact_capture scene_label trigger_artifact_filename].
    by rewrite !String.eqb_refl. }
  rewrite Hcan. cbn [andb].
  rewrite pop_last_match_snoc; [reflexivity|].
  cbn [artifact_capture scene_label]. apply String.eqb_refl.
Qed.


(** X11.  Undo right after a capture restores the ledger: after the
    Crystallize button has appended the capture of the opened artifact,
    the Uncrystallize button of a popup on the same artifact and scene is
    permitted, removes exactly that capture, so that the ledger is the one
    before the capture, and returns to the scene with the popup closed. *)
Theorem uncrystallize_undoes_crystallize (k : Culprit) (s s1 s2 : GameState) (i : nat)
    (sc : MemoryScene) (art : SceneArtifact) (pos1 pos2 : Z * Z) :
  _build_scenes (culprit_id k) = Ok (scenes s) ->
  popup_scene_index s = Z.of_nat i ->
  scenes s !! i = Some sc -> art ∈ artifacts sc ->
  popup_artifact_filename s = spec_filename art ->
  (length (snapshots s) < MAX_SNAPSHOTS)%nat ->
  collidepoint cryst_btn pos1 = true ->
  _handle_artifact_popup_click pos1 s = Ok s1 ->
  scenes s2 = scenes s ->
  snapshots s2 = snapshots s1 ->
  popup_scene_index s2 = Z.of_nat i ->
  popup_artifact_filename s2 = spec_filename art ->
  collidepoint uncryst_btn pos2 = true ->
  exists s3,
    _handle_artifact_popup_click pos2 s2 = Ok s3
    /\ snapshots s3 = snapshots s
    /\ state s3 = scene
    /\ popup_artifact_filename s3 = EmptyString
    /\ popup_scene_index s3 = -1.
Proof.
  intros Hscs Hpsi Hsc Hart Hfn Hroom Hpos1 Hs1 Hscenes Hsnaps Hpsi2 Hfn2 Hpos2.
  rewrite (crystallize_click k s i sc art pos1 Hscs Hpsi Hsc Hart Hfn Hroom Hpos1) in Hs1.
  injection Hs1 as <-.
  assert (Hsnaps' : snapshots s2 = (snapshots s ++ [artifact_capture sc art])%list)
    by (rewrite Hsnaps; by destruct s).
  rewrite <- Hscenes in Hsc.
  rewrite (uncrystallize_last s s2 i sc art pos2 Hsc Hpsi2 Hfn2 Hsnaps' Hpos2).
  eexists. split; [reflexivity|]. by destruct s2.
Qed.

(** X12.  A click outside the panel of the popup closes it and leaves the
    ledger as it is, and a click on the panel that hits none of its four
    buttons changes nothing; the buttons lie inside the panel and apart
    from one another, so a click presses at most one of them. *)
Theorem popup_click_off_the_buttons (s : GameState) (pos : Z * Z) (sc : MemoryScene) :
  py_index (scenes s) (popup_scene_index s) = Ok sc ->
  (collidepoint popup_box pos = false ->
   _handle_artifact_popup_click pos s = Ok (_close_artifact_popup s))
  /\ (collidepoint popup_box pos = true ->
      collidepoint popup_x_btn pos = false -> collidepoint cryst_btn pos = false ->
      collidepoint uncryst_btn pos = false -> collidepoint close_btn pos = false ->
      _handle_artifact_popup_click pos s = Ok s)
  /\ (collidepoint popup_x_btn pos = true \/ collidepoint cryst_btn pos = true
      \/ collidepoint uncryst_btn pos = true \/ collidepoint close_btn pos = true ->
      collidepoint popup_box pos = true)
  /\ (collidepoint popup_x_btn pos && collidepoint cryst_btn pos = false)
  /\ (collidepoint popup_x_btn pos && collidepoint uncryst_btn pos = false)
  /\ (collidepoint popup_x_btn pos && collidepoint close_btn pos = false)
  /\ (collidepoint cryst_btn pos && collidepoint uncryst_btn pos = false)
  /\ (collidepoint cryst_btn pos && collidepoint close_btn pos = false)
  /\ (collidepoint uncryst_btn pos && collidepoint close_btn pos = false).
Proof.
  intros Hpy.
  destruct (popup_buttons pos) as (Hin & Hc & Hu & Hcl).
  split; [|split; [|split; [exact Hin|]]].
  - intros Hout. unfold _handle_artifact_popup_click.
    destruct (collidepoint popup_x_btn pos) eqn:Hx; [reflexivity|].
    destruct (collidepoint cryst_btn pos) eqn:Hcr;
      [rewrite Hin in Hout by auto; discriminate|].
    destruct (collidepoint uncryst_btn pos) eqn:Hun;
      [rewrite Hin in Hout by auto; discriminate|].
    destruct (collidepoint close_btn pos) eqn:Hclose;
      [rewrite Hin in Hout by auto; discriminate|].
    rewrite Hout. cbn [andb negb].
    destruct (0 <=? popup_scene_index s); [rewrite Hpy|]; reflexivity.
  - intros Hbox Hx Hcr Hun Hclose. unfold _handle_artifact_popup_click.
    rewrite Hx, Hcr, Hun, Hclose, Hbox. cbn [andb negb].
    destruct (0 <=? popup_scene_index s); [rewrite Hpy|]; reflexivity.
  - destruct (collidepoint popup_x_btn pos) eqn:Hx,
      (collidepoint cryst_btn pos) eqn:Hcr,
      (collidepoint uncryst_btn pos) eqn:Hun,
      (collidepoint close_btn pos) eqn:Hclose; cbn [andb];
      repeat split; try reflexivity; exfalso;
      first [destruct (Hc eq_refl) as (? & ? & ?); congruence
            | destruct (Hu eq_refl) as (? & ? & ?); congruence
            | destruct (Hcl eq_refl) as (? & ? & ?); congruence].
Qed.

End Popup.

(** ** The popup on the scripted runs *)

Lemma scene_click_opens_popup_witness :
  @_handle_scene_click all_assets (Z.of_nat 0) scene_state
  = Ok (scene_state
          |> set_popup_artifact_filename (spec_filename first_artifact)
          |> set_popup_scene_index (Z.of_nat 0)
          |> set_popup_artifact_surface
               (Some (popup_path 0 (spec_filename first_artifact)))
          |> set_state artifact_popup)
  /\ @loads all_assets (popup_path 0 (spec_filename first_artifact)) = true.
Proof.
  apply (@scene_click_opens_popup all_assets Chef scene_state 0 0 first_scene first_artifact).
  - vm_compute; reflexivity.
  - vm_compute; reflexivity.
  - vm_compute; reflexivity.
  - vm_compute; reflexivity.
Defined.

Lemma crystallize_scores_the_opened_artifact_witness :
  _handle_artifact_popup_click (320, 420) popup_state
  = Ok (popup_state
          |> set_snapshot_effect_time 0
          |> set_snapshots (snapshots popup_state ++ [artifact_capture first_scene first_artifact])
          |> set_state snapshot_effect
          |> set_popup_artifact_filename EmptyString
          |> set_popup_scene_index (-1)
          |> set_popup_artifact_surface None).
Proof.
  apply (@crystallize_scores_the_opened_artifact all_assets Chef popup_state 0 first_scene
           first_artifact (320, 420)).
  - vm_compute; reflexivity.
  - vm_compute; reflexivity.
  - vm_compute; reflexivity.
  - apply (list_elem_of_lookup_2 _ 0%nat). vm_compute; reflexivity.
  - vm_compute; reflexivity.
  - vm_compute. lia.
  - vm_compute; reflexivity.
Defined.

Lemma uncrystallize_undoes_crystallize_witness :
  exists s3,
    _handle_artifact_popup_click (480, 420) reopened_state = Ok s3
    /\ snapshots s3 = snapshots popup_state
    /\ state s3 = scene
    /\ popup_artifact_filename s3 = EmptyString
    /\ popup_scene_index s3 = -1.
Proof.
  apply (@uncrystallize_undoes_crystallize all_assets Chef popup_state crystallized_state
           reopened_state 0 first_scene first_artifact (320, 420) (480, 420)).
  - vm_compute; reflexivity.
  - vm_compute; reflexivity.
  - vm_compute; reflexivity.
  - apply (list_elem_of_lookup_2 _ 0%nat). vm_compute; reflexivity.
  - vm_compute; reflexivity.
  - vm_compute. lia.
  - vm_compute; reflexivity.
  - vm_compute; reflexivity.
  - vm_compute; reflexivity.
  - vm_compute; reflexivity.
  - vm_compute; reflexivity.
  - vm_compute; reflexivity.
  - vm_compute; reflexivity.
Defined.

Lemma popup_click_off_the_buttons_witness :
  collidepoint popup_box (0, 0) = false
  /\ _handle_artifact_popup_click (0, 0) popup_state
     = Ok (_close_artifact_popup popup_state).
Proof.
  split; [vm_compute; reflexivity|].
  apply (proj1 (popup_click_off_the_buttons popup_state (0, 0) first_scene
                  ltac:(vm_compute; reflexivity))).
  vm_compute; reflexivity.
Defined.

(** ** The clock menu *)

Lemma find_index_from_first {A} (p : nat -> A -> bool) (l : list A) :
  forall k i x,
    l !! i = Some x -> p (k + i)%nat x = true ->
    (forall j y, (j < i)%nat -> l !! j = Some y -> p (k + j)%nat y = false) ->
    find_index_from p k l = Some (k + i)%nat.
Proof.
  induction l as [|a l IH]; intros k i x Hi Hp Hbefore; [done|].
  destruct i as [|i]; simpl in Hi |- *.
  - injection Hi as ->. rewrite Nat.add_0_r in Hp |- *. by rewrite Hp.
  - pose proof (Hbefore 0%nat a ltac:(lia) eq_refl) as H0.
    rewrite Nat.add_0_r in H0. rewrite H0.
    replace (k + S i)%nat with (S k + i)%nat in Hp |- * by lia.
    apply (IH (S k) i x Hi Hp).
    intros j y Hj Hy. replace (S k + j)%nat with (k + S j)%nat by lia.
    apply Hbefore; [lia|done].
Qed.

Lemma find_index_from_none {A} (p : nat -> A -> bool) (l : list A) :
  forall k,
    (forall j y, l !! j = Some y -> p (k + j)%nat y = false) ->
    find_index_from p k l = None.
Proof.
  induction l as [|a l IH]; intros k Hall; [done|]. simpl.
  pose proof (Hall 0%nat a eq_refl) as H0. rewrite Nat.add_0_r in H0. rewrite H0.
  apply IH. intros j y Hy. replace (S k + j)%nat with (k + S j)%nat by lia.
  by apply Hall.
Qed.

Lemma disc_bounds (dx dy r : Z) :
  0 <= r -> dx * dx + dy * dy <= r * r -> (- r <= dx <= r) /\ (- r <= dy <= r).
Proof.
  intros Hr Hd.
  assert (0 <= dx * dx) by nia. assert (0 <= dy * dy) by nia.
  repeat split.
  - destruct (Z_le_gt_dec (- r) dx); [assumption|]. exfalso.
    assert (r * r < dx * dx) by nia. lia.
  - destruct (Z_le_gt_dec dx r); [assumption|]. exfalso.
    assert (r * r < dx * dx) by nia. lia.
  - destruct (Z_le_gt_dec (- r) dy); [assumption|]. exfalso.
    assert (r * r < dy * dy) by nia. lia.
  - destruct (Z_le_gt_dec dy r); [assumption|]. exfalso.
    assert (r * r < dy * dy) by nia. lia.
Qed.

Lemma clock_center_cases (idx : nat) :
  (idx < 6)%nat ->
  exists cx cy, _clock_center idx = (cx, cy)
    /\ (cx = 350 \/ cx = 550 \/ cx = 750) /\ (cy = 260 \/ cy = 460)
    /\ cx = 350 + 200 * (Z.of_nat idx mod 3) /\ cy = 260 + 200 * (Z.of_nat idx / 3).
Proof.
  intros Hidx.
  do 6 (destruct idx as [|idx];
        [eexists _, _; split; [vm_compute; reflexivity|];
         repeat split; vm_compute; first [reflexivity | lia]|]).
  lia.
Qed.

(** Two clocks do not overlap, and none reaches the accuse button. *)
Lemma clocks_apart (i j : nat) (pos : Z * Z) :
  (i < 6)%nat -> (j < 6)%nat -> on_clock i pos ->
  (on_clock j pos -> i = j) /\ collidepoint accuse_rect pos = false.
Proof.
  intros Hi Hj. unfold on_clock, CLOCK_RADIUS.
  destruct (clock_center_cases i Hi) as (cx & cy & -> & Hcx & Hcy & Hx & Hy).
  destruct (clock_center_cases j Hj) as (cx' & cy' & -> & Hcx' & Hcy' & Hx' & Hy').
  cbn [fst snd]. intros Hin.
  destruct (disc_bounds _ _ 52 ltac:(lia) Hin) as [Hdx Hdy].
  split.
  - intros Hin'.
    destruct (disc_bounds _ _ 52 ltac:(lia) Hin') as [Hdx' Hdy'].
    assert (cx = cx') by lia. assert (cy = cy') by lia.
    assert (Hmod : Z.of_nat i mod 3 = Z.of_nat j mod 3) by lia.
    assert (Hdiv : Z.of_nat i / 3 = Z.of_nat j / 3) by lia.
    pose proof (Z.div_mod (Z.of_nat i) 3 ltac:(lia)).
    pose proof (Z.div_mod (Z.of_nat j) 3 ltac:(lia)). lia.
  - apply collidepoint_false. unfold accuse_rect, WIDTH, HEIGHT.
    cbn [left top width height]. lia.
Qed.

Section Menu.
Context `{AssetProvider}.

(** X13.  The clock grid of the menu, when the six clock images are not
    all available: with time left, a click within the radius of clock
    [idx] enters scene [idx]; the six discs do not overlap and stay clear
    of the accuse button, so the scene entered does not depend on the
    order of the hit tests; a click on the accuse button starts the ending
    at once, whatever the ledger holds; and a click on neither changes
    nothing. *)
Theorem menu_click_enters_the_clicked_clock (s : GameState) (pos : Z * Z) :
  length (scenes s) = 6%nat ->
  0 < global_time s ->
  (6 <=? length clock_rects)%nat && forallb (fun r => 0 <? width r) (take 6 clock_rects)
  = false ->
  (forall idx, (idx < 6)%nat -> on_clock idx pos ->
     _handle_menu_click pos s = enter_scene idx s)
  /\ (forall i j, (i < 6)%nat -> (j < 6)%nat -> on_clock i pos -> on_clock j pos -> i = j)
  /\ (collidepoint accuse_rect pos = true -> _handle_menu_click pos s = _start_ending s)
  /\ (collidepoint accuse_rect pos = false ->
      (forall idx, (idx < 6)%nat -> ~ on_clock idx pos) ->
      _handle_menu_click pos s = s).
Proof.
  intros Hsix Htime Hgrid.
  assert (Hpos : (global_time s <=? 0) = false) by (apply Z.leb_gt; lia).
  split; [|split; [|split]].
  - intros idx Hidx Hin.
    destruct (clocks_apart idx idx pos Hidx Hidx Hin) as [_ Hacc].
    unfold _handle_menu_click. rewrite Hacc, Hpos, Hgrid.
    destruct (lookup_lt_is_Some_2 (scenes s) idx ltac:(lia)) as (sc & Hsc).
    rewrite (find_index_from_first _ (scenes s) 0%nat idx sc Hsc); [reflexivity| |].
    + cbn [Nat.add]. apply Z.leb_le. exact Hin.
    + intros j y Hj Hy. cbn [Nat.add]. apply Z.leb_gt.
      destruct (Z.le_gt_cases
                  ((pos.1 - (_clock_center j).1) * (pos.1 - (_clock_center j).1)
                   + (pos.2 - (_clock_center j).2) * (pos.2 - (_clock_center j).2))
                  (CLOCK_RADIUS * CLOCK_RADIUS)) as [Hle|Hgt]; [|lia].
      destruct (clocks_apart idx j pos Hidx ltac:(lia) Hin) as [Heq _].
      specialize (Heq Hle). lia.
  - intros i j Hi Hj Hini Hinj. by apply (clocks_apart i j pos).
  - intros Hacc. unfold _handle_menu_click. by rewrite Hacc.
  - intros Hacc Hnone. unfold _handle_menu_click. rewrite Hacc, Hpos, Hgrid.
    rewrite find_index_from_none; [reflexivity|].
    intros j y Hy. cbn [Nat.add]. apply Z.leb_gt.
    apply lookup_lt_Some in Hy. rewrite Hsix in Hy.
    specialize (Hnone j Hy). unfold on_clock in Hnone. cbv zeta in Hnone. lia.
Qed.

End Menu.

Lemma menu_click_enters_the_clicked_clock_witness :
  on_clock 4 (560, 470)
  /\ @_handle_menu_click all_assets (560, 470) menu_state = enter_scene 4 menu_state.
Proof.
  assert (Hon : on_clock 4 (560, 470)) by (vm_compute; discriminate).
  split; [exact Hon|].
  apply (proj1 (@menu_click_enters_the_clicked_clock all_assets menu_state (560, 470)
                  ltac:(vm_compute; reflexivity) ltac:(vm_compute; reflexivity)
                  ltac:(vm_compute; reflexivity)));
    [lia|exact Hon].
Defined.

(** ** The memories row and the exit prompt *)

Lemma ending_memory_rects_lookup (s : GameState) (i : nat) (snap : Snapshot) :
  snapshots s !! i = Some snap ->
  _ending_memory_rects s !! i = Some (memory_rect (length (snapshots s)) i).
Proof.
  intros Hi. unfold _ending_memory_rects. rewrite list_lookup_imap, Hi. reflexivity.
Qed.

Lemma ending_memory_rects_inv (s : GameState) (j : nat) (r : Rect) :
  _ending_memory_rects s !! j = Some r -> r = memory_rect (length (snapshots s)) j.
Proof.
  unfold _ending_memory_rects. rewrite list_lookup_imap.
  destruct (snapshots s !! j); [|done]. by intros [= <-].
Qed.

Section Memories.
Context `{AssetProvider}.

Lemma load_ending_popup_artifact_fields (i : nat) (s : GameState) :
  let s' := _load_ending_popup_artifact i s in
  ending_memory_popup_index s' = ending_memory_popup_index s
  /\ popup_artifact_filename s' = popup_artifact_filename s
  /\ ending_index s' = ending_index s
  /\ ending_slides s' = ending_slides s
  /\ snapshots s' = snapshots s
  /\ state s' = state s.
Proof.
  open_state s. unfold _load_ending_popup_artifact. fields.
  repeat case_match; fields; repeat split; reflexivity.
Qed.

(** X14.  The thumbnails of the ending: a click on the thumbnail of
    snapshot [i], when no exit is offered and no memory popup is open,
    opens the memory popup on snapshot [i] with the file name of the
    artifact that triggered it (empty for a capture made with the key S)
    and leaves the slide as it is; this does not depend on the slide
    showing the memories row.  The thumbnails do not overlap, and with at
    most three snapshots they lie on the screen. *)
Theorem ending_memory_click_opens_its_snapshot (s : GameState) (pos : Z * Z) (i : nat)
    (snap : Snapshot) :
  exit_offered s = false ->
  ending_memory_popup_index s < 0 ->
  snapshots s !! i = Some snap ->
  collidepoint (memory_rect (length (snapshots s)) i) pos = true ->
  _ending_memory_rects s !! i = Some (memory_rect (length (snapshots s)) i)
  /\ (exists s',
        on_click_ending pos s = (s', true)
        /\ ending_memory_popup_index s' = Z.of_nat i
        /\ popup_artifact_filename s'
           = default EmptyString (trigger_artifact_filename snap)
        /\ ending_index s' = ending_index s
        /\ ending_slides s' = ending_slides s
        /\ snapshots s' = snapshots s)
  /\ (forall j, j <> i ->
        collidepoint (memory_rect (length (snapshots s)) j) pos = false)
  /\ ((length (snapshots s) <= 3)%nat ->
      0 <= pos.1 < WIDTH /\ 0 <= pos.2 < HEIGHT).
Proof.
  intros Hexit Hclosed Hi Hpos.
  pose proof (ending_memory_rects_lookup s i snap Hi) as Hrect.
  assert (Hothers : forall j, j <> i ->
            collidepoint (memory_rect (length (snapshots s)) j) pos = false).
  { intros j Hj. apply collidepoint_true in Hpos. apply collidepoint_false.
    unfold memory_rect in *. cbn [left top width height] in *. lia. }
  split; [exact Hrect|]. split; [|split; [exact Hothers|]].
  - unfold on_click_ending. unfold exit_offered in Hexit. rewrite Hexit.
    replace (0 <=? ending_memory_popup_index s) with false
      by (symmetry; apply Z.leb_gt; lia).
    unfold _handle_ending_memory_click.
    rewrite (find_index_from_first _ (_ending_memory_rects s) 0%nat i _ Hrect Hpos).
    + cbn [Nat.add]. eexists. split; [reflexivity|].
      destruct (load_ending_popup_artifact_fields i
                  (s |> set_ending_memory_popup_index (Z.of_nat i)
                     |> set_popup_artifact_filename
                          (default EmptyString
                             (snap ← snapshots s !! i; trigger_artifact_filename snap))))
        as (Hp & Hf & Hidx & Hsl & Hsn & _).
      rewrite Hp, Hf, Hidx, Hsl, Hsn. rewrite Hi. cbn [mbind option_bind].
      by destruct s.
    + intros j r Hj Hr. apply ending_memory_rects_inv in Hr as ->.
      apply Hothers. lia.
  - intros Hn. apply collidepoint_true in Hpos.
    apply lookup_lt_Some in Hi.
    unfold memory_rect, WIDTH, HEIGHT in *. cbn [left top width height] in *.
    assert (Hcases : length (snapshots s) = 1%nat \/ length (snapshots s) = 2%nat
                     \/ length (snapshots s) = 3%nat) by lia.
    destruct Hcases as [Hl|[Hl|Hl]]; rewrite Hl in *;
      [change ((1100 - (Z.of_nat 1 * 124 - 24)) / 2) with 500 in *
      |change ((1100 - (Z.of_nat 2 * 124 - 24)) / 2) with 438 in *
      |change ((1100 - (Z.of_nat 3 * 124 - 24)) / 2) with 376 in *]; lia.
Qed.

(** X15.  At the exit prompt of the ending every key ends the run except
    Escape, which is ignored, and so does a click of the left button; the
    state is left as it is in each case. *)
Theorem exit_prompt_ignores_escape (s : GameState) :
  state s = ending -> exit_offered s = true ->
  handle_event (KEYDOWN K_ESCAPE) s = Ok (s, true)
  /\ (forall key, key <> K_ESCAPE -> handle_event (KEYDOWN key) s = Ok (s, false))
  /\ (forall pos hit, handle_event (MOUSEBUTTONDOWN pos 1 hit) s = Ok (s, false))
  /\ (forall pos button hit, button <> 1 ->
        handle_event (MOUSEBUTTONDOWN pos button hit) s = Ok (s, true)).
Proof.
  intros Hst Hexit. unfold exit_offered in Hexit.
  destruct (ending_slides s !! ending_index s) as [sl|] eqn:Hsl; [|discriminate].
  split; [|split; [|split]].
  - unfold handle_event, on_keydown. rewrite Hst. reflexivity.
  - intros key Hkey. unfold handle_event, on_keydown.
    rewrite (bool_decide_eq_false_2 _ Hkey), Hst. decide_tags. cbv beta iota.
    unfold on_keydown_ending. by rewrite Hsl, Hexit.
  - intros pos hit. unfold handle_event. rewrite Hst. cbn [Z.eqb Pos.eqb].
    unfold on_click_ending. by rewrite Hsl, Hexit.
  - intros pos button hit Hb. unfold handle_event.
    by rewrite (proj2 (Z.eqb_neq button 1) Hb).
Qed.

End Memories.

Lemma ending_memory_click_opens_its_snapshot_witness :
  exists s',
    @on_click_ending all_assets (600, 600) false_judgement_state = (s', true)
    /\ ending_memory_popup_index s' = Z.of_nat 1
    /\ popup_artifact_filename s' = "g10-2.png".
Proof.
  destruct (@ending_memory_click_opens_its_snapshot all_assets false_judgement_state
              (600, 600) 1
              (nth 1 (snapshots false_judgement_state)
                 (mkSnapshot [] EmptyString 0 0 0 None))
              ltac:(vm_compute; reflexivity) ltac:(vm_compute; reflexivity)
              ltac:(vm_compute; reflexivity) ltac:(vm_compute; reflexivity))
    as (_ & (s' & Hs' & Hidx & Hfn & _) & _).
  exists s'. split; [exact Hs'|]. split; [exact Hidx|].
  rewrite Hfn. vm_compute. reflexivity.
Defined.

Lemma exit_prompt_ignores_escape_witness :
  state exit_state = ending /\ exit_offered exit_state = true
  /\ @handle_event all_assets (KEYDOWN K_ESCAPE) exit_state = Ok (exit_state, true)
  /\ @handle_event all_assets (KEYDOWN K_SPACE) exit_state = Ok (exit_state, false).
Proof.
  assert (Hst : state exit_state = ending) by (vm_compute; reflexivity).
  assert (Hexit : exit_offered exit_state = true) by (vm_compute; reflexivity).
  split; [exact Hst|]. split; [exact Hexit|].
  destruct (@exit_prompt_ignores_escape all_assets exit_state Hst Hexit) as (Hesc & Hkey & _).
  split; [exact Hesc|]. apply Hkey. discriminate.
Defined.

(** ** The typing effect *)

Lemma type_chars_spec (remaining : nat) : forall (acc : Z) (char : nat) acc' char',
  type_chars remaining acc char = (acc', char') ->
  (char <= char' <= char + remaining)%nat
  /\ acc' = acc - 1000 * Z.of_nat (char' - char)
  /\ ((char' < char + remaining)%nat -> acc' < 1000)
  /\ ((char < char')%nat -> 0 <= acc').
Proof.
  induction remaining as [|r IH]; intros acc char acc' char' Ht; simpl in Ht.
  - injection Ht as <- <-. split; [lia|]. split; [lia|]. split; lia.
  - destruct (1000 <=? acc) eqn:Hacc.
    + apply IH in Ht as (Hc & Ha & Hlt & Hpos). apply Z.leb_le in Hacc.
      split; [lia|]. split; [lia|]. split; [intros; apply Hlt; lia|].
      intros _. destruct (decide (S char < char')%nat); [auto|].
      assert (char' = S char) as -> by lia. lia.
    + injection Ht as <- <-. apply Z.leb_gt in Hacc.
      split; [lia|]. split; [lia|]. split; lia.
Qed.

(** X16.  The typing effect of the opening and of the ending stays within
    the text being typed: an update in the [holding] phase never moves
    the number of characters shown backwards or past the length of the
    text, stops before the end only when less than one character is left
    in the accumulator, resets the accumulator once the text is complete,
    and never changes the text box, the slide or the phase (only the
    right arrow does). *)
Theorem typing_stays_within_the_text (dt : Z) (s : GameState) :
  (forall boxes full_text,
     opening_phase s = holding ->
     OPENING_SCRIPT !! opening_slide_index s = Some boxes ->
     boxes !! opening_text_index s = Some full_text ->
     (opening_char_index s <= text_len full_text)%nat ->
     let s' := _update_opening dt s in
     (opening_char_index s <= opening_char_index s' <= text_len full_text)%nat
     /\ ((opening_char_index s' < text_len full_text)%nat ->
         opening_typing_accumulator s' < 1000)
     /\ (opening_char_index s' = text_len full_text ->
         opening_typing_accumulator s' = 0)
     /\ opening_text_index s' = opening_text_index s
     /\ opening_slide_index s' = opening_slide_index s
     /\ opening_phase s' = holding
     /\ state s' = state s)
  /\ (forall sl full_text,
        ending_phase s = holding ->
        ending_slides s !! ending_index s = Some sl ->
        script sl !! ending_text_index s = Some full_text ->
        (ending_char_index s <= text_len full_text)%nat ->
        let s' := _update_ending dt s in
        (ending_char_index s <= ending_char_index s' <= text_len full_text)%nat
        /\ ((ending_char_index s' < text_len full_text)%nat ->
            ending_typing_accumulator s' < 1000)
        /\ (ending_char_index s' = text_len full_text ->
            ending_typing_accumulator s' = 0)
        /\ ending_text_index s' = ending_text_index s
        /\ ending_index s' = ending_index s
        /\ ending_slides s' = ending_slides s
        /\ ending_phase s' = holding
        /\ state s' = state s).
Proof.
  split.
  - intros boxes full_text. open_state s. fields. intros -> Hboxes Htext Hchar.
    cbv zeta. unfold _update_opening. fields. rewrite Hboxes, Htext.
    destruct (type_chars _ _ _) as [acc' char'] eqn:Ht.
    apply type_chars_spec in Ht as (Hc & Ha & Hlt & _). fields.
    split; [lia|]. split.
    { intros Hless. destruct (text_len full_text <=? char')%nat eqn:Hle; [lia|].
      apply Hlt. lia. }
    split.
    { intros ->. by rewrite Nat.leb_refl. }
    repeat split.
  - intros sl full_text. open_state s. fields. intros -> Hsl Htext Hchar.
    cbv zeta. unfold _update_ending. fields. rewrite Hsl, Htext.
    destruct (type_chars _ _ _) as [acc' char'] eqn:Ht.
    apply type_chars_spec in Ht as (Hc & Ha & Hlt & _). fields.
    split; [lia|]. split.
    { intros Hless. destruct (text_len full_text <=? char')%nat eqn:Hle; [lia|].
      apply Hlt. lia. }
    split.
    { intros ->. by rewrite Nat.leb_refl. }
    repeat split.
Qed.

(** ** The range of the artifact key parser *)

Lemma decimal_value_nonneg (s : string) : forall acc,
  0 <= acc -> Py.forallb_str Py.chr_isdecimal s = true -> 0 <= Py.decimal_value acc s.
Proof.
  induction s as [|c r IH]; intros acc Hacc Hs; simpl in *; [done|].
  apply andb_true_iff in Hs as [Hc Hr]. apply IH; [|done].
  unfold Py.chr_isdecimal in Hc. apply andb_true_iff in Hc as [Hlo _].
  apply N.leb_le in Hlo. lia.
Qed.

Lemma int_range (s : string) :
  match Py.int s with
  | Ok n => 0 <= n
  | Raise e => e = ValueError
  end.
Proof.
  unfold Py.int. destruct s as [|c r]; [done|].
  destruct (Py.forallb_str Py.chr_isdecimal (String c r)) eqn:Hd; [|done].
  destruct (_ <=? _)%nat; [|done]. cbn [andb].
  by apply decimal_value_nonneg.
Qed.

(** X17.  The artifact key parser, on every string: it returns or raises
    [ValueError] (from [int], on a digit [str.isdigit] accepts and [int]
    does not, or on more digits than [int] converts), and never anything
    else; what it returns is a pair of one of the three suspects and a
    number of points that is not negative, or the empty suspect with 0
    points. *)
Theorem parse_result_range (filename : string) :
  match _parse_artifact_suspect_and_points filename with
  | Ok (suspect, pts) =>
      0 <= pts
      /\ (suspect = EmptyString /\ pts = 0
          \/ suspect = "queen" \/ suspect = "chef" \/ suspect = "goblin")
  | Raise e => e = ValueError
  end.
Proof.
  unfold _parse_artifact_suspect_and_points.
  destruct (Py.startswith _ _ && Py.isdigit _); [split; [lia|by left]|].
  destruct (Py.replace _ _ _) as [|c rest]; [split; [lia|by left]|].
  unfold suspect_of_letter.
  assert (Hpts : match (match Py.digit_run rest with
                        | EmptyString => Ok 0
                        | String _ _ => Py.int (Py.digit_run rest)
                        end) with
                 | Ok n => 0 <= n
                 | Raise e => e = ValueError
                 end).
  { destruct (Py.digit_run rest) eqn:Hrun; [simpl; lia|]. rewrite <- Hrun. apply int_range. }
  destruct (Ascii.eqb c "q");
    [|destruct (Ascii.eqb c "c"); [|destruct (Ascii.eqb c "g"); [|split; [lia|by left]]]].
  all: destruct (match Py.digit_run rest with
                 | EmptyString => Ok 0
                 | String _ _ => Py.int (Py.digit_run rest)
                 end) as [n|e]; cbn [mbind pyres_bind]; [split; [exact Hpts|]; auto|exact Hpts].
Qed.

Lemma typing_stays_within_the_text_witness :
  (opening_char_index typing_state
   <= opening_char_index (_update_opening 100 typing_state)
   <= text_len (hd EmptyString (hd [] OPENING_SCRIPT)))%nat.
Proof.
  apply (proj1 (typing_stays_within_the_text 100 typing_state)
           (hd [] OPENING_SCRIPT) (hd EmptyString (hd [] OPENING_SCRIPT))).
  - vm_compute; reflexivity.
  - vm_compute; reflexivity.
  - vm_compute; reflexivity.
  - vm_compute. lia.
Defined.

(** * Properties of the word wrap *)

Example wrap_example :
  _wrap_opening_text ten_a_character 100
    (ustr_of ("the  quick brown fox" ++ String (ascii_of_nat 10) "jumps   over" ++
              String (ascii_of_nat 10) (String (ascii_of_nat 10) "a_long_word_that_does_not_fit !")))
  = map ustr_of ["the quick"; "brown fox"; "jumps over"; "a_long_word_that_does_not_fit"; "!"].
Proof. vm_compute. reflexivity. Qed.

Lemma u_split_from_word (w : ustr) : forall word s,
  Forall (fun c => u_isspace c = false) w ->
  u_split_from word (w ++ s)%list = u_split_from (word ++ w)%list s.
Proof.
  induction w as [|c w IH]; intros word s Hw; simpl.
  - by rewrite app_nil_r.
  - apply Forall_cons in Hw as [Hc Hw]. rewrite Hc, IH by done.
    by rewrite <- app_assoc.
Qed.

Lemma u_split_join (ws : list ustr) :
  Forall is_word ws -> u_split (u_join ws) = ws.
Proof.
  unfold u_split. induction 1 as [|w ws [Hne Hw] Hws IH]; [done|].
  destruct ws as [|w' ws'].
  - simpl. rewrite <- (app_nil_r w) at 1. rewrite u_split_from_word by done.
    simpl. by destruct w.
  - change (u_join (w :: w' :: ws')) with (w ++ u_space :: u_join (w' :: ws'))%list.
    rewrite u_split_from_word by done. cbn [u_split_from app].
    change (u_isspace u_space) with true. cbv iota. rewrite IH.
    by destruct w.
Qed.

Lemma u_split_from_words (s : ustr) : forall word,
  Forall (fun c => u_isspace c = false) word ->
  Forall is_word (u_split_from word s).
Proof.
  induction s as [|c s IH]; intros word Hword; simpl.
  - destruct word; [constructor|]. constructor; [|constructor]. by split.
  - destruct (u_isspace c) eqn:Hc.
    + apply Forall_app. split; [|apply IH; constructor].
      destruct word; [constructor|]. constructor; [|constructor]. by split.
    + apply IH. apply Forall_app. split; [done|]. by constructor.
Qed.

Lemma u_split_words (s : ustr) : Forall is_word (u_split s).
Proof. apply u_split_from_words. constructor. Qed.

Lemma u_join_word_line (ws : list ustr) :
  Forall is_word ws -> ws <> [] -> u_join ws <> [].
Proof.
  intros Hws Hne. destruct ws as [|w ws]; [done|].
  apply Forall_cons in Hws as [[Hw _] _].
  destruct ws; simpl; [done|]. by destruct w.
Qed.

Lemma concat_map_concat {A B} (g : A -> list B) (xs : list (list A)) :
  concat (map g (concat xs)) = concat (map (fun x => concat (map g x)) xs).
Proof.
  induction xs as [|x xs IH]; simpl; [done|].
  by rewrite map_app, concat_app, IH.
Qed.

Section WrapProperties.
Variable text_width : ustr -> Z.
Variable max_width : Z.

Lemma flush_line_words (line : list ustr) :
  Forall is_word line ->
  concat (map u_split (flush_line line)) = line
  /\ Forall (fun l => l <> [] /\ u_join (u_split l) = l) (flush_line line).
Proof.
  intros Hline. destruct line as [|w ws]; [by split|].
  unfold flush_line. cbn [map concat]. rewrite app_nil_r.
  rewrite u_split_join by done. split; [done|].
  constructor; [|constructor]. split; [by apply u_join_word_line|].
  by rewrite u_split_join.
Qed.

Lemma wrap_words_keeps (words : list ustr) : forall line,
  Forall is_word line -> Forall is_word words ->
  concat (map u_split (wrap_words text_width max_width line words)) = (line ++ words)%list
  /\ Forall (fun l => l <> [] /\ u_join (u_split l) = l)
       (wrap_words text_width max_width line words).
Proof.
  induction words as [|w words IH]; intros line Hline Hwords; simpl.
  - rewrite app_nil_r. by apply flush_line_words.
  - apply Forall_cons in Hwords as [Hw Hwords].
    destruct (_ <=? _).
    + destruct (IH (line ++ [w])%list) as [Hc Hl]; [|done|].
      { apply Forall_app. split; [done|]. by constructor. }
      split; [|done]. by rewrite Hc, <- app_assoc.
    + destruct (IH [w]) as [Hc Hl]; [by constructor|done|].
      destruct (flush_line_words line Hline) as [Hfc Hfl].
      split; [|by apply Forall_app].
      by rewrite map_app, concat_app, Hfc, Hc.
Qed.

Lemma wrap_words_fit (words : list ustr) : forall line,
  Forall is_word line -> Forall is_word words ->
  (line = [] \/ text_width (u_join line) <= max_width \/ length line = 1%nat) ->
  Forall (fun l => text_width l <= max_width
                   \/ (u_split l = [l] /\ max_width < text_width l))
    (wrap_words text_width max_width line words).
Proof.
  assert (Hflush : forall line,
            Forall is_word line ->
            (line = [] \/ text_width (u_join line) <= max_width \/ length line = 1%nat) ->
            Forall (fun l => text_width l <= max_width
                             \/ (u_split l = [l] /\ max_width < text_width l))
              (flush_line line)).
  { intros line Hline Hfit. destruct line as [|w ws]; [constructor|].
    unfold flush_line. constructor; [|constructor].
    destruct Hfit as [?|[Hle|Hone]]; [done|by left|].
    destruct ws; [|done]. cbn [u_join].
    destruct (Z.le_gt_cases (text_width w) max_width) as [Hle|Hgt]; [by left|right].
    split; [|lia]. apply (u_split_join [w]). exact Hline. }
  induction words as [|w words IH]; intros line Hline Hwords Hfit; simpl.
  - by apply Hflush.
  - apply Forall_cons in Hwords as [Hw Hwords].
    destruct (_ <=? _) eqn:Htest.
    + apply IH; [|done|].
      * apply Forall_app. split; [done|]. by constructor.
      * right. left. by apply Z.leb_le.
    + apply Forall_app. split; [by apply Hflush|].
      apply IH; [by constructor|done|]. right. right. reflexivity.
Qed.

Lemma wrap_words_nil (words line : list ustr) :
  wrap_words text_width max_width line words = [] <-> line = [] /\ words = [].
Proof.
  revert line. induction words as [|w words IH]; intros line; simpl.
  - destruct line; simpl; split; try done. by intros [? _].
  - destruct (_ <=? _).
    + rewrite IH. split; [intros [Hl _]; by destruct line|by intros [_ ?]].
    + split; [|by intros [_ ?]]. intros Hnil.
      apply app_eq_nil in Hnil as [_ Hnil]. apply IH in Hnil. by destruct Hnil.
Qed.

End WrapProperties.

Lemma u_split_from_nil (s : ustr) : forall word,
  u_split_from word s = [] <-> word = [] /\ Forall (fun c => u_isspace c = true) s.
Proof.
  induction s as [|c s IH]; intros word; simpl.
  - destruct word; split; try done. by intros [? _].
  - destruct (u_isspace c) eqn:Hc.
    + split.
      * intros Hnil. apply app_eq_nil in Hnil as [Hw Hs].
        apply IH in Hs as [_ Hs]. split; [by destruct word|by constructor].
      * intros [-> Hs]. apply Forall_cons in Hs as [_ Hs]. simpl.
        apply IH. by split.
    + rewrite IH. split.
      * intros [Hw _]. by destruct word.
      * intros [_ Hs]. apply Forall_cons in Hs as [Hc' _]. congruence.
Qed.

Lemma u_split_on_Forall (P : N -> Prop) (sep : N) (s : ustr) :
  P sep -> Forall P s <-> Forall (Forall P) (u_split_on sep s).
Proof.
  intros Hsep. induction s as [|c s IH]; simpl.
  - split; intros _; repeat constructor.
  - destruct (N.eqb_spec c sep) as [->|Hne].
    + rewrite Forall_cons, IH. split.
      * intros [_ Hs]. by constructor.
      * intros Hs. apply Forall_cons in Hs as [_ Hs]. by split.
    + destruct (u_split_on sep s) as [|p ps].
      * split.
        -- intros Hs. apply Forall_cons in Hs as [Hc _]. repeat constructor. exact Hc.
        -- intros Hs. apply Forall_cons in Hs as [Hc _].
           apply Forall_cons in Hc as [Hc _]. constructor; [exact Hc|].
           apply IH. constructor.
      * rewrite Forall_cons, IH, !Forall_cons. tauto.
Qed.

Lemma concat_nil_Forall {A} (ls : list (list A)) :
  concat ls = [] <-> Forall (fun l => l = []) ls.
Proof.
  induction ls as [|l ls IH]; simpl.
  - split; [constructor|done].
  - rewrite Forall_cons, <- IH. split.
    + intros Hnil. by apply app_eq_nil in Hnil.
    + intros [-> ->]. done.
Qed.

Lemma u_split_on_nonempty (sep : N) (s : ustr) : u_split_on sep s <> [].
Proof.
  destruct s as [|c s]; simpl; [done|].
  destruct (c =? sep)%N; [done|]. by destruct (u_split_on sep s).
Qed.

Lemma u_split_paragraphs (s : ustr) : forall word,
  u_split_from word s
  = match u_split_on u_newline s with
    | [] => []
    | p :: ps => (u_split_from word p ++ concat (map u_split ps))%list
    end.
Proof.
  induction s as [|c s IH]; intros word; simpl.
  - by rewrite app_nil_r.
  - pose proof (u_split_on_nonempty u_newline s) as Hne'.
    destruct (N.eqb_spec c u_newline) as [->|Hne].
    + change (u_isspace u_newline) with true. cbv iota. cbn [u_split_from].
      f_equal. rewrite (IH []). unfold u_split.
      destruct (u_split_on u_newline s); [done|]. reflexivity.
    + destruct (u_isspace c) eqn:Hc.
      * rewrite (IH []). destruct (u_split_on u_newline s) as [|p ps]; [done|]. simpl.
        by rewrite Hc, app_assoc.
      * rewrite IH. destruct (u_split_on u_newline s) as [|p ps]; [done|]. simpl.
        by rewrite Hc.
Qed.

Lemma u_split_on_words (s : ustr) :
  concat (map u_split (u_split_on u_newline s)) = u_split s.
Proof.
  unfold u_split at 2. rewrite u_split_paragraphs.
  destruct (u_split_on u_newline s) as [|p ps] eqn:Hs; [|done].
  by apply u_split_on_nonempty in Hs.
Qed.

Section WrapTheorems.
Variable text_width : ustr -> Z.
Variable max_width : Z.

(** X18.  The word wrap keeps the words: the words of the lines it
    returns, read in order, are the words of the text (its maximal runs
    without white space), none lost, repeated, reordered or cut; and every
    line is one or more words joined by single spaces, so it is not empty,
    has no line break and no blank at either end. *)
Theorem wrap_keeps_the_words (text : ustr) :
  concat (map u_split (_wrap_opening_text text_width max_width text)) = u_split text
  /\ Forall (fun l => exists ws, ws <> [] /\ Forall is_word ws /\ l = u_join ws)
       (_wrap_opening_text text_width max_width text).
Proof.
  unfold _wrap_opening_text.
  assert (Hpara : forall para,
            concat (map u_split (wrap_words text_width max_width [] (u_split para)))
            = u_split para
            /\ Forall (fun l => l <> [] /\ u_join (u_split l) = l)
                 (wrap_words text_width max_width [] (u_split para))).
  { intros para. apply (wrap_words_keeps text_width max_width (u_split para) []);
      [constructor|apply u_split_words]. }
  split.
  - rewrite <- u_split_on_words, concat_map_concat, map_map. f_equal.
    apply map_ext. intros para. apply Hpara.
  - apply Forall_concat. apply Forall_map. apply Forall_forall. intros para _.
    eapply Forall_impl; [apply Hpara|]. cbn beta. intros l [Hne Hjoin].
    exists (u_split l). split; [|split; [apply u_split_words|done]].
    intros Hnil. rewrite Hnil in Hjoin. simpl in Hjoin. congruence.
Qed.

(** X19.  Every line the word wrap returns fits the width, unless it is a
    single word that is wider than the width by itself: a long word is
    never cut, and no line of two or more words is too wide. *)
Theorem wrap_lines_fit (text : ustr) :
  Forall (fun l => text_width l <= max_width
                   \/ (u_split l = [l] /\ max_width < text_width l))
    (_wrap_opening_text text_width max_width text).
Proof.
  unfold _wrap_opening_text. apply Forall_concat. apply Forall_map.
  apply Forall_forall. intros para _.
  apply wrap_words_fit; [constructor|apply u_split_words|by left].
Qed.

(** X20.  The word wrap returns no line exactly for a text of white space
    only (the empty text, blanks, line breaks); blank lines between
    paragraphs leave no line in the result. *)
Theorem wrap_of_blank_text (text : ustr) :
  _wrap_opening_text text_width max_width text = []
  <-> Forall (fun c => u_isspace c = true) text.
Proof.
  unfold _wrap_opening_text.
  rewrite concat_nil_Forall, Forall_map.
  rewrite (u_split_on_Forall (fun c => u_isspace c = true) u_newline text) by reflexivity.
  apply Forall_iff. intros para. cbn beta.
  rewrite wrap_words_nil. unfold u_split. rewrite u_split_from_nil. tauto.
Qed.

End WrapTheorems.

(** * Properties of the image scaling *)

(** X21.  Scaling to a largest side, for an image of at least one pixel
    each way: the result has at least one pixel each way and no side
    exceeds [max_side]; no side grows; an image that already fits is
    left as it is, and otherwise the longer side becomes exactly
    [max_side] while the shorter one keeps the proportion, rounded down
    but not below one pixel. *)
Theorem fit_max_side_bounds (max_side w h : Z) :
  1 <= max_side -> 1 <= w -> 1 <= h ->
  let '(w', h') := fit_max_side max_side w h in
  1 <= w' <= Z.min w max_side
  /\ 1 <= h' <= Z.min h max_side
  /\ (w <= max_side -> h <= max_side -> (w', h') = (w, h))
  /\ (max_side < Z.max w h -> Z.max w' h' = max_side)
  /\ (max_side < w -> h < w -> h' = Z.max 1 (h * max_side / w)
                              /\ h * max_side - w < h' * w <= Z.max (h * max_side) w)
  /\ (max_side < h -> w <= h -> w' = Z.max 1 (w * max_side / h)
                               /\ w * max_side - h < w' * h <= Z.max (w * max_side) h).
Proof.
  intros Hm Hw Hh. unfold fit_max_side.
  destruct (h <? w) eqn:Hhw; [apply Z.ltb_lt in Hhw|apply Z.ltb_ge in Hhw].
  - destruct (max_side <? w) eqn:Hmw; [apply Z.ltb_lt in Hmw|apply Z.ltb_ge in Hmw].
    + pose proof (Z.div_mod (h * max_side) w ltac:(lia)) as Hdm.
      pose proof (Z.mod_pos_bound (h * max_side) w ltac:(lia)) as Hmod.
      assert (Hq : 0 <= h * max_side / w) by (apply Z.div_pos; nia).
      assert (Hq' : h * max_side / w <= Z.min h max_side).
      { apply Z.min_glb.
        - apply Z.div_le_upper_bound; [lia|]. nia.
        - apply Z.div_le_upper_bound; [lia|]. nia. }
      repeat split; try lia; try nia.
    + repeat split; lia.
  - destruct (max_side <? h) eqn:Hmh; [apply Z.ltb_lt in Hmh|apply Z.ltb_ge in Hmh].
    + pose proof (Z.div_mod (w * max_side) h ltac:(lia)) as Hdm.
      pose proof (Z.mod_pos_bound (w * max_side) h ltac:(lia)) as Hmod.
      assert (Hq : 0 <= w * max_side / h) by (apply Z.div_pos; nia).
      assert (Hq' : w * max_side / h <= Z.min w max_side).
      { apply Z.min_glb.
        - apply Z.div_le_upper_bound; [lia|]. nia.
        - apply Z.div_le_upper_bound; [lia|]. nia. }
      repeat split; try lia; try nia.
    + repeat split; lia.
Qed.

Lemma fit_max_side_bounds_witness :
  fit_max_side 200 640 480 = (200, 150)
  /\ 1 <= 200 <= Z.min 640 200 /\ 1 <= 150 <= Z.min 480 200.
Proof.
  pose proof (fit_max_side_bounds 200 640 480 ltac:(lia) ltac:(lia) ltac:(lia)) as Hb.
  split; [reflexivity|].
  change (fit_max_side 200 640 480) with (200, 150) in Hb. cbv iota beta in Hb.
  split; apply Hb.
Defined.

(** * Properties of the accusation cards *)

Example str_int_examples :
  map Accuse.str_int [0; 7; 12; 30; 120; 1000; -45]
  = ["0"; "7"; "12"; "30"; "120"; "1000"; "-45"].
Proof. reflexivity. Qed.

Example compute_result_message :
  Accuse.result_message
    (Accuse._handle_accuse_click (100, 300) (Accuse.start false_judgement_state))
  = Some ("You accused Brannic Ashhand and succeeded." ++ nl
          ++ "You had 20 points of evidence against Goblin Groundskeeper." ++ nl
          ++ "The culprit was indeed Brannic Ashhand.").
Proof. vm_compute. reflexivity. Qed.

Lemma suspect_of_listed (k : Culprit) : Accuse.suspect_of k ∈ Accuse._build_suspects.
Proof. destruct k; unfold Accuse._build_suspects; set_solver. Qed.

Lemma suspect_of_id (k : Culprit) : Accuse.id (Accuse.suspect_of k) = culprit_id k.
Proof. by destruct k. Qed.

(** The cards do not overlap: a point lies on at most one of them. *)
Lemma cards_apart (i j : nat) (pos : Z * Z) :
  Accuse.on_card i pos = true -> Accuse.on_card j pos = true -> i = j.
Proof.
  unfold Accuse.on_card. cbv zeta. intros Hi Hj.
  repeat match goal with
  | H : _ && _ = true |- _ => apply andb_true_iff in H as [? ?]
  | H : (_ <=? _) = true |- _ => apply Z.leb_le in H
  end. lia.
Qed.

Section Verdict.
Context `{AssetProvider}.

(** X22.  The verdict of the result screen: accusing a suspect succeeds
    exactly when the suspect is the culprit and the ledger holds at least
    12 points against the culprit; the message is set and names the real
    culprit whenever the accusation fails for the wrong suspect.  On the
    ledger of any run this is the verdict of the ending that [run] plays:
    the accusation slides are reached and the accused is the culprit. *)
Theorem result_screen_verdict (k accused : Culprit) (ticks : list (list Event * Z))
    (s0 s' : GameState) (a : Accuse.State) :
  (length clock_rects <= 6)%nat ->
  init k = Ok s0 -> run_frames ticks s0 = Ok s' ->
  Accuse.game a = s' ->
  Accuse.selected_suspect a = Some (Accuse.suspect_of accused) ->
  let r := Accuse._compute_result a in
  (Accuse.result_success r = true
   <-> accused = k /\ EVIDENCE_POINTS_REQUIRED <= total_of k (snapshots s'))
  /\ (Accuse.result_success r = true
      <-> accused = k /\ ending_slides (_start_ending s') = success_branch)
  /\ (accused <> k ->
      Accuse.result_message r
      = Some ("Wrong suspect. You accused " ++ Accuse.name (Accuse.suspect_of accused)
              ++ " but the real culprit was " ++ Accuse.name (Accuse.suspect_of k) ++ "."))
  /\ Accuse.game r = s'
  /\ Accuse.selected_suspect r = Some (Accuse.suspect_of accused).
Proof.
  intros Hclocks Hinit Hrun Hgame Hsel r.
  destruct (reachable_totals _ _ _ _ Hclocks Hinit Hrun) as (Hk & _ & Hothers & _).
  pose proof (start_ending_gate k s' Hk
                (fun k' Hk' => proj2 (Hothers k' Hk'))) as Hgate.
  assert (Hsucc : Accuse.result_success r
                  = bool_decide (accused = k)
                    && (EVIDENCE_POINTS_REQUIRED <=? total_of accused (snapshots s'))).
  { subst r. unfold Accuse._compute_result. rewrite Hsel, Hgame, Hk.
    cbn [Accuse.result_success]. rewrite !suspect_of_id.
    destruct accused, k; reflexivity. }
  assert (Hfirst : Accuse.result_success r = true
                   <-> accused = k /\ EVIDENCE_POINTS_REQUIRED <= total_of k (snapshots s')).
  { rewrite Hsucc, andb_true_iff, bool_decide_eq_true, Z.leb_le.
    split; intros [-> ?]; by split. }
  split; [exact Hfirst|]. split; [rewrite Hfirst, Hgate; tauto|].
  split; [|split].
  - intros Hne. subst r. unfold Accuse._compute_result. rewrite Hsel, Hgame, Hk.
    cbn [Accuse.result_message]. rewrite !suspect_of_id.
    replace (String.eqb (culprit_id accused) (culprit_id k)) with false.
    + reflexivity.
    + symmetry. apply String.eqb_neq. intros Hc. by apply culprit_id_inj in Hc.
  - subst r. unfold Accuse._compute_result. by rewrite Hsel.
  - subst r. unfold Accuse._compute_result. by rewrite Hsel.
Qed.

End Verdict.

(** X23.  The cards of the accusation screen: the card the pointer hovers
    over is the card a click selects.  When the hover index is -1 a click
    at that point changes nothing; when it is [idx], the click selects
    suspect [idx], computes the verdict for that suspect and shows the
    result screen; and the point lies on no other card. *)
Theorem accuse_click_selects_the_hovered_card (mx my : Z) (a : Accuse.State) :
  let hover := Accuse.hover_suspect_index (Accuse._update_accuse_hover mx my a) in
  let clicked := Accuse._handle_accuse_click (mx, my) a in
  (hover = -1 /\ clicked = a
   /\ forall idx, (idx < 3)%nat -> Accuse.on_card idx (mx, my) = false)
  \/ (exists idx sel,
        hover = Z.of_nat idx
        /\ Accuse._build_suspects !! idx = Some sel
        /\ Accuse.on_card idx (mx, my) = true
        /\ (forall j, j <> idx -> Accuse.on_card j (mx, my) = false)
        /\ Accuse.selected_suspect clicked = Some sel
        /\ Accuse.screen clicked = Accuse.result
        /\ Accuse.result_time clicked = 0
        /\ Accuse.game clicked = Accuse.game a
        /\ Accuse.result_success clicked
           = Accuse.result_success
               (Accuse._compute_result
                  (Accuse.mkState (Accuse.game a) (Accuse.screen a) (Some sel)
                     (Accuse.result_message a) (Accuse.result_success a)
                     (Accuse.result_time a) (Accuse.hover_suspect_index a)))).
Proof.
  cbv zeta. unfold Accuse._update_accuse_hover, Accuse._handle_accuse_click.
  cbn [Accuse.hover_suspect_index].
  destruct (find_index_from (fun idx _ => Accuse.on_card idx (mx, my)) 0
              Accuse._build_suspects) as [idx|] eqn:Hfind.
  - right.
    assert (Hidx : (idx < 3)%nat /\ Accuse.on_card idx (mx, my) = true).
    { unfold Accuse._build_suspects in Hfind. cbn [find_index_from] in Hfind.
      destruct (Accuse.on_card 0 (mx, my)) eqn:H0; [injection Hfind as <-; split; [lia|done]|].
      destruct (Accuse.on_card 1 (mx, my)) eqn:H1; [injection Hfind as <-; split; [lia|done]|].
      destruct (Accuse.on_card 2 (mx, my)) eqn:H2; [injection Hfind as <-; split; [lia|done]|].
      discriminate. }
    destruct Hidx as [Hlt Hon].
    destruct (lookup_lt_is_Some_2 Accuse._build_suspects idx ltac:(simpl; lia)) as (sel & Hsel).
    exists idx, sel. rewrite Hsel.
    split; [reflexivity|]. split; [reflexivity|]. split; [exact Hon|]. split.
    { intros j Hj. destruct (Accuse.on_card j (mx, my)) eqn:Hjon; [|reflexivity].
      exfalso. apply Hj. by apply (cards_apart j idx (mx, my)). }
    unfold Accuse._compute_result.
    cbn [Accuse.selected_suspect Accuse.game Accuse.screen Accuse.result_time
         Accuse.result_success Accuse.result_message Accuse.hover_suspect_index].
    repeat split.
  - left. split; [reflexivity|]. split; [reflexivity|].
    intros idx Hidx. unfold Accuse._build_suspects in Hfind. cbn [find_index_from] in Hfind.
    destruct (Accuse.on_card 0 (mx, my)) eqn:H0; [discriminate|].
    destruct (Accuse.on_card 1 (mx, my)) eqn:H1; [discriminate|].
    destruct (Accuse.on_card 2 (mx, my)) eqn:H2; [discriminate|].
    destruct idx as [|[|[|]]]; first [assumption | lia].
Qed.

Lemma result_screen_verdict_witness :
  let r := Accuse._compute_result goblin_accused in
  (Accuse.result_success r = true
   <-> Goblin = Goblin
       /\ EVIDENCE_POINTS_REQUIRED <= total_of Goblin (snapshots false_judgement_state))
  /\ (Accuse.result_success r = true
      <-> Goblin = Goblin
          /\ ending_slides (_start_ending false_judgement_state) = success_branch)
  /\ (Goblin <> Goblin ->
      Accuse.result_message r
      = Some ("Wrong suspect. You accused " ++ Accuse.name (Accuse.suspect_of Goblin)
              ++ " but the real culprit was " ++ Accuse.name (Accuse.suspect_of Goblin)
              ++ "."))
  /\ Accuse.game r = false_judgement_state
  /\ Accuse.selected_suspect r = Some (Accuse.suspect_of Goblin).
Proof.
  apply (@result_screen_verdict all_assets Goblin Goblin false_judgement_run
           (start_state Goblin) false_judgement_state goblin_accused).
  - simpl. lia.
  - vm_compute; reflexivity.
  - vm_compute; reflexivity.
  - reflexivity.
  - reflexivity.
Defined.

(** ** Quitting and choosing *)

Section Events.
Context `{AssetProvider}.

Lemma handle_events_app (evs1 evs2 : list Event) : forall s,
  handle_events (evs1 ++ evs2)%list s
  = ('(s1, r1) ← handle_events evs1 s;
     '(s2, r2) ← handle_events evs2 s1;
     Ok (s2, r1 && r2)).
Proof.
  induction evs1 as [|ev evs1 IH]; intros s; simpl.
  - destruct (handle_events evs2 s) as [[s2 r2]|]; reflexivity.
  - destruct (handle_event ev s) as [[s1 r1]|]; [|reflexivity]. simpl.
    rewrite IH. destruct (handle_events evs1 s1) as [[s2 r2]|]; [|reflexivity]. simpl.
    destruct (handle_events evs2 s2) as [[s3 r3]|]; [|reflexivity]. simpl.
    by rewrite andb_assoc.
Qed.

(** X24.  Closing the window ends the run at the end of the frame, not at
    once: the events of the frame that follow [QUIT] are still handled
    and the update of the frame still runs, so the final state is the one
    the frame gives without the [QUIT]; no later tick is played. *)
Theorem quit_ends_the_run_after_the_frame (evs1 evs2 : list Event) (dt : Z)
    (rest : list (list Event * Z)) (s : GameState) :
  run_frames (((evs1 ++ QUIT :: evs2)%list, dt) :: rest) s
  = (res ← frame (evs1 ++ evs2)%list dt s; Ok res.1).
Proof.
  cbn [run_frames fst snd]. unfold frame. rewrite !handle_events_app.
  destruct (handle_events evs1 s) as [[s1 r1]|]; [|reflexivity].
  cbn [mbind pyres_bind handle_events handle_event].
  destruct (handle_events evs2 s1) as [[s2 r2]|]; [|reflexivity].
  cbn [mbind pyres_bind andb]. rewrite andb_false_r.
  destruct (update dt s2) as [s3|]; reflexivity.
Qed.

(** X25.  The accusation cannot be skipped: on a slide that asks for the
    culprit (and offers no exit), whatever the phase, every key other
    than 1, 2 and 3 leaves the state as it is; the keys 1, 2 and 3 record
    the choice, append the plea of the accused, the blood transfer and the
    mage's slide, and move to the next slide; and time alone never leaves
    the slide. *)
Theorem accusation_needs_a_choice (s : GameState) (sl : Slide) :
  state s = ending ->
  ending_slides s !! ending_index s = Some sl ->
  accept_123 sl = true -> at_exit_prompt sl s = false ->
  (forall key, key <> K_1 -> key <> K_2 -> key <> K_3 ->
     handle_event (KEYDOWN key) s = Ok (s, true))
  /\ (forall key choice,
        (key = K_1 /\ choice = 1 \/ key = K_2 /\ choice = 2 \/ key = K_3 /\ choice = 3) ->
        exists s' plea,
          handle_event (KEYDOWN key) s = Ok (s', true)
          /\ blood_slide choice = Ok plea
          /\ ending_player_choice s' = choice
          /\ ending_slides s'
             = (ending_slides s
                ++ [plea; slide_of "blood_transfer.png" WIN_PATH_G6_BLOOD_TAKEN;
                    slide_of "mage_cooking.png" WIN_PATH_G7_HANDS_TO_MAGE])%list
          /\ ending_index s' = S (ending_index s)
          /\ ending_phase s' = fade_in
          /\ state s' = ending)
  /\ (forall dt, ending_phase s <> fade_out ->
        ending_index (_update_ending dt s) = ending_index s
        /\ ending_slides (_update_ending dt s) = ending_slides s
        /\ ending_phase (_update_ending dt s) <> fade_out).
Proof.
  intros Hst Hsl Hacc Hexit. split; [|split].
  - intros key H1 H2 H3. unfold handle_event, on_keydown.
    destruct (bool_decide (key = K_ESCAPE)) eqn:Hesc.
    { by rewrite Hst. }
    rewrite Hst. decide_tags. cbv beta iota.
    unfold on_keydown_ending. rewrite Hsl, Hexit, Hacc.
    by destruct key.
  - intros key choice Hkey. unfold handle_event, on_keydown.
    assert (Hesc : bool_decide (key = K_ESCAPE) = false).
    { apply bool_decide_eq_false. destruct Hkey as [[-> _]|[[-> _]|[-> _]]]; discriminate. }
    rewrite Hesc, Hst. decide_tags. cbv beta iota.
    unfold on_keydown_ending. rewrite Hsl, Hexit, Hacc.
    revert Hst Hsl. open_state s. fields. intros -> Hsl.
    destruct Hkey as [[-> ->]|[[-> ->]|[-> ->]]];
      eexists _, _; (split; [reflexivity|]); repeat split.
  - intros dt Hph. revert Hsl Hph. open_state s. unfold _update_ending. fields.
    intros Hsl Hph. destruct eph0; [| |done].
    + destruct (_ <=? _); fields; repeat split; discriminate.
    + rewrite Hsl. repeat case_match; fields; repeat split; discriminate.
Qed.

End Events.

Lemma accusation_needs_a_choice_witness :
  (s0 ← @init all_assets Goblin; @run_frames all_assets accusation_run s0)
  = Ok accusation_state
  /\ exists s' plea,
       @handle_event all_assets (KEYDOWN K_2) accusation_state = Ok (s', true)
       /\ blood_slide 2 = Ok plea
       /\ ending_player_choice s' = 2
       /\ ending_index s' = 4%nat.
Proof.
  split; [vm_compute; reflexivity|].
  destruct (@accusation_needs_a_choice all_assets accusation_state
              (mkSlide "the_culprits.png" true true false WIN_PATH_G4_CULPRITS)
              ltac:(vm_compute; reflexivity) ltac:(vm_compute; reflexivity)
              ltac:(reflexivity) ltac:(vm_compute; reflexivity))
    as (_ & Hchoose & _).
  destruct (Hchoose K_2 2 ltac:(right; left; split; reflexivity))
    as (s' & plea & Hev & Hplea & Hc & _ & Hidx & _).
  exists s', plea. split; [exact Hev|]. split; [exact Hplea|]. split; [exact Hc|].
  rewrite Hidx. vm_compute. reflexivity.
Defined.

(** ** The memory popup of the ending *)

Lemma find_index_by_label (scs : list MemoryScene) (i : nat) (sc : MemoryScene) :
  NoDup (map label scs) -> scs !! i = Some sc ->
  find_index_from (fun _ x => String.eqb (label x) (label sc)) 0 scs = Some i.
Proof.
  intros Hdup Hi.
  apply (find_index_from_first _ scs 0%nat i sc Hi).
  - apply String.eqb_refl.
  - intros j y Hj Hy. apply String.eqb_neq. intros Heq.
    assert (j = i); [|lia].
    eapply NoDup_lookup; [exact Hdup| |].
    + by rewrite list_lookup_fmap, Hy.
    + by rewrite list_lookup_fmap, Hi, Heq.
Qed.

(** No file name of the table has white space at either end. *)
Lemma full_names_plain (k : Culprit) :
  exists full,
    @_build_scenes all_assets (culprit_id k) = Ok full
    /\ Forall (fun sc =>
         Forall (fun art => Py.strip (spec_filename art) = spec_filename art)
           (artifacts sc)) full.
Proof.
  destruct k; eexists.
  all: split; [vm_compute; reflexivity|].
  all: each_element; vm_compute; reflexivity.
Qed.

Section MemoryPopup.
Context `{AssetProvider}.

Lemma built_name_plain (k : Culprit) (scs : list MemoryScene) (sc : MemoryScene)
    (art : SceneArtifact) :
  _build_scenes (culprit_id k) = Ok scs -> sc ∈ scs -> art ∈ artifacts sc ->
  Py.strip (spec_filename art) = spec_filename art.
Proof.
  intros Hscs Hsc Hart.
  destruct (build_scenes_within k) as (scs' & full & Hscs' & Hfull & Hwithin).
  assert (scs' = scs) as -> by congruence.
  destruct (full_names_plain k) as (full' & Hfull' & Hplain).
  assert (full' = full) as -> by congruence.
  apply list_elem_of_lookup_1 in Hsc as (i & Hi).
  destruct (Forall2_lookup_l _ _ _ _ _ Hwithin Hi) as (f & Hf & _ & Hsub).
  rewrite Forall_lookup in Hplain. specialize (Hplain _ _ Hf). cbn beta in Hplain.
  rewrite Forall_forall in Hplain. apply Hplain. by eapply elem_of_sublist.
Qed.

(** X26.  The memory popup of the ending shows what was captured: for
    every snapshot of the ledger of a run, the popup opened on it reads
    the image of the artifact that triggered the snapshot from the file
    the scene popup read it from, and that image loads; for a snapshot
    taken with the key S, which has no trigger, it shows no image. *)
Theorem memory_popup_shows_the_captured_artifact (k : Culprit)
    (ticks : list (list Event * Z)) (s0 s' : GameState) (j : nat) (snap : Snapshot) :
  (length clock_rects <= 6)%nat ->
  init k = Ok s0 -> run_frames ticks s0 = Ok s' ->
  snapshots s' !! j = Some snap ->
  exists i sc,
    scenes s' !! i = Some sc
    /\ scene_label snap = label sc
    /\ ((snap = scene_capture sc
         /\ popup_artifact_surface (_load_ending_popup_artifact j s') = None)
        \/ (exists art,
              art ∈ artifacts sc
              /\ snap = artifact_capture sc art
              /\ popup_artifact_surface (_load_ending_popup_artifact j s')
                 = Some (popup_path i (spec_filename art))
              /\ loads (popup_path i (spec_filename art)) = true)).
Proof.
  intros Hclocks Hinit Hrun Hj.
  destruct (reachable_play _ _ _ _ Hclocks Hinit Hrun) as ((Hsc & _ & Hall & _) & Hscs & _).
  rewrite Forall_lookup in Hall. specialize (Hall _ _ Hj).
  destruct Hall as (sc & Hin & Hsnap).
  pose proof Hin as Hin'. apply list_elem_of_lookup_1 in Hin' as (i & Hi).
  destruct (built_scenes_facts _ _ Hscs) as (_ & Hlbls & Hfacts & _).
  assert (Hdup : NoDup (map label (scenes s0))).
  { rewrite Hlbls. refine (bool_decide_unpack _ _). vm_compute. exact I. }
  pose proof (find_index_by_label _ _ _ Hdup Hi) as Hfind.
  exists i, sc. rewrite Hsc. split; [exact Hi|].
  split; [by destruct Hsnap as [->|(art & _ & ->)]|].
  revert Hj Hsc. open_state s'. unfold _load_ending_popup_artifact. fields.
  intros Hj ->. rewrite Hj.
  destruct Hsnap as [->|(art & Hart & ->)].
  - left. split; [reflexivity|]. reflexivity.
  - right. exists art. split; [exact Hart|]. split; [reflexivity|].
    pose proof (artifact_image_loads k _ i sc art Hscs Hi Hart) as Hloads.
    split; [|exact Hloads].
    cbn [artifact_capture trigger_artifact_filename scene_label default from_option id].
    rewrite (built_name_plain k _ sc art Hscs Hin Hart).
    destruct (Hfacts sc Hin) as (_ & Hsound & _).
    rewrite Forall_forall in Hsound.
    destruct (artifact_sound_info _ _ (Hsound art Hart)) as [_ Hname].
    rewrite Hname, Hfind. cbn [default from_option id].
    unfold popup_path in Hloads |- *.
    destruct (is_replacement_name (Py.lower (spec_filename art)));
      rewrite Hloads; reflexivity.
Qed.

End MemoryPopup.

Lemma memory_popup_shows_the_captured_artifact_witness :
  exists i sc,
    scenes false_judgement_state !! i = Some sc
    /\ scene_label (nth 1 (snapshots false_judgement_state)
                      (mkSnapshot [] EmptyString 0 0 0 None)) = label sc
    /\ ((nth 1 (snapshots false_judgement_state) (mkSnapshot [] EmptyString 0 0 0 None)
         = scene_capture sc
         /\ popup_artifact_surface
              (@_load_ending_popup_artifact all_assets 1 false_judgement_state) = None)
        \/ (exists art,
              art ∈ artifacts sc
              /\ nth 1 (snapshots false_judgement_state)
                   (mkSnapshot [] EmptyString 0 0 0 None)
                 = artifact_capture sc art
              /\ popup_artifact_surface
                   (@_load_ending_popup_artifact all_assets 1 false_judgement_state)
                 = Some (popup_path i (spec_filename art))
              /\ @loads all_assets (popup_path i (spec_filename art)) = true)).
Proof.
  apply (@memory_popup_shows_the_captured_artifact all_assets Goblin false_judgement_run
           (start_state Goblin) false_judgement_state 1).
  - simpl. lia.
  - vm_compute; reflexivity.
  - vm_compute; reflexivity.
  - vm_compute; reflexivity.
Defined.

(** * Properties of the clock images *)

Lemma half_bounds (w : Z) : 2 * (w / 2) <= w < 2 * (w / 2) + 2.
Proof.
  pose proof (Z.div_mod w 2 ltac:(lia)). pose proof (Z.mod_pos_bound w 2 ltac:(lia)). lia.
Qed.

Lemma collidepoint_bool (r : Rect) (p : Z * Z) (b : bool) :
  (if b then collidepoint r p = true else collidepoint r p = false) ->
  collidepoint r p = b.
Proof. destruct b; auto. Qed.

Section ClockImages.
Context `{AssetProvider}.
Variable rotated_size : nat -> option (Z * Z).
Hypothesis Hrects : clock_rects = _load_menu_assets rotated_size.

(** X27.  The click areas of the clock images: [_load_menu_assets] always
    leaves six of them.  When one of the six images fails to load the
    menu falls back to the grid of discs.  When all six load, each
    narrower than 360 pixels and lower than 960, a click on the centre of
    clock image [i] enters scene [i], with time left on the clock. *)
Theorem clock_image_click_enters_its_scene :
  length clock_rects = 6%nat
  /\ ((exists i, (i < 6)%nat /\ rotated_size i = None) ->
      (6 <=? length clock_rects)%nat
      && forallb (fun r => 0 <? width r) (take 6 clock_rects) = false)
  /\ ((forall i, (i < 6)%nat ->
         exists w h, rotated_size i = Some (w, h) /\ 1 <= w < 360 /\ 1 <= h < 960) ->
      forall (s : GameState) (i : nat) (off : Z * Z),
        0 < global_time s -> clock_offsets !! i = Some off ->
        _handle_menu_click (clock_image_center off) s = enter_scene i s).
Proof.
  rewrite Hrects. split; [reflexivity|]. split.
  - intros (i & Hi & Hnone). unfold _load_menu_assets, clock_offsets.
    cbn [imap length Nat.leb take andb].
    do 6 (destruct i as [|i];
          [cbn [imap forallb compose]; rewrite Hnone; cbn [width Z.ltb Z.compare andb];
           by rewrite ?andb_false_r|]).
    lia.
  - intros Hall s i off Htime Hoff.
    destruct (Hall 0%nat ltac:(lia)) as (w0 & h0 & H0 & Hw0 & Hh0).
    destruct (Hall 1%nat ltac:(lia)) as (w1 & h1 & H1 & Hw1 & Hh1).
    destruct (Hall 2%nat ltac:(lia)) as (w2 & h2 & H2 & Hw2 & Hh2).
    destruct (Hall 3%nat ltac:(lia)) as (w3 & h3 & H3 & Hw3 & Hh3).
    destruct (Hall 4%nat ltac:(lia)) as (w4 & h4 & H4 & Hw4 & Hh4).
    destruct (Hall 5%nat ltac:(lia)) as (w5 & h5 & H5 & Hw5 & Hh5).
    pose proof (half_bounds w0). pose proof (half_bounds h0).
    pose proof (half_bounds w1). pose proof (half_bounds h1).
    pose proof (half_bounds w2). pose proof (half_bounds h2).
    pose proof (half_bounds w3). pose proof (half_bounds h3).
    pose proof (half_bounds w4). pose proof (half_bounds h4).
    pose proof (half_bounds w5). pose proof (half_bounds h5).
    unfold _handle_menu_click. rewrite Hrects.
    unfold _load_menu_assets, clock_offsets in *.
    cbn [imap compose length Nat.leb take forallb].
    rewrite H0, H1, H2, H3, H4, H5. cbn [width andb].
    replace (0 <? w0) with true by (symmetry; apply Z.ltb_lt; lia).
    replace (0 <? w1) with true by (symmetry; apply Z.ltb_lt; lia).
    replace (0 <? w2) with true by (symmetry; apply Z.ltb_lt; lia).
    replace (0 <? w3) with true by (symmetry; apply Z.ltb_lt; lia).
    replace (0 <? w4) with true by (symmetry; apply Z.ltb_lt; lia).
    replace (0 <? w5) with true by (symmetry; apply Z.ltb_lt; lia).
    cbn [andb].
    replace (global_time s <=? 0) with false by (symmetry; apply Z.leb_gt; lia).
    do 6 (destruct i as [|i];
          [injection Hoff as <-; unfold clock_image_center, WIDTH, HEIGHT;
           cbn [fst snd find_index_from];
           change (1100 / 2) with 550; change (700 / 2) with 350;
           rewrite (collidepoint_bool accuse_rect _ false)
             by (apply collidepoint_false; unfold accuse_rect, WIDTH, HEIGHT;
                 cbn [left top width height fst snd]; lia);
           repeat first
             [ rewrite (collidepoint_bool _ _ false)
                 by (apply collidepoint_false; cbn [left top width height fst snd]; lia)
             | rewrite (collidepoint_bool _ _ true)
                 by (apply collidepoint_true; cbn [left top width height fst snd]; lia) ];
           reflexivity|]).
    done.
Qed.

End ClockImages.

Lemma clock_image_click_enters_its_scene_witness :
  @_handle_menu_click clock_assets (clock_image_center (-340, 0)) clock_menu_state
  = enter_scene 2 clock_menu_state.
Proof.
  refine (proj2 (proj2 (@clock_image_click_enters_its_scene clock_assets
                          (fun _ => Some (120, 130)) eq_refl))
            _ clock_menu_state 2%nat (-340, 0) _ eq_refl).
  - intros i _. exists 120, 130. split; [reflexivity | lia].
  - vm_compute; reflexivity.
Defined.
